(** * The emprinten PDF rendering pipeline ([backend/emprinten/renderer.py])

    A shallow embedding of the renderer module and the properties of its
    functions: the Virtual File Set and lookup-table builders, the template
    compiler, the HTML-to-PDF compiler, and [render_pdf] with its temporary
    directory and its responses.

    The module talks to a file system, to mutable row dictionaries, and to
    three libraries (jinja2, weasyprint, the helpers of [emprinten/files.py]).
    The file system and the dictionaries are an explicit [world] threaded
    through a state-and-exception monad; the libraries are the fields of the
    class [Runtime], so that every theorem holds for whatever they compute or
    raise. *)

From Stdlib Require Import Ascii DecimalString.
From Stdlib Require DecimalNat.
From stdpp Require Import gmap strings list fin_maps.

Set Warnings "-register-all".

(** ** Python strings *)

Module Str.

Definition of_ascii (c : ascii) : string := String c EmptyString.

(** Characters that cannot be written inside a literal here. *)
Definition nl : string := of_ascii (ascii_of_nat 10).
Definition dquote : string := of_ascii (ascii_of_nat 34).

Definition slash : ascii := ascii_of_nat 47.
Definition dot : ascii := ascii_of_nat 46.

(** [strip_prefix p s] is [Some r] when [s = p ++ r]. *)
Fixpoint strip_prefix (p s : string) : option string :=
  match p, s with
  | EmptyString, _ => Some s
  | String a p', String b s' =>
      if decide (a = b) then strip_prefix p' s' else None
  | String _ _, EmptyString => None
  end.

(** [str.removeprefix]: the string without the prefix when it starts with
    it, the string itself otherwise. *)
Definition removeprefix (s p : string) : string :=
  match strip_prefix p s with
  | Some r => r
  | None => s
  end.

Definition startswith (s p : string) : bool :=
  bool_decide (is_Some (strip_prefix p s)).

Fixpoint endswith_char (s : string) (c : ascii) : bool :=
  match s with
  | EmptyString => false
  | String a EmptyString => bool_decide (a = c)
  | String _ s' => endswith_char s' c
  end.

Fixpoint mem (c : ascii) (s : string) : bool :=
  match s with
  | EmptyString => false
  | String a s' => bool_decide (a = c) || mem c s'
  end.

(** Left padding with zeros, as the format specification [03d] does. *)
Fixpoint zeros (n : nat) : string :=
  match n with
  | O => EmptyString
  | S n' => String "0"%char (zeros n')
  end.

Definition decimal (n : nat) : string :=
  NilEmpty.string_of_uint (Nat.to_uint n).

(** [f"{idx:03d}"] for a non-negative [idx]. *)
Definition format_03d (idx : nat) : string :=
  let d := decimal idx in
  zeros (3 - String.length d) +:+ d.

(** Reading a decimal numeral back (leading zeros allowed). *)
Definition parse_decimal (s : string) : option nat :=
  Nat.of_uint <$> NilEmpty.uint_of_string s.

(** [s[0:s.find(chr(0))]] when [s] has a null byte, [s] otherwise. *)
Fixpoint until_nul (s : string) : string :=
  match s with
  | EmptyString => ""
  | String c s' => if decide (c = ascii_of_nat 0) then "" else String c (until_nul s')
  end.

End Str.

(** ** [os.path] on POSIX *)

Module os_path.
Import Str.

(** [posixpath.join] of two components. *)
Definition join (a b : string) : string :=
  if startswith b "/" then b
  else if bool_decide (a = "") || endswith_char a slash then a +:+ b
  else a +:+ "/" +:+ b.

(** What [join d] puts in front of a relative component. *)
Definition dir_prefix (d : string) : string :=
  if bool_decide (d = "") || endswith_char d slash then d else d +:+ "/".

(** [basename_from acc p]: the last component of [acc ++ p] when [acc]
    holds the characters read since the last separator. *)
Fixpoint basename_from (acc p : string) : string :=
  match p with
  | EmptyString => acc
  | String c p' =>
      if decide (c = slash) then basename_from "" p'
      else basename_from (acc +:+ of_ascii c) p'
  end.

(** [posixpath.basename]: what follows the last separator. *)
Definition basename (p : string) : string := basename_from "" p.

(** The directory part, up to and including the last separator. *)
Fixpoint dirpart_from (done acc p : string) : string :=
  match p with
  | EmptyString => done
  | String c p' =>
      if decide (c = slash) then dirpart_from (done +:+ acc +:+ "/") "" p'
      else dirpart_from done (acc +:+ of_ascii c) p'
  end.

Definition dirpart (p : string) : string := dirpart_from "" "" p.

(** Leading dots of a file name, and the rest. *)
Fixpoint leading_dots (s : string) : string * string :=
  match s with
  | String c s' =>
      if decide (c = dot)
      then let '(d, r) := leading_dots s' in (String c d, r)
      else ("", s)
  | EmptyString => ("", "")
  end.

(** [split_last_dot s]: [s] cut at its last dot, the dot going with the
    second part. [None] when [s] has no dot. *)
Fixpoint split_last_dot (s : string) : option (string * string) :=
  match s with
  | EmptyString => None
  | String c s' =>
      match split_last_dot s' with
      | Some (root, ext) => Some (String c root, ext)
      | None => if decide (c = dot) then Some ("", s) else None
      end
  end.

(** [posixpath.splitext]: the extension starts at the last dot of the last
    component, leading dots of that component apart. *)
Definition splitext (p : string) : string * string :=
  let '(dots, rest) := leading_dots (basename p) in
  match split_last_dot rest with
  | Some (root, ext) => (dirpart p +:+ dots +:+ root, ext)
  | None => (p, "")
  end.

(** [p.split("/")] *)
Fixpoint split (p : string) : list string :=
  match p with
  | EmptyString => [""]
  | String c p' =>
      if decide (c = slash) then "" :: split p'
      else
        match split p' with
        | comp :: comps => String c comp :: comps
        | [] => [of_ascii c]
        end
  end.

(** ["/".join(comps)] *)
Fixpoint join_slash (comps : list string) : string :=
  match comps with
  | [] => ""
  | comp :: comps' =>
      match comps' with
      | [] => comp
      | _ :: _ => comp +:+ "/" +:+ join_slash comps'
      end
  end.

(** ["/" * n] *)
Fixpoint slashes (n : nat) : string :=
  match n with
  | 0 => ""
  | S n' => "/" +:+ slashes n'
  end.

(** The body of the loop of [posixpath.normpath]: empty components and
    [.] are dropped, [..] removes the component before it unless there is
    none to remove or that one is [..] itself. *)
Definition normpath_step (initial_slashes : nat) (new_comps : list string)
    (comp : string) : list string :=
  if bool_decide (comp = "" \/ comp = ".") then new_comps
  else if bool_decide (comp <> ".."
                       \/ (initial_slashes = 0 /\ new_comps = [])
                       \/ last new_comps = Some "..")
  then new_comps ++ [comp]
  else removelast new_comps.

(** [posixpath.normpath] *)
Definition normpath (path : string) : string :=
  if bool_decide (path = "") then "."
  else
    let initial_slashes :=
      if startswith path "/" then
        if startswith path "//" && negb (startswith path "///") then 2 else 1
      else 0 in
    let comps := foldl (normpath_step initial_slashes) [] (split path) in
    let path := slashes initial_slashes +:+ join_slash comps in
    if bool_decide (path = "") then "." else path.

End os_path.

(** ** Python dictionaries

    A [dict] keeps its keys in the order of their first insertion, and
    [values()] iterates in that order; storing under a key that is present
    replaces the value in place. The renderer iterates over [vfs.values()],
    so the order is part of the model. *)

Module PyDict.
Section dict.
Context {V : Type}.

Fixpoint get (k : string) (d : list (string * V)) : option V :=
  match d with
  | [] => None
  | (k', v) :: d' => if decide (k' = k) then Some v else get k d'
  end.

(** [d[k] = v] *)
Fixpoint set (k : string) (v : V) (d : list (string * V)) : list (string * V) :=
  match d with
  | [] => [(k, v)]
  | (k', v') :: d' =>
      if decide (k' = k) then (k', v) :: d' else (k', v') :: set k v d'
  end.

Definition keys (d : list (string * V)) : list string := d.*1.
Definition values (d : list (string * V)) : list V := d.*2.

(** A dict display or comprehension: the items are stored one by one. *)
Definition of_items (items : list (string * V)) : list (string * V) :=
  foldl (fun d kv => set kv.1 kv.2 d) [] items.

(** [dict(d)]: a new dictionary with the same items. *)
Definition copy (d : list (string * V)) : list (string * V) := d.
End dict.
End PyDict.

Abbreviation dict V := (list (string * V)).

(** ** The data model *)

(** Modelled from the spec: [ProjectFile], a Django model declared in
    [emprinten/models.py], which is not among the sources. The renderer reads
    its [file_name] and its [type]; the type is one of Main, HTML, CSS and
    CSV. [OtherType] stands for any further member the enumeration may have:
    the renderer treats it as it treats every type it does not name. *)
Module ProjectFile.
Inductive Type_ := Main | HTML | CSS | CSV | OtherType (tag : string).
Record t := mk { file_name : string; type : Type_ }.
End ProjectFile.

(** Modelled from the spec: [FileVersion], declared in [emprinten/models.py]
    too: one content revision of a project file, with a reference to its
    file. [data] is the stored content, as [data.read()] and
    [data.open(..).read()] return it. *)
Module FileVersion.
Record t := mk { file : ProjectFile.t; data : string }.
End FileVersion.

#[global] Instance Type_eq_dec : EqDecision ProjectFile.Type_.
Proof. solve_decision. Defined.

Abbreviation Vfs := (dict FileVersion.t).

(** A value of a row: a string or a nested mapping. *)
Inductive val :=
| VStr (s : string)
| VDict (d : list (string * val)).

(** Rows are mutable dictionaries: a row is a reference into the heap of
    dictionary objects, and two references to one object alias. *)
Definition loc := nat.
Abbreviation DataRow := (dict val).
Abbreviation DataSet := (list loc).
Abbreviation FileWithData := (string * option loc)%type.

Definition LOCAL_FILE_URI_PREFIX : string := "file:///".

(** ** The world: file system and heap *)

Inductive node :=
| Dir
| File (content : string)
| ZipArchive (entries : list (string * string)).

Record world := World {
  fs : gmap string node;
  heap : list DataRow;
}.

Definition with_fs (f : gmap string node -> gmap string node) (w : world) : world :=
  World (f (fs w)) (heap w).

Inductive exn :=
| TemplateNotFound (name : string)
| ValueError (msg : string)
| KeyError
| TypeError (msg : string)
| FileExistsError (path : string)
| FileNotFoundError (path : string)
| IsADirectoryError (path : string)
| NotADirectoryError (path : string)
| IndexError
| LibraryError (what : string).

Inductive result (A : Type) :=
| Ok (a : A)
| Raise (e : exn).
Arguments Ok {A} a.
Arguments Raise {A} e.

Definition result_bind {A B} (r : result A) (k : A -> result B) : result B :=
  match r with
  | Ok a => k a
  | Raise e => Raise e
  end.

(** A computation runs in a world and leaves a world, whether it returns or
    raises. *)
Definition M (A : Type) : Type := world -> world * result A.

Definition ret {A} (a : A) : M A := fun w => (w, Ok a).
Definition raise {A} (e : exn) : M A := fun w => (w, Raise e).
Definition lift {A} (r : result A) : M A := fun w => (w, r).

Definition bind {A B} (m : M A) (k : A -> M B) : M B :=
  fun w =>
    match m w with
    | (w', Ok a) => k a w'
    | (w', Raise e) => (w', Raise e)
    end.

(** [try: m finally: fin]. An exception of [fin] replaces the outcome of
    [m]. *)
Definition try_finally {A} (m : M A) (fin : M unit) : M A :=
  fun w =>
    let '(w1, r) := m w in
    match fin w1 with
    | (w2, Ok _) => (w2, r)
    | (w2, Raise e) => (w2, Raise e)
    end.

Notation "x <- m ;; k" := (bind m (fun x => k))
  (at level 100, m at next level, right associativity).
Notation "m ;; k" := (bind m (fun _ => k))
  (at level 100, right associativity).

(** Responses. [FileResponse] holds the file it streams as it was opened:
    an open file outlives the removal of its directory entry. Its status is
    Django's default, 200. *)
Inductive HttpResponseBase :=
| HttpResponse (content : string) (status : nat)
| FileResponse (stream : node) (content_type : string) (filename : option string).

Definition status_code (r : HttpResponseBase) : nat :=
  match r with
  | HttpResponse _ s => s
  | FileResponse _ _ _ => 200
  end.

(** The content type of a response. [HttpResponse] is built without one in
    [render_pdf] and has Django's default, [text/html] with the default
    charset; [FileResponse] has the one it is given. *)
Definition DEFAULT_CONTENT_TYPE : string := "text/html; charset=utf-8".

Definition content_type_of (r : HttpResponseBase) : string :=
  match r with
  | HttpResponse _ _ => DEFAULT_CONTENT_TYPE
  | FileResponse _ content_type _ => content_type
  end.

(** ** File system operations *)

Module Fs.

(** The paths below [d]: what [os.path.join d] yields for a relative,
    non-empty component. *)
Definition inside (d p : string) : bool :=
  match Str.strip_prefix (os_path.dir_prefix d) p with
  | Some r => negb (bool_decide (r = ""))
  | None => false
  end.

(** [os.mkdir]; at its two call sites the parent is the directory just
    made. *)
Definition mkdir (p : string) : M unit :=
  fun w =>
    match fs w !! p with
    | Some _ => (w, Raise (FileExistsError p))
    | None => (with_fs <[p := Dir]> w, Ok tt)
    end.

(** [open(p, "w")]: the file is created, or emptied. *)
Definition open_w (p : string) : M unit :=
  fun w => (with_fs <[p := File ""]> w, Ok tt).

(** [of.write(s)] on the file opened at [p]. *)
Definition write (p s : string) : M unit :=
  fun w =>
    (with_fs (alter (fun n => match n with
                              | File c => File (c +:+ s)
                              | _ => n
                              end) p) w, Ok tt).

(** Reading the text of a regular file. *)
Definition read (p : string) : M string :=
  fun w =>
    match fs w !! p with
    | Some (File c) => (w, Ok c)
    | Some (ZipArchive _) => (w, Raise (LibraryError "not a text file"))
    | Some Dir => (w, Raise (IsADirectoryError p))
    | None => (w, Raise (FileNotFoundError p))
    end.

(** [open(p, "rb")]: the file as a stream. *)
Definition open_rb (p : string) : M node :=
  fun w =>
    match fs w !! p with
    | Some (File c) => (w, Ok (File c))
    | Some (ZipArchive es) => (w, Ok (ZipArchive es))
    | Some Dir => (w, Raise (IsADirectoryError p))
    | None => (w, Raise (FileNotFoundError p))
    end.

(** [zipfile.ZipFile(z, "w")]: a new, empty archive. *)
Definition zip_create (z : string) : M unit :=
  fun w => (with_fs <[z := ZipArchive []]> w, Ok tt).

(** [while arcname[0] in (os.sep, os.altsep): arcname = arcname[1:]] of
    [ZipInfo.from_file]: indexing the empty string raises. *)
Fixpoint lstrip_sep (arcname : string) : result string :=
  match arcname with
  | EmptyString => Raise IndexError
  | String c arcname' =>
      if decide (c = Str.slash) then lstrip_sep arcname' else Ok arcname
  end.

(** The name of the entry [ZipFile.write] makes for [arcname]:
    [ZipInfo.from_file] normalises the path and drops the separators in
    front, [ZipInfo.__init__] ends the name at the first null byte. *)
Definition zip_entry_name (arcname : string) : result string :=
  result_bind (lstrip_sep (os_path.normpath arcname)) (fun name =>
  Ok (Str.until_nul name)).

(** [z.write(p, arcname=a)]: the content of [p] is appended under the entry
    name of [a]; a name already present is added again. *)
Definition zip_write (z p a : string) : M unit :=
  c <- read p ;;
  name <- lift (zip_entry_name a) ;;
  fun w =>
    (with_fs (alter (fun n => match n with
                              | ZipArchive es => ZipArchive (es ++ [(name, c)])
                              | _ => n
                              end) z) w, Ok tt).

(** [shutil.rmtree d]. *)
Definition rmtree (d : string) : M unit :=
  fun w =>
    match fs w !! d with
    | Some Dir =>
        (with_fs (filter (fun kv => kv.1 <> d /\ inside d kv.1 = false)) w, Ok tt)
    | Some _ => (w, Raise (NotADirectoryError d))
    | None => (w, Raise (FileNotFoundError d))
    end.

End Fs.

(** [dict(row)]: a new dictionary object with the entries of [row]. *)
Definition dict_copy (row : loc) : M loc :=
  fun w =>
    match heap w !! row with
    | Some o => (World (fs w) (heap w ++ [PyDict.copy o]), Ok (length (heap w)))
    | None => (w, Raise (TypeError "not a mapping"))
    end.

(** ** The libraries

    jinja2, weasyprint, [tempfile] and the helpers of [emprinten/files.py]
    are not part of the module. Their operations are the fields of [Runtime]:
    each may return or raise, and rendering a template may write to the heap
    (a sandboxed template can still call [row.update]). *)

Record fetched := Fetched { file_obj : string; redirected_url : string }.

Class Runtime := {
  Template : Type;
  Lut : Type;
  Css : Type;
  (** [files.make_name], [files.make_lut(data, "utf-8")] *)
  make_name : string -> string;
  make_lut : string -> result Lut;
  (** what [NameFactory] accepts as a name *)
  usable_name : string -> bool;
  (** compiling template source, [Environment.from_string] *)
  jinja_compile : string -> result Template;
  (** [Template.render]: the loader function, the template, the [row] and
      the other variables *)
  jinja_render :
    (string -> option (string * string)) -> Template -> option loc ->
    dict Lut -> list DataRow -> list DataRow * result string;
  (** [weasyprint.CSS(string=.., url_fetcher=..)] *)
  weasyprint_CSS : string -> (string -> result fetched) -> result Css;
  (** [weasyprint.HTML(..).write_pdf(stylesheets=..)] on the text of the
      source file *)
  weasyprint_write_pdf :
    string -> list Css -> (string -> result fetched) -> result string;
  (** the name [tempfile.mkdtemp] settles on *)
  mkdtemp_name : gmap string node -> string;
}.

(** ** The renderer *)

Definition html_header (title lang : string) : string :=
  "<!DOCTYPE html>" +:+ Str.nl +:+
  "<html lang=" +:+ Str.dquote +:+ lang +:+ Str.dquote +:+ ">" +:+ Str.nl +:+
  "<head>" +:+ Str.nl +:+
  "     <meta charset=" +:+ Str.dquote +:+ "utf-8" +:+ Str.dquote +:+ ">" +:+ Str.nl +:+
  "     <title>" +:+ title +:+ "</title>" +:+ Str.nl +:+
  "</head>" +:+ Str.nl.

Definition html_footer : string := Str.nl +:+ "</html>" +:+ Str.nl.

Definition files_to_vfs (files : list FileVersion.t) : Vfs :=
  PyDict.of_items
    (map (fun file_version =>
            (ProjectFile.file_name (FileVersion.file file_version), file_version))
         files).

Fixpoint find_main (files : list FileVersion.t) : option FileVersion.t :=
  match files with
  | [] => None
  | file_version :: files' =>
      if decide (ProjectFile.type (FileVersion.file file_version) = ProjectFile.Main)
      then Some file_version
      else find_main files'
  end.

Section renderer.
Context `{Runtime}.

(** The items of the comprehension in [find_lookup_tables], evaluated in
    order; the first [make_lut] that raises ends the evaluation. *)
Fixpoint lookup_table_items (files : list FileVersion.t) : result (list (string * Lut)) :=
  match files with
  | [] => Ok []
  | file_version :: files' =>
      if decide (ProjectFile.type (FileVersion.file file_version) = ProjectFile.CSV)
      then
        result_bind (make_lut (FileVersion.data file_version)) (fun lut =>
        result_bind (lookup_table_items files') (fun items =>
        Ok ((make_name (ProjectFile.file_name (FileVersion.file file_version)), lut)
              :: items)))
      else lookup_table_items files'
  end.

Definition find_lookup_tables (files : list FileVersion.t) : result (dict Lut) :=
  result_bind (lookup_table_items files) (fun items => Ok (PyDict.of_items items)).

(** [tempfile.mkdtemp()]: the directory is made under the name the runtime
    settles on. [mkdtemp] gives up with [FileExistsError] when it finds no
    free name; that is the case of a name that exists. *)
Definition mkdtemp : M string :=
  fun w =>
    let d := mkdtemp_name (fs w) in
    match fs w !! d with
    | Some _ => (w, Raise (FileExistsError d))
    | None => (with_fs <[d := Dir]> w, Ok d)
    end.

(** The context manager [make_temp_dir], with the [with] block as
    [body]. *)
Definition make_temp_dir {A} (keep : bool) (body : string -> M A) : M A :=
  tmp_dir <- mkdtemp ;;
  try_finally (body tmp_dir) (if keep then ret tt else Fs.rmtree tmp_dir).

End renderer.

Module TemplateCompiler.
Section methods.
Context `{Runtime}.
Variable vfs : Vfs.

(** The loader function of the environment. *)
Definition _do_lookup (name : string) : option (string * string) :=
  match PyDict.get name vfs with
  | None => None
  | Some the_file =>
      if decide (ProjectFile.type (FileVersion.file the_file)
                   ∉ [ProjectFile.Main; ProjectFile.HTML; ProjectFile.CSS])
      then None
      else Some (FileVersion.data the_file, name)
  end.

Definition from_string (s : option string) : result (option Template) :=
  match s with
  | None => Ok None
  | Some s => result_bind (jinja_compile s) (fun t => Ok (Some t))
  end.

(** [FunctionLoader.get_source]: a loader function that returns [None]
    makes it raise [TemplateNotFound]. *)
Definition get_source (file_name : string) : result string :=
  match _do_lookup file_name with
  | None => Raise (TemplateNotFound file_name)
  | Some (src, _) => Ok src
  end.

(** [Environment.get_template] *)
Definition get_template (name : string) : result Template :=
  result_bind (get_source name) jinja_compile.

(** [t.render(row=row, **kwargs)]. The call fails before [render] runs
    when [kwargs] repeats the keyword [row], or holds [self], the first
    parameter of [Template.render(self, *args, **kwargs)]. *)
Definition render (t : Template) (row : option loc) (kwargs : dict Lut) : M string :=
  match PyDict.get "row" kwargs with
  | Some _ => raise (TypeError "got multiple values for keyword argument 'row'")
  | None =>
      match PyDict.get "self" kwargs with
      | Some _ => raise (TypeError "got multiple values for argument 'self'")
      | None =>
          fun w =>
            let '(h, r) := jinja_render _do_lookup t row kwargs (heap w) in
            (World (fs w) h, r)
      end
  end.

(** The loop of the split branch, from index [idx] on. *)
Fixpoint compile_split (tpl title_pattern : Template) (lookups : dict Lut)
    (src_dir : string) (idx : nat) (data : DataSet)
    (sources : list FileWithData) : M (list FileWithData) :=
  match data with
  | [] => ret sources
  | row :: data' =>
      row_copy <- dict_copy row ;;
      title <- render title_pattern (Some row_copy) [] ;;
      let src_name := os_path.join src_dir (Str.format_03d idx +:+ ".html") in
      let sources := sources ++ [(src_name, Some row_copy)] in
      Fs.open_w src_name ;;
      Fs.write src_name (html_header title "fi") ;;
      body <- render tpl (Some row_copy) lookups ;;
      Fs.write src_name body ;;
      Fs.write src_name html_footer ;;
      compile_split tpl title_pattern lookups src_dir (S idx) data' sources
  end.

(** The loop of the merged branch. *)
Fixpoint write_rows (tpl : Template) (lookups : dict Lut)
    (src_name : string) (data : DataSet) : M unit :=
  match data with
  | [] => ret tt
  | row :: data' =>
      row_copy <- dict_copy row ;;
      body <- render tpl (Some row_copy) lookups ;;
      Fs.write src_name body ;;
      write_rows tpl lookups src_name data'
  end.

Definition compile (main_file_name src_dir : string) (data : DataSet)
    (title_pattern : string) (split_output : bool) : M (list FileWithData) :=
  lookups <- lift (find_lookup_tables (PyDict.values vfs)) ;;
  tpl <- lift (get_template main_file_name) ;;
  title_pattern <- lift (jinja_compile title_pattern) ;;
  if split_output then
    compile_split tpl title_pattern lookups src_dir 1 data []
  else
    row_copy <- match data with
                | [row] => c <- dict_copy row ;; ret (Some c)
                | _ => ret None
                end ;;
    title <- match data with
             | [] => ret ""
             | _ => render title_pattern row_copy []
             end ;;
    let src_name := os_path.join src_dir "master.html" in
    let sources := [(src_name, row_copy)] in
    Fs.open_w src_name ;;
    Fs.write src_name (html_header title "fi") ;;
    write_rows tpl lookups src_name data ;;
    Fs.write src_name html_footer ;;
    ret sources.

End methods.
End TemplateCompiler.

Module HtmlCompiler.
Section methods.
Context `{Runtime}.
Variable vfs : Vfs.

Definition find_stylesheets (files : list FileVersion.t) : list FileVersion.t :=
  filter (fun file_version =>
            ProjectFile.type (FileVersion.file file_version) = ProjectFile.CSS)
         files.

(** The URL fetcher handed to weasyprint. *)
Definition _do_lookup (url : string) : result fetched :=
  let file_url := Str.removeprefix url LOCAL_FILE_URI_PREFIX in
  if decide (file_url = url) then Raise (ValueError "Invalid URL to look up for")
  else
    match PyDict.get file_url vfs with
    | None => Raise KeyError
    | Some the_file => Ok (Fetched (FileVersion.data the_file) file_url)
    end.

Fixpoint parse_sheets (sheets : list FileVersion.t) : result (list Css) :=
  match sheets with
  | [] => Ok []
  | sheet_file :: sheets' =>
      result_bind (weasyprint_CSS (FileVersion.data sheet_file) _do_lookup) (fun css =>
      result_bind (parse_sheets sheets') (fun rest => Ok (css :: rest)))
  end.

(** The loop over the sources. *)
Fixpoint compile_sources (parsed_sheets : list Css) (result_dir : string)
    (sources results : list FileWithData) : M (list FileWithData) :=
  match sources with
  | [] => ret results
  | (source, row) :: sources' =>
      html <- Fs.read source ;;
      pdf <- lift (weasyprint_write_pdf html parsed_sheets _do_lookup) ;;
      let dst_base := (os_path.splitext (os_path.basename source)).1 in
      let dst_name := os_path.join result_dir (dst_base +:+ ".pdf") in
      let results := results ++ [(dst_name, row)] in
      Fs.open_w dst_name ;;
      Fs.write dst_name pdf ;;
      compile_sources parsed_sheets result_dir sources' results
  end.

Definition compile (sources : list FileWithData) (result_dir : string)
    : M (list FileWithData) :=
  parsed_sheets <- lift (parse_sheets (find_stylesheets (PyDict.values vfs))) ;;
  compile_sources parsed_sheets result_dir sources [].

End methods.
End HtmlCompiler.

Section render_pdf.
Context `{Runtime}.

(** Modelled from the spec: [NameFactory(name_tpl).make(vars, fallback)] of
    [emprinten/files.py], which is not among the sources. The naming
    template is evaluated against [{"row": row}]; the fallback is the name
    when the template is absent or yields no usable name. *)
Definition NameFactory_make (vfs : Vfs) (name_tpl : option Template)
    (row : option loc) (fallback : string) : M string :=
  match name_tpl with
  | None => ret fallback
  | Some tpl =>
      name <- TemplateCompiler.render vfs tpl row [] ;;
      ret (if usable_name name then name else fallback)
  end.

(** [env.from_string(filename_pattern) if filename_pattern else None]: an
    empty pattern is no pattern. *)
Definition name_template (vfs : Vfs) (filename_pattern : option string)
    : result (option Template) :=
  match filename_pattern with
  | None | Some "" => Ok None
  | Some s => TemplateCompiler.from_string (Some s)
  end.

(** The loop that fills the archive. *)
Fixpoint write_archive (vfs : Vfs) (name_tpl : option Template) (z_name : string)
    (results : list FileWithData) : M unit :=
  match results with
  | [] => ret tt
  | (pdf_name, row) :: results' =>
      arc_name <- NameFactory_make vfs name_tpl row (os_path.basename pdf_name) ;;
      Fs.zip_write z_name pdf_name arc_name ;;
      write_archive vfs name_tpl z_name results'
  end.

(** [render_pdf], the branch [if return_archive:]. *)
Definition respond_archive (vfs : Vfs) (name_tpl : option Template) (tmpdir : string)
    (results : list FileWithData) : M HttpResponseBase :=
  let z_name := os_path.join tmpdir "result.zip" in
  Fs.zip_create z_name ;;
  write_archive vfs name_tpl z_name results ;;
  stream <- Fs.open_rb z_name ;;
  ret (FileResponse stream "application/zip" None).

(** [render_pdf], what follows the archive branch. *)
Definition respond_single (vfs : Vfs) (name_tpl : option Template)
    (results : list FileWithData) : M HttpResponseBase :=
  if decide (1 < length results) then ret (HttpResponse "" 401)
  else
    match results with
    | (pdf_name, row) :: _ =>
        file_name <- NameFactory_make vfs name_tpl row "result.pdf" ;;
        stream <- Fs.open_rb pdf_name ;;
        ret (FileResponse stream "application/pdf" (Some file_name))
    | [] => ret (HttpResponse "" 201)
    end.

(** The two compilation stages inside the temporary directory. *)
Definition compile_stages (vfs : Vfs) (main : FileVersion.t) (tmpdir : string)
    (title_pattern : string) (data : DataSet) (return_archive : bool)
    : M (list FileWithData) :=
  let src_dir := os_path.join tmpdir "src" in
  let result_dir := os_path.join tmpdir "result" in
  Fs.mkdir src_dir ;;
  Fs.mkdir result_dir ;;
  sources <- TemplateCompiler.compile vfs
               (ProjectFile.file_name (FileVersion.file main)) src_dir data
               title_pattern return_archive ;;
  HtmlCompiler.compile vfs sources result_dir.

(** The [with] block of [render_pdf]. *)
Definition render_in (vfs : Vfs) (main : FileVersion.t)
    (filename_pattern : option string) (title_pattern : string) (data : DataSet)
    (return_archive : bool) (tmpdir : string) : M HttpResponseBase :=
  results <- compile_stages vfs main tmpdir title_pattern data return_archive ;;
  name_tpl <- lift (name_template vfs filename_pattern) ;;
  if return_archive then respond_archive vfs name_tpl tmpdir results
  else respond_single vfs name_tpl results.

Definition render_pdf (files : list FileVersion.t) (filename_pattern : option string)
    (title_pattern : string) (data : DataSet) (return_archive : bool)
    : M HttpResponseBase :=
  match find_main files with
  | None => ret (HttpResponse "Main file not found" 404)
  | Some main =>
      let vfs := files_to_vfs files in
      make_temp_dir false
        (render_in vfs main filename_pattern title_pattern data return_archive)
  end.

End render_pdf.

(** ** A small runtime to run the renderer on

    Templates are their source text; rendering a template yields the source
    followed by the [name] entry of the row, marks the row as seen (a write to
    the dictionary it was given), and fails on the source ["!"]. A lookup
    table is the text of its file, and the name of a table is the file name up
    to its extension. *)

Module Demo.

Definition row_name (o : DataRow) : string :=
  match PyDict.get "name" o with
  | Some (VStr s) => s
  | _ => ""
  end.

Definition render (load : string -> option (string * string)) (t : string)
    (row : option loc) (kw : dict string) (h : list DataRow)
    : list DataRow * result string :=
  if decide (t = "!") then (h, Raise (LibraryError "UndefinedError"))
  else
    match row with
    | None => (h, Ok t)
    | Some l =>
        match h !! l with
        | Some o => (<[l := PyDict.set "seen" (VStr "yes") o]> h, Ok (t +:+ row_name o))
        | None => (h, Raise (LibraryError "UndefinedError"))
        end
    end.

#[local] Instance runtime : Runtime := {|
  Template := string;
  Lut := string;
  Css := string;
  make_name := fun n => (os_path.splitext n).1;
  make_lut := fun d => Ok d;
  usable_name := fun n => negb (bool_decide (n = ""));
  jinja_compile := fun s =>
    if decide (s = "{%") then Raise (LibraryError "TemplateSyntaxError") else Ok s;
  jinja_render := render;
  weasyprint_CSS := fun s _ => Ok s;
  weasyprint_write_pdf := fun html _ _ =>
    if decide (html = "") then Raise (LibraryError "empty document")
    else Ok ("%PDF " +:+ html);
  mkdtemp_name := fun _ => "/tmp/tmpq";
|}.

Definition main_html : FileVersion.t :=
  FileVersion.mk (ProjectFile.mk "main.html" ProjectFile.Main) "Hello ".
Definition style_css : FileVersion.t :=
  FileVersion.mk (ProjectFile.mk "style.css" ProjectFile.CSS) "p{}".
Definition codes_csv : FileVersion.t :=
  FileVersion.mk (ProjectFile.mk "codes.csv" ProjectFile.CSV) "a,b".
Definition codes_csv' : FileVersion.t :=
  FileVersion.mk (ProjectFile.mk "codes.csv" ProjectFile.CSV) "c,d".

Definition files : list FileVersion.t := [style_css; codes_csv; main_html; codes_csv'].

Definition ann : DataRow := [("name", VStr "Ann")].
Definition bob : DataRow := [("name", VStr "Bob")].

(** A world with two rows and one unrelated file. *)
Definition w0 : world := World {["/etc/motd" := File "hi"]} [ann; bob].

Definition vfs : Vfs := files_to_vfs files.

(** The same runtime with templates that only read their row. *)
Definition render_quiet (load : string -> option (string * string)) (t : string)
    (row : option loc) (kw : dict string) (h : list DataRow)
    : list DataRow * result string :=
  if decide (t = "!") then (h, Raise (LibraryError "UndefinedError"))
  else
    match row with
    | None => (h, Ok t)
    | Some l =>
        match h !! l with
        | Some o => (h, Ok (t +:+ row_name o))
        | None => (h, Raise (LibraryError "UndefinedError"))
        end
    end.

Definition quiet : Runtime := {|
  Template := string;
  Lut := string;
  Css := string;
  make_name := fun n => (os_path.splitext n).1;
  make_lut := fun d => Ok d;
  usable_name := fun n => negb (bool_decide (n = ""));
  jinja_compile := fun s =>
    if decide (s = "{%") then Raise (LibraryError "TemplateSyntaxError") else Ok s;
  jinja_render := render_quiet;
  weasyprint_CSS := fun s _ => Ok s;
  weasyprint_write_pdf := fun html _ _ =>
    if decide (html = "") then Raise (LibraryError "empty document")
    else Ok ("%PDF " +:+ html);
  mkdtemp_name := fun _ => "/tmp/tmpq";
|}.

(** A split compilation of the two rows, and a merged one of the first. *)
Definition split_sources : list FileWithData :=
  [("/t/src/001.html", Some 2); ("/t/src/002.html", Some 3)].
Definition split_results : list FileWithData :=
  [("/t/result/001.pdf", Some 2); ("/t/result/002.pdf", Some 3)].
Definition split_world : world :=
  (TemplateCompiler.compile (H := quiet) vfs "main.html" "/t/src" [0; 1] "T" true w0).1.
Definition split_world_pdf : world :=
  (HtmlCompiler.compile (H := quiet) vfs split_sources "/t/result" split_world).1.


(** Two calls of [render_pdf] with the writing templates. *)
Definition archive_call : world * result HttpResponseBase :=
  render_pdf files (Some "x") "T" [0; 1] true w0.
Definition single_call : world * result HttpResponseBase :=
  render_pdf files None "T" [0; 1] false w0.

Definition archive_response : HttpResponseBase :=
  match archive_call.2 with
  | Ok resp => resp
  | Raise _ => HttpResponse "" 500
  end.
Definition single_response : HttpResponseBase :=
  match single_call.2 with
  | Ok resp => resp
  | Raise _ => HttpResponse "" 500
  end.

End Demo.

(** ** The vocabulary of the properties

    The definitions below are not part of the renderer: they name what its
    properties speak about. *)

(** [keeps I m V]: run from a world where [I] holds, [m] leaves a world
    where [I] holds, returning or raising, and what it returns satisfies
    [V]. *)
Definition keeps {A} (I : world -> Prop) (m : M A) (V : A -> Prop) : Prop :=
  forall w, I w -> I (m w).1 /\ forall a, (m w).2 = Ok a -> V a.

Definition any {A} : A -> Prop := fun _ => True.

Definition is_file (o : option node) : Prop := exists c, o = Some (File c).

(** [untouched P f0 w]: at the paths in [P], the file system of [w] is
    [f0]. *)
Definition untouched (P : string -> Prop) (f0 : gmap string node) (w : world) : Prop :=
  forall p, P p -> fs w !! p = f0 !! p.

Definition html_name (src_dir : string) (idx : nat) : string :=
  os_path.join src_dir (Str.format_03d idx +:+ ".html").

Definition pdf_name (result_dir source : string) : string :=
  os_path.join result_dir ((os_path.splitext (os_path.basename source)).1 +:+ ".pdf").

(** [fs_outside d f0 w]: off [d]'s inside, the file system of [w] is
    [f0]. The directory [d] itself is not inside [d]. *)
Definition fs_outside (d : string) (f0 : gmap string node) (w : world) : Prop :=
  untouched (fun p => Fs.inside d p = false) f0 w.


(** The types a template may have. *)
Definition renderable (ty : ProjectFile.Type_) : bool :=
  match ty with
  | ProjectFile.Main | ProjectFile.HTML | ProjectFile.CSS => true
  | _ => false
  end.

(** Computations that only use the heap: run in a world with another file
    system, they do the same to the heap, return the same and leave that file
    system as it is. *)
Definition heap_only {A} (m : M A) : Prop :=
  forall w f, m (World f (heap w)) = (World f (heap (m w).1), (m w).2).

(** What [Fs.write] does to a node. *)
Definition append_to (s : string) (n : node) : node :=
  match n with
  | File c => File (c +:+ s)
  | _ => n
  end.

Definition concat_all (l : list string) : string := foldr String.append "" l.

(** Templates that do not write to the heap. *)
Definition readonly `{Runtime} : Prop :=
  forall load t row kw h, (jinja_render load t row kw h).1 = h.

(** Every row of the dataset is a dictionary of the heap. *)
Definition allocated (h : list DataRow) (data : DataSet) : Prop :=
  Forall (fun row => is_Some (h !! row)) data.

(** What the templates of the runtime may do to the heap: write to the
    dictionary they are given as [row] and make new ones. They never remove a
    dictionary, and they leave every other dictionary as it is. *)
Definition render_frame `{Runtime} : Prop :=
  forall load t row kw h,
    let h' := (jinja_render load t row kw h).1 in
    length h <= length h'
    /\ forall l, row <> Some l -> l < length h -> h' !! l = h !! l.

(** [heap_kept h0 w]: the dictionaries of [h0] are in the heap of [w], with
    the entries they have in [h0]. *)
Definition heap_kept (h0 : list DataRow) (w : world) : Prop :=
  length h0 <= length (heap w)
  /\ forall l o, h0 !! l = Some o -> heap w !! l = Some o.

(** A row reference made after [h0]. *)
Definition new_row (h0 : list DataRow) (row : option loc) : Prop :=
  forall c, row = Some c -> length h0 <= c.

Definition new_rows (h0 : list DataRow) (l : list FileWithData) : Prop :=
  Forall (fun s => new_row h0 s.2) l.


Section vocabulary.
Context `{Runtime}.

Definition name_of (fv : FileVersion.t) : string :=
  ProjectFile.file_name (FileVersion.file fv).
Definition type_of (fv : FileVersion.t) : ProjectFile.Type_ :=
  ProjectFile.type (FileVersion.file fv).

(** The table [make_lut] parses from a file, if it parses one. *)
Definition lut_of (fv : FileVersion.t) : option Lut :=
  match make_lut (FileVersion.data fv) with
  | Ok lut => Some lut
  | Raise _ => None
  end.

(** The Main template rendered for every row of the dataset, in order,
    each on a copy of its row. *)
Fixpoint render_rows (vfs : Vfs) (tpl : Template) (lookups : dict Lut) (data : DataSet)
    : M (list string) :=
  match data with
  | [] => ret []
  | row :: data' =>
      row_copy <- dict_copy row ;;
      body <- TemplateCompiler.render vfs tpl (Some row_copy) lookups ;;
      bodies <- render_rows vfs tpl lookups data' ;;
      ret (body :: bodies)
  end.

(** The row and the title of the merged document: the copy of the row and
    the title rendered from it when there is exactly one row, no row and
    the empty title when there is none, and no row with the title rendered
    without a row otherwise. *)
Definition merged_title (vfs : Vfs) (title_pattern : Template) (data : DataSet)
    : M (option loc * string) :=
  match data with
  | [] => ret (None, "")
  | [row] =>
      row_copy <- dict_copy row ;;
      title <- TemplateCompiler.render vfs title_pattern (Some row_copy) [] ;;
      ret (Some row_copy, title)
  | _ =>
      title <- TemplateCompiler.render vfs title_pattern None [] ;;
      ret (None, title)
  end.

(** The names of the entries: the name factory applied to every result in
    order, with the base name of the result as fallback. *)
Fixpoint archive_names (vfs : Vfs) (name_tpl : option Template) (results : list FileWithData)
    : M (list string) :=
  match results with
  | [] => ret []
  | (pdf_name, row) :: results' =>
      name <- NameFactory_make vfs name_tpl row (os_path.basename pdf_name) ;;
      names <- archive_names vfs name_tpl results' ;;
      ret (name :: names)
  end.

End vocabulary.

(** ** Vocabulary of the further properties *)

(** The distinct elements of a list in the order of their first occurrence:
    the order in which a dictionary filled from the list holds its keys. *)
Fixpoint first_occurrences (l : list string) : list string :=
  match l with
  | [] => []
  | k :: l' => k :: filter (fun k' => k' <> k) (first_occurrences l')
  end.

(** The renders of the split branch of [_TemplateCompiler.compile], without
    its writes: for each row a copy, the title and the body rendered on that
    copy. *)
Fixpoint split_pages `{Runtime} (vfs : Vfs) (tpl title_pattern : Template)
    (lookups : dict Lut) (data : DataSet) : M (list (string * string)) :=
  match data with
  | [] => ret []
  | row :: data' =>
      row_copy <- dict_copy row ;;
      title <- TemplateCompiler.render vfs title_pattern (Some row_copy) [] ;;
      body <- TemplateCompiler.render vfs tpl (Some row_copy) lookups ;;
      pages <- split_pages vfs tpl title_pattern lookups data' ;;
      ret ((title, body) :: pages)
  end.

(** ** Further uploads to run the renderer on *)

Module Uploads.

(** A later HTML file under the name of the Main file. *)
Definition main_again : FileVersion.t :=
  FileVersion.mk (ProjectFile.mk "main.html" ProjectFile.HTML) "Bye ".
Definition shadowed : list FileVersion.t := Demo.files ++ [main_again].

(** A lookup table whose name is [row]. *)
Definition row_csv : FileVersion.t :=
  FileVersion.mk (ProjectFile.mk "row.csv" ProjectFile.CSV) "x".
Definition clashing : list FileVersion.t := Demo.files ++ [row_csv].

(** An archive call without a naming pattern, and a block that writes one
    file into its directory. *)
Definition plain_archive_call : world * result HttpResponseBase :=
  render_pdf (H := Demo.runtime) Demo.files None "T" [0; 1] true Demo.w0.
Definition plain_archive_response : HttpResponseBase :=
  match plain_archive_call.2 with
  | Ok resp => resp
  | Raise _ => HttpResponse "" 500
  end.
Definition touch (d : string) : M unit := Fs.open_w (os_path.join d "f").

End Uploads.

(** * Properties *)

(** ** Strings and paths *)

Example join_ex : os_path.join "/tmp/tmpx" "src" = "/tmp/tmpx/src".
Proof. reflexivity. Qed.
Example join_abs_ex : os_path.join "/tmp/tmpx" "/etc" = "/etc".
Proof. reflexivity. Qed.
Example basename_ex : os_path.basename "/tmp/tmpx/src/001.html" = "001.html".
Proof. reflexivity. Qed.
Example splitext_ex : os_path.splitext "001.html" = ("001", ".html").
Proof. reflexivity. Qed.
Example splitext_dir_ex : os_path.splitext "/a.b/c" = ("/a.b/c", "").
Proof. reflexivity. Qed.
Example splitext_hidden_ex : os_path.splitext "/a/.bashrc" = ("/a/.bashrc", "").
Proof. reflexivity. Qed.
Example splitext_two_ex : os_path.splitext "/a/..x.tar.gz" = ("/a/..x.tar", ".gz").
Proof. reflexivity. Qed.
Example format_ex : Str.format_03d 7 = "007" /\ Str.format_03d 1000 = "1000".
Proof. split; reflexivity. Qed.

Module StrFacts.
Import Str.

Lemma app_nil_l (s : string) : "" +:+ s = s.
Proof. reflexivity. Qed.

Lemma app_cons (c : ascii) (s t : string) : String c s +:+ t = String c (s +:+ t).
Proof. reflexivity. Qed.

Ltac str_simpl := rewrite ?app_cons, ?app_nil_l in *.

Lemma app_nil_r (s : string) : s +:+ "" = s.
Proof. induction s; str_simpl; congruence. Qed.

Lemma app_assoc (a b c : string) : (a +:+ b) +:+ c = a +:+ (b +:+ c).
Proof. induction a; str_simpl; congruence. Qed.

Lemma app_length (a b : string) :
  String.length (a +:+ b) = String.length a + String.length b.
Proof. induction a; str_simpl; simpl; lia. Qed.

Lemma app_inv_tail (a b c : string) : a +:+ c = b +:+ c -> a = b.
Proof.
  revert b. induction a as [|x a IH]; intros [|y b] E; str_simpl; [done | | |].
  - apply (f_equal String.length) in E. simpl in E. rewrite app_length in E. lia.
  - apply (f_equal String.length) in E. simpl in E. rewrite app_length in E. lia.
  - injection E as -> E. f_equal. by apply IH.
Qed.

Lemma strip_prefix_app (p r : string) : strip_prefix p (p +:+ r) = Some r.
Proof. induction p; str_simpl; simpl; [done | by rewrite decide_True]. Qed.

Lemma strip_prefix_Some (p s r : string) :
  strip_prefix p s = Some r -> s = p +:+ r.
Proof.
  revert s; induction p as [|a p IH]; intros [|b s]; simpl; str_simpl;
    try congruence.
  case_decide; [subst | done]. intros E. by rewrite (IH _ E).
Qed.

(** When the prefix is there, [removeprefix] drops it; the result differs
    from the string as soon as the prefix is not empty. *)
Lemma removeprefix_app (p r : string) : removeprefix (p +:+ r) p = r.
Proof. unfold removeprefix. by rewrite strip_prefix_app. Qed.

Lemma removeprefix_absent (p s : string) :
  strip_prefix p s = None -> removeprefix s p = s.
Proof. unfold removeprefix. by intros ->. Qed.

Lemma removeprefix_neq (p r : string) : p <> "" -> removeprefix (p +:+ r) p <> p +:+ r.
Proof.
  intros Hp. rewrite removeprefix_app. intros E.
  apply (f_equal String.length) in E. rewrite app_length in E.
  destruct p; [done | simpl in E; lia].
Qed.

Lemma mem_app (c : ascii) (a b : string) : mem c (a +:+ b) = mem c a || mem c b.
Proof. induction a; str_simpl; simpl; [done | rewrite IHa; by rewrite orb_assoc]. Qed.

Lemma endswith_char_snoc (a : string) (c c' : ascii) :
  endswith_char (a +:+ of_ascii c) c' = bool_decide (c = c').
Proof.
  induction a as [|x a IH]; str_simpl; [done |].
  simpl. rewrite IH. destruct a; str_simpl; done.
Qed.

Lemma endswith_char_app (a b : string) (c : ascii) :
  b <> "" -> endswith_char (a +:+ b) c = endswith_char b c.
Proof.
  intros Hb. induction a as [|x a IH]; str_simpl; [done |].
  simpl. rewrite IH. destruct (a +:+ b) eqn:E; [|done].
  destruct a, b; str_simpl; congruence.
Qed.

Lemma startswith_slash (s : string) :
  startswith s "/" = true -> mem slash s = true.
Proof.
  unfold startswith. intros Hs%bool_decide_eq_true. destruct Hs as [r Hr].
  apply strip_prefix_Some in Hr. subst. reflexivity.
Qed.

(** Decimal numerals *)
Definition is_digit (c : ascii) : Prop :=
  c ∈ ["0"; "1"; "2"; "3"; "4"; "5"; "6"; "7"; "8"; "9"]%char.

Fixpoint all_digits (s : string) : Prop :=
  match s with
  | EmptyString => True
  | String c s' => is_digit c /\ all_digits s'
  end.

Lemma all_digits_app (a b : string) :
  all_digits a -> all_digits b -> all_digits (a +:+ b).
Proof. induction a; str_simpl; simpl; [done | intros [] ?; auto]. Qed.

Lemma all_digits_uint (d : Decimal.uint) : all_digits (NilEmpty.string_of_uint d).
Proof.
  induction d; simpl; [done | split; [|done]; unfold is_digit; set_solver ..].
Qed.

Lemma all_digits_zeros (n : nat) : all_digits (zeros n).
Proof. induction n; simpl; [done | split; [unfold is_digit; set_solver | done]]. Qed.

Lemma all_digits_format (n : nat) : all_digits (format_03d n).
Proof.
  unfold format_03d, decimal. apply all_digits_app;
    [apply all_digits_zeros | apply all_digits_uint].
Qed.

Lemma all_digits_mem (c : ascii) (s : string) :
  ~ is_digit c -> all_digits s -> mem c s = false.
Proof.
  intros Hc. induction s as [|a s IH]; simpl; [done |].
  intros [Ha Hs]. rewrite IH by done. rewrite bool_decide_false; [done | congruence].
Qed.

Lemma slash_not_digit : ~ is_digit slash.
Proof. unfold is_digit. by apply (bool_decide_eq_false_1 _). Qed.

Lemma dot_not_digit : ~ is_digit dot.
Proof. unfold is_digit. by apply (bool_decide_eq_false_1 _). Qed.

Lemma decimal_nonempty (n : nat) : decimal n <> "".
Proof.
  unfold decimal. intros E.
  pose proof (NilEmpty.usu (Nat.to_uint n)) as Hu. rewrite E in Hu. simpl in Hu.
  assert (Nat.to_uint n = Decimal.Nil) as Hn by congruence.
  pose proof (DecimalNat.Unsigned.to_of (Nat.to_uint n)) as Hn'.
  rewrite DecimalNat.Unsigned.of_to, Hn in Hn'. discriminate.
Qed.

Lemma format_nonempty (n : nat) : format_03d n <> "".
Proof.
  unfold format_03d. intros E. apply (f_equal String.length) in E.
  rewrite app_length in E. pose proof (decimal_nonempty n).
  destruct (decimal n); [done | simpl in E; lia].
Qed.

(** The numeral is at least three characters long, and exactly three up
    to 999. *)
Lemma length_zeros (n : nat) : String.length (zeros n) = n.
Proof. induction n; simpl; lia. Qed.

Lemma format_length_ge (n : nat) : 3 <= String.length (format_03d n).
Proof. unfold format_03d. rewrite app_length, length_zeros. lia. Qed.

Lemma uint_of_zeros (k : nat) (s : string) :
  Nat.of_uint <$> NilEmpty.uint_of_string (zeros k +:+ s)
  = Nat.of_uint <$> NilEmpty.uint_of_string s.
Proof.
  induction k as [|k IH]; [done |].
  change (zeros (S k) +:+ s) with (String "0"%char (zeros k +:+ s)). simpl.
  destruct (NilEmpty.uint_of_string (zeros k +:+ s)) eqn:E1;
    destruct (NilEmpty.uint_of_string s) eqn:E2; simpl in *; try congruence.
  rewrite <- IH. reflexivity.
Qed.

(** The sequence number can be read back from the numeral. *)
Lemma parse_format (n : nat) : parse_decimal (format_03d n) = Some n.
Proof.
  unfold parse_decimal, format_03d, decimal. rewrite uint_of_zeros.
  rewrite NilEmpty.usu. simpl. by rewrite DecimalNat.Unsigned.of_to.
Qed.

Lemma format_inj (n m : nat) : format_03d n = format_03d m -> n = m.
Proof.
  intros E. apply (f_equal parse_decimal) in E. rewrite !parse_format in E. congruence.
Qed.

End StrFacts.

Module PathFacts.
Import Str StrFacts os_path.

Lemma no_slash_relative (b : string) : mem slash b = false -> startswith b "/" = false.
Proof.
  intros Hb. destruct (startswith b "/") eqn:E; [|done].
  apply startswith_slash in E. congruence.
Qed.

Lemma join_relative (d b : string) :
  startswith b "/" = false -> join d b = dir_prefix d +:+ b.
Proof.
  intros Hb. unfold join, dir_prefix. rewrite Hb.
  destruct (bool_decide (d = "") || endswith_char d slash); [done |].
  by rewrite app_assoc.
Qed.

Lemma dir_prefix_length (d : string) : String.length d <= String.length (dir_prefix d).
Proof.
  unfold dir_prefix. destruct (_ || _); [done |]. rewrite app_length. lia.
Qed.

Lemma dir_prefix_join (d b : string) :
  startswith b "/" = false -> b <> "" ->
  exists r, dir_prefix (join d b) = dir_prefix d +:+ r /\ r <> "".
Proof.
  intros Hb Hne. rewrite join_relative by done.
  unfold dir_prefix at 1. destruct (_ || _).
  - by exists b.
  - exists (b +:+ "/"). rewrite app_assoc. split; [done |].
    destruct b; [done | by str_simpl].
Qed.

(** A directory is not inside itself; what [join] makes from a relative,
    non-empty component is. *)
Lemma inside_self (d : string) : Fs.inside d d = false.
Proof.
  unfold Fs.inside. destruct (strip_prefix (dir_prefix d) d) as [r|] eqn:E; [|done].
  apply strip_prefix_Some in E. apply (f_equal String.length) in E.
  rewrite app_length in E. pose proof (dir_prefix_length d).
  destruct r; [done | simpl in E; lia].
Qed.

Lemma inside_app (d r : string) : r <> "" -> Fs.inside d (dir_prefix d +:+ r) = true.
Proof.
  intros Hr. unfold Fs.inside. rewrite strip_prefix_app.
  by rewrite bool_decide_false.
Qed.

Lemma inside_join (d b : string) :
  startswith b "/" = false -> b <> "" -> Fs.inside d (join d b) = true.
Proof. intros Hb Hne. rewrite join_relative by done. by apply inside_app. Qed.

Lemma inside_inv (d p : string) :
  Fs.inside d p = true -> exists r, p = dir_prefix d +:+ r /\ r <> "".
Proof.
  unfold Fs.inside. destruct (strip_prefix _ _) as [r|] eqn:E; [|done].
  apply strip_prefix_Some in E. intros Hr. exists r. split; [done |].
  intros ->. by rewrite bool_decide_true in Hr.
Qed.

Lemma inside_trans (d b p : string) :
  startswith b "/" = false -> b <> "" ->
  Fs.inside (join d b) p = true -> Fs.inside d p = true.
Proof.
  intros Hb Hne (r & -> & Hr)%inside_inv.
  destruct (dir_prefix_join d b Hb Hne) as (r' & -> & Hr').
  rewrite app_assoc. apply inside_app. destruct r'; [done | by str_simpl].
Qed.

Lemma join_neq (d b : string) : startswith b "/" = false -> b <> "" -> join d b <> d.
Proof.
  intros Hb Hne E. pose proof (inside_join d b Hb Hne) as Hi.
  rewrite E, inside_self in Hi. done.
Qed.

Lemma join_inj (d a b : string) :
  startswith a "/" = false -> startswith b "/" = false ->
  join d a = join d b -> a = b.
Proof. intros Ha Hb. rewrite !join_relative by done. apply String.app_inj. Qed.

(** [basename] *)
Lemma basename_from_plain (acc n : string) :
  mem slash n = false -> basename_from acc n = acc +:+ n.
Proof.
  revert acc. induction n as [|c n IH]; intros acc; simpl.
  - by rewrite app_nil_r.
  - intros [Hc Hn]%orb_false_elim. apply bool_decide_eq_false in Hc.
    rewrite decide_False by done. rewrite IH by done. by rewrite app_assoc.
Qed.

Lemma basename_from_app (acc x n : string) :
  basename_from acc (x +:+ n) = basename_from (basename_from acc x) n.
Proof.
  revert acc. induction x as [|c x IH]; intros acc; str_simpl; simpl; [done |].
  case_decide; apply IH.
Qed.

Lemma basename_from_dir (acc x : string) :
  endswith_char x slash = true -> basename_from acc x = "".
Proof.
  revert acc. induction x as [|c x IH]; intros acc; simpl; [done |].
  destruct x as [|c' x].
  - intros ->%bool_decide_eq_true. by rewrite decide_True.
  - intros Hx. case_decide; by apply IH.
Qed.

Lemma basename_dir_prefix (d : string) : basename (dir_prefix d) = "".
Proof.
  unfold basename, dir_prefix.
  destruct (bool_decide (d = "")) eqn:E1; simpl.
  { apply bool_decide_eq_true in E1. by subst. }
  destruct (endswith_char d slash) eqn:E2.
  - by apply basename_from_dir.
  - apply basename_from_dir. change (d +:+ "/") with (d +:+ of_ascii slash).
    by rewrite endswith_char_snoc, bool_decide_true.
Qed.

Lemma basename_join (d n : string) : mem slash n = false -> basename (join d n) = n.
Proof.
  intros Hn. rewrite join_relative by by apply no_slash_relative.
  unfold basename. rewrite basename_from_app.
  fold (basename (dir_prefix d)). rewrite basename_dir_prefix.
  by rewrite basename_from_plain.
Qed.

Lemma basename_from_no_slash (acc p : string) :
  mem slash acc = false -> mem slash (basename_from acc p) = false.
Proof.
  revert acc. induction p as [|c p IH]; intros acc Hacc; simpl; [done |].
  case_decide; apply IH; [done |].
  rewrite mem_app, Hacc. simpl. rewrite bool_decide_false by done. done.
Qed.

Lemma basename_no_slash (p : string) : mem slash (basename p) = false.
Proof. by apply basename_from_no_slash. Qed.

(** [splitext] *)
Lemma dirpart_from_plain (done_ acc p : string) :
  mem slash p = false -> dirpart_from done_ acc p = done_.
Proof.
  revert acc. induction p as [|c p IH]; intros acc; simpl; [done |].
  intros [Hc Hp]%orb_false_elim. apply bool_decide_eq_false in Hc.
  rewrite decide_False by done. by apply IH.
Qed.

Lemma leading_dots_app (s d r : string) : leading_dots s = (d, r) -> s = d +:+ r.
Proof.
  revert d r. induction s as [|c s IH]; intros d r; simpl.
  - by intros [= <- <-].
  - case_decide.
    + destruct (leading_dots s) as [d' r'] eqn:E. intros [= <- <-].
      str_simpl. by rewrite (IH d' r').
    + by intros [= <- <-].
Qed.

Lemma split_last_dot_app (s root ext : string) :
  split_last_dot s = Some (root, ext) -> s = root +:+ ext.
Proof.
  revert root ext. induction s as [|c s IH]; intros root ext; simpl; [done |].
  destruct (split_last_dot s) as [[root' ext']|] eqn:E.
  - intros [= <- <-]. str_simpl. by rewrite (IH root' ext').
  - case_decide; [|done]. by intros [= <- <-].
Qed.

Lemma split_last_dot_none (e : string) : mem dot e = false -> split_last_dot e = None.
Proof.
  induction e as [|c e IH]; simpl; [done |].
  intros [Hc He]%orb_false_elim. apply bool_decide_eq_false in Hc.
  rewrite IH by done. by rewrite decide_False.
Qed.

Lemma split_last_dot_ext (s e : string) :
  mem dot e = false ->
  split_last_dot (s +:+ String dot e) = Some (s, String dot e).
Proof.
  intros He. induction s as [|c s IH]; str_simpl; simpl.
  - by rewrite split_last_dot_none.
  - by rewrite IH.
Qed.

Lemma splitext_plain (s e : string) :
  s <> "" -> mem dot s = false -> mem slash s = false ->
  mem dot e = false -> mem slash e = false ->
  splitext (s +:+ String dot e) = (s, String dot e).
Proof.
  intros Hne Hds Hss Hde Hse. unfold splitext.
  assert (mem slash (s +:+ String dot e) = false) as Hsl.
  { rewrite mem_app, Hss. simpl. by rewrite Hse. }
  unfold basename, dirpart. rewrite basename_from_plain, dirpart_from_plain by done.
  str_simpl. destruct s as [|c s]; [done |]. str_simpl. simpl.
  simpl in Hds. apply orb_false_elim in Hds as [Hc Hds].
  apply bool_decide_eq_false in Hc. rewrite decide_False by done.
  change (String c (s +:+ String dot e)) with (String c s +:+ String dot e).
  by rewrite split_last_dot_ext.
Qed.

Lemma splitext_no_slash (b : string) :
  mem slash b = false -> mem slash (splitext b).1 = false.
Proof.
  intros Hb. unfold splitext, basename, dirpart.
  rewrite basename_from_plain, dirpart_from_plain by done. str_simpl.
  destruct (leading_dots b) as [dots rest] eqn:E1.
  destruct (split_last_dot rest) as [[root ext]|] eqn:E2; simpl; [|done].
  apply leading_dots_app in E1. apply split_last_dot_app in E2. subst.
  rewrite !mem_app in Hb. rewrite mem_app.
  apply orb_false_elim in Hb as [H1 [H2 H3]%orb_false_elim].
  by rewrite mem_app, H1, H2.
Qed.

(** The names the two compilers write are inside their directories. *)
Lemma pdf_name_relative (source : string) :
  let n := (splitext (basename source)).1 +:+ ".pdf" in
  startswith n "/" = false /\ n <> "".
Proof.
  simpl. split.
  - apply no_slash_relative. rewrite mem_app.
    rewrite splitext_no_slash by apply basename_no_slash. done.
  - intros E. apply (f_equal String.length) in E. rewrite app_length in E.
    simpl in E. lia.
Qed.

Lemma html_name_relative (idx : nat) :
  let n := format_03d idx +:+ ".html" in
  startswith n "/" = false /\ n <> "" /\ mem slash n = false.
Proof.
  simpl. assert (mem slash (format_03d idx +:+ ".html") = false) as Hs.
  { rewrite mem_app.
    rewrite (all_digits_mem slash) by auto using slash_not_digit, all_digits_format.
    done. }
  split; [by apply no_slash_relative |]. split; [|done].
  intros E. apply (f_equal String.length) in E. rewrite app_length in E.
  simpl in E. lia.
Qed.

(** The PDF of a numbered source carries the same number. *)
Lemma pdf_of_html (d : string) (idx : nat) :
  (splitext (basename (join d (format_03d idx +:+ ".html")))).1 = format_03d idx.
Proof.
  destruct (html_name_relative idx) as (_ & _ & Hs).
  rewrite basename_join by done.
  change ".html" with (String dot "html").
  rewrite splitext_plain; [done | apply format_nonempty | | | done | done].
  - apply all_digits_mem; auto using dot_not_digit, all_digits_format.
  - apply all_digits_mem; auto using slash_not_digit, all_digits_format.
Qed.

End PathFacts.

(** ** Names of archive entries *)

Lemma split_plain (n : string) : Str.mem Str.slash n = false -> os_path.split n = [n].
Proof.
  induction n as [|c n IH]; simpl; [done |].
  intros [Hc Hn]%orb_false_elim. apply bool_decide_eq_false in Hc.
  rewrite decide_False by done. by rewrite (IH Hn).
Qed.

Lemma until_nul_plain (n : string) :
  Str.mem (ascii_of_nat 0) n = false -> Str.until_nul n = n.
Proof.
  induction n as [|c n IH]; simpl; [done |].
  intros [Hc Hn]%orb_false_elim. apply bool_decide_eq_false in Hc.
  rewrite decide_False by done. by rewrite (IH Hn).
Qed.

Lemma normpath_step_plain (n : string) :
  n <> "" -> n <> "." -> n <> ".." -> os_path.normpath_step 0 [] n = [n].
Proof.
  intros Hne Hdot Hdots. unfold os_path.normpath_step.
  case_bool_decide as Hskip; [by destruct Hskip |].
  case_bool_decide as Hkeep; [done |]. destruct Hkeep. by left.
Qed.

Lemma normpath_plain (n : string) :
  Str.mem Str.slash n = false -> n <> "" -> n <> "." -> n <> ".." ->
  os_path.normpath n = n.
Proof.
  intros Hs Hne Hdot Hdots. unfold os_path.normpath.
  rewrite bool_decide_false by done.
  rewrite (PathFacts.no_slash_relative _ Hs), (split_plain _ Hs).
  cbn [foldl]. rewrite normpath_step_plain by done.
  cbn [os_path.join_slash os_path.slashes]. rewrite StrFacts.app_nil_l.
  by rewrite bool_decide_false.
Qed.

(** A name without separator or null byte, other than the empty name and
    the two dot names, is the name of its entry. *)
Lemma zip_entry_name_plain (n : string) :
  Str.mem Str.slash n = false -> Str.mem (ascii_of_nat 0) n = false ->
  n <> "" -> n <> "." -> n <> ".." ->
  Fs.zip_entry_name n = Ok n.
Proof.
  intros Hs Hnul Hne Hdot Hdots. unfold Fs.zip_entry_name.
  rewrite normpath_plain by done.
  destruct n as [|c n]; [done |]. simpl in Hs |- *.
  apply orb_false_elim in Hs as [Hc _]. apply bool_decide_eq_false in Hc.
  rewrite decide_False by done. simpl. f_equal.
  by apply (until_nul_plain (String c n)).
Qed.

Lemma lstrip_sep_relative (a n : string) :
  Fs.lstrip_sep a = Ok n -> n <> "" /\ Str.startswith n "/" = false.
Proof.
  induction a as [|c a IH]; simpl; [done |].
  case_decide as Hc; [by apply IH |]. intros [= <-]. split; [done |].
  unfold Str.startswith. apply bool_decide_eq_false. intros [r Hr]. simpl in Hr.
  case_decide; [|done]. by subst c.
Qed.

(** The name of an entry never starts with a separator. *)
Lemma zip_entry_name_relative (a n : string) :
  Fs.zip_entry_name a = Ok n -> Str.startswith n "/" = false.
Proof.
  unfold Fs.zip_entry_name. destruct (Fs.lstrip_sep _) as [s|] eqn:E; [|done].
  simpl. intros [= <-]. apply lstrip_sep_relative in E as [Hne Hrel].
  destruct s as [|c s]; [done |]. simpl. case_decide; [done |].
  unfold Str.startswith in *. apply bool_decide_eq_false.
  apply bool_decide_eq_false in Hrel. intros [r Hr]. apply Hrel. simpl in Hr |- *.
  case_decide; [|done]. by eexists.
Qed.

Lemma nul_not_digit : ~ StrFacts.is_digit (ascii_of_nat 0).
Proof. unfold StrFacts.is_digit. by apply (bool_decide_eq_false_1 _). Qed.

(** A numbered name is the name of its entry. *)
Lemma zip_entry_name_numbered (idx : nat) :
  Fs.zip_entry_name (Str.format_03d idx +:+ ".pdf") = Ok (Str.format_03d idx +:+ ".pdf").
Proof.
  assert (forall c, ~ StrFacts.is_digit c -> Str.mem c ".pdf" = false ->
                    Str.mem c (Str.format_03d idx +:+ ".pdf") = false) as Hmem.
  { intros c Hc Hext. rewrite StrFacts.mem_app, Hext.
    by rewrite (StrFacts.all_digits_mem c) by auto using StrFacts.all_digits_format. }
  assert (4 < String.length (Str.format_03d idx +:+ ".pdf")) as Hlen.
  { rewrite StrFacts.app_length. simpl.
    pose proof (StrFacts.format_nonempty idx) as Hne.
    destruct (Str.format_03d idx); [done | simpl; lia]. }
  apply zip_entry_name_plain.
  - by apply Hmem; [apply StrFacts.slash_not_digit |].
  - by apply Hmem; [apply nul_not_digit |].
  - intros E. rewrite E in Hlen. simpl in Hlen. lia.
  - intros E. rewrite E in Hlen. simpl in Hlen. lia.
  - intros E. rewrite E in Hlen. simpl in Hlen. lia.
Qed.

Example zip_entry_name_ex :
  Fs.zip_entry_name "/x.pdf" = Ok "x.pdf"
  /\ Fs.zip_entry_name "a//b/../c.pdf" = Ok "a/c.pdf"
  /\ Fs.zip_entry_name "../y.pdf" = Ok "../y.pdf"
  /\ Fs.zip_entry_name "" = Ok "."
  /\ Fs.zip_entry_name "/" = Raise IndexError.
Proof. repeat split; vm_compute; reflexivity. Qed.

(** ** Dictionaries: the value under a key is the last one stored *)

Module PyDictFacts.
Section facts.
Context {V : Type}.
Implicit Types (d items : list (string * V)) (k : string) (v : V).

Lemma get_set d k v k' :
  PyDict.get k' (PyDict.set k v d) = if decide (k = k') then Some v else PyDict.get k' d.
Proof.
  induction d as [|[k0 v0] d IH]; simpl.
  - by repeat case_decide.
  - destruct (decide (k0 = k)) as [->|Hne]; simpl.
    + by repeat case_decide.
    + rewrite IH. repeat case_decide; congruence.
Qed.

Lemma keys_set d k v :
  PyDict.keys (PyDict.set k v d)
  = if decide (k ∈ PyDict.keys d) then PyDict.keys d else PyDict.keys d ++ [k].
Proof.
  unfold PyDict.keys. induction d as [|[k0 v0] d IH]; [done |].
  cbn [PyDict.set]. rewrite fmap_cons. cbn [fst].
  destruct (decide (k0 = k)) as [->|Hne].
  - rewrite fmap_cons. cbn [fst].
    rewrite decide_True; [done | apply list_elem_of_here].
  - rewrite fmap_cons, IH. cbn [fst]. destruct (decide (k ∈ d.*1)) as [Hd|Hd].
    + rewrite decide_True; [done | by apply list_elem_of_further].
    + rewrite decide_False; [done |]. rewrite elem_of_cons.
      intros [?|?]; congruence.
Qed.

(** Storing never duplicates a key. *)
Lemma keys_set_NoDup d k v :
  NoDup (PyDict.keys d) -> NoDup (PyDict.keys (PyDict.set k v d)).
Proof.
  intros Hd. rewrite keys_set. case_decide; [done |].
  apply NoDup_app. split; [done |]. split; [|apply NoDup_singleton].
  intros x Hx ->%list_elem_of_singleton. done.
Qed.

Lemma get_store_all d items k :
  PyDict.get k (foldl (fun d kv => PyDict.set kv.1 kv.2 d) d items)
  = match last (filter (fun kv => kv.1 = k) items) with
    | Some kv => Some kv.2
    | None => PyDict.get k d
    end.
Proof.
  revert d. induction items as [|[k0 v0] items IH]; intros d; simpl; [done |].
  rewrite IH, get_set, filter_cons. simpl.
  destruct (decide (k0 = k)) as [->|Hne]; [|done].
  rewrite last_cons. by destruct (last _).
Qed.

(** Last wins: the value of [k] in a dictionary built from [items] is the
    value of the last item with key [k]. *)
Lemma get_of_items items k :
  PyDict.get k (PyDict.of_items items)
  = snd <$> last (filter (fun kv => kv.1 = k) items).
Proof. unfold PyDict.of_items. rewrite get_store_all. by destruct (last _). Qed.

Lemma keys_of_items_NoDup items : NoDup (PyDict.keys (PyDict.of_items items)).
Proof.
  unfold PyDict.of_items.
  assert (NoDup (PyDict.keys (@nil (string * V)))) as Hnil by apply NoDup_nil_2.
  revert Hnil. generalize (@nil (string * V)) as d.
  induction items as [|kv items IH]; intros d Hd; simpl; [done |].
  apply IH. by apply keys_set_NoDup.
Qed.

Lemma get_values d k v : PyDict.get k d = Some v -> v ∈ PyDict.values d.
Proof.
  unfold PyDict.values. induction d as [|[k0 v0] d IH]; simpl; [done |].
  case_decide.
  - intros [= ->]. apply list_elem_of_here.
  - intros Hg. apply list_elem_of_further. auto.
Qed.
End facts.
End PyDictFacts.

Section builders.
Context `{Runtime}.

Lemma files_to_vfs_get (files : list FileVersion.t) (k : string) :
  PyDict.get k (files_to_vfs files) = last (filter (fun fv => name_of fv = k) files).
Proof.
  unfold files_to_vfs. rewrite PyDictFacts.get_of_items.
  induction files as [|fv files IH]; simpl; [done |].
  rewrite !filter_cons. simpl. fold (name_of fv).
  destruct (decide (name_of fv = k)); [|done].
  rewrite !last_cons, <- IH. by destruct (last _).
Qed.

Lemma lookup_table_items_parsed (files : list FileVersion.t) (items : list (string * Lut)) :
  lookup_table_items files = Ok items ->
  forall fv, fv ∈ files -> type_of fv = ProjectFile.CSV -> is_Some (lut_of fv).
Proof.
  revert items. induction files as [|f files IH]; intros items Hok fv Hin Hcsv.
  { by apply elem_of_nil in Hin. }
  simpl in Hok. fold (type_of f) in Hok. unfold lut_of.
  destruct (decide (type_of f = ProjectFile.CSV)) as [Hf|Hf].
  - destruct (make_lut (FileVersion.data f)) as [lut|e] eqn:El; simpl in Hok; [|done].
    destruct (lookup_table_items files) as [items'|e']; simpl in Hok; [|done].
    apply elem_of_cons in Hin as [->|Hin]; [by rewrite El | by eapply IH].
  - apply elem_of_cons in Hin as [->|Hin]; [done | by eapply IH].
Qed.

Lemma lookup_table_items_Ok (files : list FileVersion.t) (items : list (string * Lut)) (k : string) :
  lookup_table_items files = Ok items ->
  snd <$> last (filter (fun kv => kv.1 = k) items)
  = last (filter (fun fv => type_of fv = ProjectFile.CSV /\ make_name (name_of fv) = k) files)
      ≫= lut_of.
Proof.
  revert items. induction files as [|fv files IH]; intros items; simpl.
  - by intros [= <-].
  - rewrite filter_cons. fold (type_of fv). fold (name_of fv).
    destruct (decide (type_of fv = ProjectFile.CSV)) as [Hcsv|Hcsv].
    + destruct (make_lut (FileVersion.data fv)) as [lut|e] eqn:El; simpl; [|done].
      destruct (lookup_table_items files) as [items'|e] eqn:Ei; simpl; [|done].
      intros [= <-]. specialize (IH items' eq_refl).
      rewrite filter_cons. simpl.
      destruct (decide (make_name (name_of fv) = k)) as [Hk|Hk].
      * rewrite decide_True by done. rewrite !last_cons.
        destruct (last (filter _ items')) eqn:E1; simpl in *;
          destruct (last (filter _ files)) as [f|] eqn:E2; simpl in *; try done.
        -- apply last_Some_elem_of, list_elem_of_filter in E2 as [[Hf _] Hin].
           destruct (lookup_table_items_parsed _ _ Ei f Hin Hf) as [l Hl].
           congruence.
        -- unfold lut_of. by rewrite El.
      * rewrite decide_False by (intros [_ ?]; done). done.
    + rewrite decide_False by (intros [? _]; done). apply IH.
Qed.

Lemma lookup_table_items_Raise (files : list FileVersion.t) (e : exn) :
  lookup_table_items files = Raise e ->
  Exists (fun fv => type_of fv = ProjectFile.CSV /\ make_lut (FileVersion.data fv) = Raise e)
         files.
Proof.
  induction files as [|fv files IH]; simpl; [done |].
  fold (type_of fv). case_decide as Hcsv.
  - destruct (make_lut (FileVersion.data fv)) as [lut|e'] eqn:El; simpl.
    + destruct (lookup_table_items files) as [items'|e'']; simpl; [done |].
      intros [= ->]. apply Exists_cons_tl. by apply IH.
    + intros [= ->]. by apply Exists_cons_hd.
  - intros He. apply Exists_cons_tl. by apply IH.
Qed.

(** C7. The Virtual File Set maps the name of every file to a
    [FileVersion], the lookup tables map the normalized name of every CSV
    file to its parsed table, and under a key that several entries produce
    both hold what the last of them in iteration order gives. Building the
    Virtual File Set never fails; building the tables fails only with what
    [make_lut] raises on one of the CSV files, never because of a repeated
    key. *)
Theorem builders_last_wins (files : list FileVersion.t) :
  (forall k, PyDict.get k (files_to_vfs files)
             = last (filter (fun fv => name_of fv = k) files))
  /\ (forall fv, fv ∈ files -> is_Some (PyDict.get (name_of fv) (files_to_vfs files)))
  /\ match find_lookup_tables files with
     | Ok luts =>
         (forall k, PyDict.get k luts
                    = last (filter (fun fv => type_of fv = ProjectFile.CSV
                                              /\ make_name (name_of fv) = k) files)
                        ≫= lut_of)
         /\ (forall fv, fv ∈ files -> type_of fv = ProjectFile.CSV ->
                        is_Some (PyDict.get (make_name (name_of fv)) luts))
     | Raise e =>
         Exists (fun fv => type_of fv = ProjectFile.CSV
                           /\ make_lut (FileVersion.data fv) = Raise e) files
     end.
Proof.
  split; [apply files_to_vfs_get |]. split.
  { intros fv Hfv. rewrite files_to_vfs_get. apply last_is_Some.
    intros Hnil. assert (fv ∈ filter (fun fv' => name_of fv' = name_of fv) files) as Hin
      by (by apply list_elem_of_filter).
    rewrite Hnil in Hin. by apply elem_of_nil in Hin. }
  unfold find_lookup_tables.
  destruct (lookup_table_items files) as [items|e] eqn:E; simpl.
  - assert (forall k, PyDict.get k (PyDict.of_items items)
              = last (filter (fun fv => type_of fv = ProjectFile.CSV
                                        /\ make_name (name_of fv) = k) files)
                  ≫= lut_of) as Hget.
    { intros k. rewrite PyDictFacts.get_of_items. by apply lookup_table_items_Ok. }
    split; [done |]. intros fv Hfv Hcsv. rewrite Hget.
    destruct (last _) as [fv'|] eqn:El; simpl.
    + apply last_Some_elem_of, list_elem_of_filter in El as [[Hcsv' _] Hin'].
      by eapply lookup_table_items_parsed.
    + apply last_None in El.
      assert (fv ∈ filter (fun fv' => type_of fv' = ProjectFile.CSV
                             /\ make_name (name_of fv') = make_name (name_of fv)) files)
        as Hin by (by apply list_elem_of_filter).
      rewrite El in Hin. by apply elem_of_nil in Hin.
  - by apply lookup_table_items_Raise.
Qed.

End builders.

(** ** Running computations *)

Lemma bind_Ok {A B} (m : M A) (k : A -> M B) (w w' : world) (b : B) :
  (x <- m ;; k x) w = (w', Ok b) ->
  exists w1 a, m w = (w1, Ok a) /\ k a w1 = (w', Ok b).
Proof.
  unfold bind. destruct (m w) as [w1 [a|e]]; [|done]. intros Hk. by exists w1, a.
Qed.

Lemma bind_step {A B} (m : M A) (k : A -> M B) (w w1 : world) (a : A) :
  m w = (w1, Ok a) -> (x <- m ;; k x) w = k a w1.
Proof. unfold bind. by intros ->. Qed.

Lemma bind_raise {A B} (m : M A) (k : A -> M B) (w w1 : world) (e : exn) :
  m w = (w1, Raise e) -> (x <- m ;; k x) w = (w1, Raise e).
Proof. unfold bind. by intros ->. Qed.

Lemma lift_Ok {A} (r : result A) (w w' : world) (a : A) :
  lift r w = (w', Ok a) -> r = Ok a /\ w' = w.
Proof. unfold lift. by intros [= <- ->]. Qed.

Lemma ret_Ok {A} (x a : A) (w w' : world) : ret x w = (w', Ok a) -> x = a /\ w' = w.
Proof. unfold ret. by intros [= <- ->]. Qed.

(** Splits a successful run of a sequence into the runs of its parts. *)
Ltac run_inv H :=
  repeat match type of H with
    | bind _ _ _ = (_, Ok _) =>
        let w := fresh "w" in let a := fresh "a" in let H1 := fresh "Hrun" in
        apply bind_Ok in H as (w & a & H1 & H)
    end.

Section keeps.
Context (I : world -> Prop).

Lemma keeps_ret {A} (a : A) (V : A -> Prop) : V a -> keeps I (ret a) V.
Proof. intros Ha w Hw. split; [done |]. by intros a' [= <-]. Qed.

Lemma keeps_raise {A} (e : exn) (V : A -> Prop) : keeps I (raise e) V.
Proof. intros w Hw. by split. Qed.

Lemma keeps_lift {A} (r : result A) : keeps I (lift r) any.
Proof. intros w Hw. by split. Qed.

Lemma keeps_bind {A B} (m : M A) (k : A -> M B) (V : A -> Prop) (V' : B -> Prop) :
  keeps I m V -> (forall a, V a -> keeps I (k a) V') -> keeps I (x <- m ;; k x) V'.
Proof.
  intros Hm Hk w Hw. unfold bind. destruct (Hm w Hw) as [Hw1 Hv].
  destruct (m w) as [w1 [a|e]]; simpl in *; [|by split].
  apply Hk; auto.
Qed.

Lemma keeps_weaken {A} (m : M A) (V V' : A -> Prop) :
  keeps I m V -> (forall a, V a -> V' a) -> keeps I m V'.
Proof. intros Hm HV w Hw. destruct (Hm w Hw). split; auto. Qed.

Lemma keeps_try_finally {A} (m : M A) (fin : M unit) (V : A -> Prop) :
  keeps I m V -> keeps I fin any -> keeps I (try_finally m fin) V.
Proof.
  intros Hm Hf w Hw. unfold try_finally. destruct (Hm w Hw) as [Hw1 Hv].
  destruct (m w) as [w1 r]; simpl in *. destruct (Hf w1 Hw1) as [Hw2 _].
  destruct (fin w1) as [w2 [[]|e]]; simpl in *; split; auto. done.
Qed.
End keeps.

(** ** Invariants of the file system

    The renderer changes the file system through [Fs.mkdir], [Fs.open_w],
    [Fs.write] and the two archive operations, at paths it computes. An
    invariant [J] that these keep at the paths [W], and that does not look at
    the heap, is kept by every function of the renderer that writes at paths
    in [W] only. *)

Section fs_invariant.
Context `{Runtime}.
Variables (J : world -> Prop) (W : string -> Prop).
Hypothesis J_heap : forall w h, J w -> J (World (fs w) h).
Hypothesis J_mkdir : forall q, W q -> keeps J (Fs.mkdir q) any.
Hypothesis J_open_w : forall q, W q -> keeps J (Fs.open_w q) any.
Hypothesis J_write : forall q s, W q -> keeps J (Fs.write q s) any.

Lemma J_read p : keeps J (Fs.read p) any.
Proof. intros w Hw. unfold Fs.read. by destruct (fs w !! p) as [[]|]; simpl. Qed.

Lemma J_open_rb p : keeps J (Fs.open_rb p) any.
Proof. intros w Hw. unfold Fs.open_rb. by destruct (fs w !! p) as [[]|]; simpl. Qed.

Lemma J_dict_copy row : keeps J (dict_copy row) any.
Proof.
  intros w Hw. unfold dict_copy. destruct (heap w !! row); simpl; [|by split].
  split; [by apply (J_heap w) | done].
Qed.

Lemma J_render vfs t row kw : keeps J (TemplateCompiler.render vfs t row kw) any.
Proof.
  intros w Hw. unfold TemplateCompiler.render.
  destruct (PyDict.get "row" kw); [by split |].
  destruct (PyDict.get "self" kw); [by split |].
  destruct (jinja_render _ t row kw (heap w)) as [h r]; simpl.
  split; [by apply (J_heap w) | done].
Qed.

(** One step of a sequence whose parts all keep the invariant. *)
Ltac frame_step :=
  lazymatch goal with
  | |- keeps _ (ret _) _ => apply keeps_ret; exact Logic.I
  | |- keeps _ (raise _) _ => apply keeps_raise
  | |- keeps _ (lift _) _ => apply keeps_lift
  | |- keeps _ (bind _ _) _ => eapply keeps_bind with (V := any); [ | intros ? _ ]
  end.

Ltac frame_steps :=
  repeat (frame_step;
          [ first [ apply J_dict_copy | apply J_render | apply J_read | apply J_open_rb
                  | apply keeps_lift
                  | by apply J_mkdir | by apply J_open_w | by apply J_write ] | ]).

Lemma compile_split_keeps vfs tpl title_pattern lookups src_dir idx data sources :
  (forall i, i < length data -> W (html_name src_dir (idx + i))) ->
  keeps J (TemplateCompiler.compile_split vfs tpl title_pattern lookups src_dir
             idx data sources) any.
Proof.
  revert idx sources. induction data as [|row data IH]; intros idx sources HW; simpl.
  { by apply keeps_ret. }
  assert (W (os_path.join src_dir (Str.format_03d idx +:+ ".html"))) as Hin.
  { specialize (HW 0). rewrite Nat.add_0_r in HW. apply HW. simpl. lia. }
  frame_steps. apply IH. intros i Hi.
  replace (S idx + i) with (idx + S i) by lia. apply HW. simpl. lia.
Qed.

Lemma write_rows_keeps vfs tpl lookups src_name data :
  W src_name -> keeps J (TemplateCompiler.write_rows vfs tpl lookups src_name data) any.
Proof.
  intros Hin. induction data as [|row data IH]; simpl.
  { by apply keeps_ret. }
  frame_steps. apply IH.
Qed.

Lemma template_compile_keeps vfs main_file_name src_dir data title_pattern split_output :
  (split_output = true -> forall i, i < length data -> W (html_name src_dir (1 + i))) ->
  (split_output = false -> W (os_path.join src_dir "master.html")) ->
  keeps J (TemplateCompiler.compile vfs main_file_name src_dir data title_pattern
             split_output) any.
Proof.
  intros HW1 HW2. unfold TemplateCompiler.compile. frame_steps.
  destruct split_output; [by apply compile_split_keeps, HW1 |].
  specialize (HW2 eq_refl).
  frame_step.
  { destruct data as [|row [|]]; try (by apply keeps_ret).
    frame_step; [apply J_dict_copy | by apply keeps_ret]. }
  frame_step.
  { destruct data; [by apply keeps_ret | apply J_render]. }
  frame_steps. frame_step; [by apply write_rows_keeps |]. frame_steps.
  by apply keeps_ret.
Qed.

Lemma compile_sources_keeps vfs sheets result_dir sources results :
  (forall s, s ∈ sources -> W (pdf_name result_dir s.1)) ->
  keeps J (HtmlCompiler.compile_sources vfs sheets result_dir sources results) any.
Proof.
  revert results. induction sources as [|[source row] sources IH]; intros results HW; simpl.
  { by apply keeps_ret. }
  assert (W (os_path.join result_dir
               ((os_path.splitext (os_path.basename source)).1 +:+ ".pdf"))) as Hin
    by apply (HW (source, row)), list_elem_of_here.
  frame_steps. apply IH. intros s Hs. by apply HW, list_elem_of_further.
Qed.

Lemma html_compile_keeps vfs sources result_dir :
  (forall s, s ∈ sources -> W (pdf_name result_dir s.1)) ->
  keeps J (HtmlCompiler.compile vfs sources result_dir) any.
Proof.
  intros HW. unfold HtmlCompiler.compile. frame_steps. by apply compile_sources_keeps.
Qed.

Lemma NameFactory_make_keeps vfs name_tpl row fallback :
  keeps J (NameFactory_make vfs name_tpl row fallback) any.
Proof.
  unfold NameFactory_make. destruct name_tpl; [|by apply keeps_ret].
  frame_steps. by apply keeps_ret.
Qed.

Hypothesis J_zip_create : forall z, W z -> keeps J (Fs.zip_create z) any.
Hypothesis J_zip_write : forall z p a, W z -> keeps J (Fs.zip_write z p a) any.

Lemma write_archive_keeps vfs name_tpl z_name results :
  W z_name -> keeps J (write_archive vfs name_tpl z_name results) any.
Proof.
  intros Hz. induction results as [|[pdf_name row] results IH]; simpl.
  { by apply keeps_ret. }
  frame_step; [apply NameFactory_make_keeps |].
  frame_step; [by apply J_zip_write |]. apply IH.
Qed.

Lemma respond_archive_keeps vfs name_tpl tmpdir results :
  W (os_path.join tmpdir "result.zip") ->
  keeps J (respond_archive vfs name_tpl tmpdir results) any.
Proof.
  intros Hz. unfold respond_archive.
  frame_step; [by apply J_zip_create |].
  frame_step; [by apply write_archive_keeps |].
  frame_steps. by apply keeps_ret.
Qed.

Lemma respond_single_keeps vfs name_tpl results :
  keeps J (respond_single vfs name_tpl results) any.
Proof.
  unfold respond_single. case_decide; [by apply keeps_ret |].
  destruct results as [|[pdf_name row] ?]; [by apply keeps_ret |].
  frame_step; [apply NameFactory_make_keeps |]. frame_steps. by apply keeps_ret.
Qed.

End fs_invariant.

(** The two invariants used below. *)
Section untouched.
Variables (P : string -> Prop) (f0 : gmap string node).

Lemma untouched_heap w h : untouched P f0 w -> untouched P f0 (World (fs w) h).
Proof. done. Qed.

Lemma untouched_mkdir q : ~ P q -> keeps (untouched P f0) (Fs.mkdir q) any.
Proof.
  intros Hq w Hw. unfold Fs.mkdir. destruct (fs w !! q); simpl; [by split |].
  split; [|done]. intros p Hp. simpl. rewrite lookup_insert_ne by congruence. by apply Hw.
Qed.

Lemma untouched_open_w q : ~ P q -> keeps (untouched P f0) (Fs.open_w q) any.
Proof.
  intros Hq w Hw. split; [|done]. intros p Hp. simpl.
  rewrite lookup_insert_ne by congruence. by apply Hw.
Qed.

Lemma untouched_write q s : ~ P q -> keeps (untouched P f0) (Fs.write q s) any.
Proof.
  intros Hq w Hw. split; [|done]. intros p Hp. simpl.
  rewrite lookup_alter_ne by congruence. by apply Hw.
Qed.

Lemma untouched_zip_create z : ~ P z -> keeps (untouched P f0) (Fs.zip_create z) any.
Proof.
  intros Hq w Hw. split; [|done]. intros p Hp. simpl.
  rewrite lookup_insert_ne by congruence. by apply Hw.
Qed.

Lemma untouched_zip_write z p a : ~ P z -> keeps (untouched P f0) (Fs.zip_write z p a) any.
Proof.
  intros Hz. unfold Fs.zip_write. eapply keeps_bind; [by apply J_read |].
  intros c _. eapply keeps_bind; [apply keeps_lift |].
  intros name _ w Hw. split; [|done]. intros q Hq. simpl.
  rewrite lookup_alter_ne by congruence. by apply Hw.
Qed.
End untouched.

Section is_file.
Variable p : string.
Local Abbreviation J := (fun w => is_file (fs w !! p)).

Lemma is_file_mkdir q : keeps J (Fs.mkdir q) any.
Proof.
  intros w Hw. unfold Fs.mkdir. destruct (fs w !! q) eqn:E; simpl; [by split |].
  split; [|done]. destruct Hw as [c Hc]. exists c.
  rewrite lookup_insert_ne; [done | congruence].
Qed.

Lemma is_file_open_w q : keeps J (Fs.open_w q) any.
Proof.
  intros w [c Hc]. split; [|done]. simpl. destruct (decide (q = p)) as [->|Hne].
  - exists "". apply lookup_insert_eq.
  - exists c. by rewrite lookup_insert_ne.
Qed.

Lemma is_file_write q s : keeps J (Fs.write q s) any.
Proof.
  intros w [c Hc]. split; [|done]. simpl. destruct (decide (q = p)) as [->|Hne].
  - exists (c +:+ s). rewrite lookup_alter_eq, Hc. done.
  - exists c. by rewrite lookup_alter_ne.
Qed.
End is_file.

(** ** The file system outside a directory *)

Section fs_outside.
Context `{Runtime}.
Variables (d : string) (f0 : gmap string node).

(** The [with] block of [render_pdf] writes inside its directory only. *)
Lemma render_in_outside vfs main filename_pattern title_pattern data return_archive :
  keeps (fs_outside d f0)
    (render_in vfs main filename_pattern title_pattern data return_archive d) any.
Proof.
  unfold render_in, compile_stages, fs_outside.
  set (P := fun p => Fs.inside d p = false).
  assert (forall b, b = "src" \/ b = "result" \/ b = "result.zip" ->
            ~ P (os_path.join d b)
            /\ forall b', Str.startswith b' "/" = false -> b' <> "" ->
                  ~ P (os_path.join (os_path.join d b) b'))
    as Hdirs.
  { intros b Hb. unfold P.
    assert (Str.startswith b "/" = false /\ b <> "") as [Hrel Hne]
      by (by destruct Hb as [->|[->| ->]]).
    split; [by rewrite PathFacts.inside_join |]. intros b' Hrel' Hne'.
    rewrite (PathFacts.inside_trans d b); [done..|].
    by apply PathFacts.inside_join. }
  destruct (Hdirs "src") as [Hsrc Hsrc']; [by left |].
  destruct (Hdirs "result") as [Hres Hres']; [by right; left |].
  destruct (Hdirs "result.zip") as [Hzip _]; [by right; right |].
  pose proof (untouched_heap P f0) as Hh.
  pose proof (untouched_mkdir P f0) as Hm.
  pose proof (untouched_open_w P f0) as Ho.
  pose proof (untouched_write P f0) as Hw.
  eapply keeps_bind with (V := any).
  { eapply keeps_bind with (V := any); [by apply Hm | intros _ _].
    eapply keeps_bind with (V := any); [by apply Hm | intros _ _].
    eapply keeps_bind with (V := any).
    - apply (template_compile_keeps _ (fun q => ~ P q)); try done.
      + intros _ i _. by destruct (PathFacts.html_name_relative (1 + i)) as (? & ? & _);
          apply Hsrc'.
      + intros _. by apply Hsrc'.
    - intros sources _.
      apply (html_compile_keeps _ (fun q => ~ P q)); try done.
      intros s _. destruct (PathFacts.pdf_name_relative s.1). by apply Hres'. }
  intros results _. eapply keeps_bind with (V := any); [apply keeps_lift |].
  intros name_tpl _. destruct return_archive.
  - apply (respond_archive_keeps _ (fun q => ~ P q)); try done.
    + apply untouched_zip_create.
    + apply untouched_zip_write.
  - by apply respond_single_keeps.
Qed.

End fs_outside.

(** ** The temporary directory *)

Section temp_dir.
Context `{Runtime}.

Lemma rmtree_removes (d : string) (w : world) :
  fs w !! d = Some Dir ->
  exists w', Fs.rmtree d w = (w', Ok tt)
    /\ heap w' = heap w
    /\ fs w' !! d = None
    /\ (forall p, Fs.inside d p = true -> fs w' !! p = None)
    /\ (forall p, p <> d -> Fs.inside d p = false -> fs w' !! p = fs w !! p).
Proof.
  intros Hd. unfold Fs.rmtree. rewrite Hd. eexists. split; [done |]. simpl.
  split; [done |]. split; [|split].
  - apply map_lookup_filter_None. right. intros x _ [Hne _]. done.
  - intros p Hp. apply map_lookup_filter_None. right. intros x _ [_ Hin].
    simpl in Hin. congruence.
  - intros p Hne Hp. rewrite map_lookup_filter.
    destruct (fs w !! p) as [x|]; simpl; [|done].
    by rewrite option_guard_True.
Qed.

(** What [make_temp_dir] leaves behind, whatever the block does, as long
    as the block writes inside the directory only. *)
Lemma make_temp_dir_cleans {A} (body : string -> M A) (w : world) :
  let tmp := mkdtemp_name (fs w) in
  (forall f0, keeps (fs_outside tmp f0) (body tmp) any) ->
  fs w !! tmp = None ->
  let w0 := with_fs <[tmp := Dir]> w in
  (make_temp_dir false body w).2 = (body tmp w0).2
  /\ heap (make_temp_dir false body w).1 = heap (body tmp w0).1
  /\ fs (make_temp_dir false body w).1 !! tmp = None
  /\ (forall p, Fs.inside tmp p = true -> fs (make_temp_dir false body w).1 !! p = None)
  /\ (forall p, p <> tmp -> Fs.inside tmp p = false ->
                fs (make_temp_dir false body w).1 !! p = fs w !! p).
Proof.
  intros tmp Hbody Hfresh w0.
  assert (mkdtemp w = (w0, Ok tmp)) as Hmk.
  { unfold mkdtemp. fold tmp. by rewrite Hfresh. }
  unfold make_temp_dir. rewrite (bind_step _ _ _ _ _ Hmk). unfold try_finally.
  destruct (Hbody (fs w0) w0) as [Hout _]; [done |].
  destruct (body tmp w0) as [w1 r]; simpl in *.
  assert (fs w1 !! tmp = Some Dir) as Hdir.
  { rewrite Hout by apply PathFacts.inside_self. apply lookup_insert_eq. }
  destruct (rmtree_removes tmp w1 Hdir) as (w2 & -> & Hh & Hrm & Hin & Hrest).
  simpl. repeat split; try done.
  intros p Hne Hp. rewrite Hrest, Hout by done. by apply lookup_insert_ne.
Qed.

(** C6. A call that gets past the Main-file check leaves no temporary
    directory behind, whether it returns a response or raises: at the end
    the directory and everything inside it are gone, and every other path
    is as it was. When [mkdtemp] itself fails nothing was created. A call
    without a Main file does not touch the world at all. *)
Theorem temp_dir_never_left_behind (files : list FileVersion.t)
    (filename_pattern : option string) (title_pattern : string) (data : DataSet)
    (return_archive : bool) (w : world) :
  let tmp := mkdtemp_name (fs w) in
  let w' := (render_pdf files filename_pattern title_pattern data return_archive w).1 in
  match find_main files with
  | None => w' = w
  | Some _ =>
      match fs w !! tmp with
      | Some _ => w' = w
      | None =>
          fs w' !! tmp = None
          /\ (forall p, Fs.inside tmp p = true -> fs w' !! p = None)
          /\ (forall p, p <> tmp -> Fs.inside tmp p = false -> fs w' !! p = fs w !! p)
      end
  end.
Proof.
  intros tmp w'. subst w'. unfold render_pdf.
  destruct (find_main files) as [main|]; [|done].
  destruct (fs w !! tmp) eqn:Hfresh.
  - unfold make_temp_dir, mkdtemp, bind. fold tmp. by rewrite Hfresh.
  - eapply make_temp_dir_cleans; [|done]. intros f0. apply render_in_outside.
Qed.

End temp_dir.

(** ** Successful runs of the two compilers *)

Lemma keeps_run {A} (J : world -> Prop) (m : M A) (V : A -> Prop) (w w' : world)
    (r : result A) :
  keeps J m V -> m w = (w', r) -> J w -> J w'.
Proof. intros Hm Hrun Hw. destruct (Hm w Hw) as [Hw' _]. by rewrite Hrun in Hw'. Qed.

Lemma dict_copy_Ok (row : loc) (w w' : world) (c : loc) :
  dict_copy row w = (w', Ok c) ->
  exists o, heap w !! row = Some o /\ c = length (heap w)
            /\ w' = World (fs w) (heap w ++ [o]).
Proof.
  unfold dict_copy. destruct (heap w !! row) as [o|]; [|done].
  intros [= <- <-]. by exists o.
Qed.

Section runs.
Context `{Runtime}.

Lemma render_fs vfs t row kw w w' r :
  TemplateCompiler.render vfs t row kw w = (w', r) -> fs w' = fs w.
Proof.
  unfold TemplateCompiler.render.
  destruct (PyDict.get "row" kw); [by intros [= <- _] |].
  destruct (PyDict.get "self" kw); [by intros [= <- _] |].
  destruct (jinja_render _ t row kw (heap w)). by intros [= <- _].
Qed.

Lemma render_readonly vfs t row kw w w' r :
  readonly -> TemplateCompiler.render vfs t row kw w = (w', r) -> w' = w.
Proof.
  intros Hro. unfold TemplateCompiler.render.
  destruct (PyDict.get "row" kw); [by intros [= <- _] |].
  destruct (PyDict.get "self" kw); [by intros [= <- _] |].
  specialize (Hro (TemplateCompiler._do_lookup vfs) t row kw (heap w)).
  destruct (jinja_render _ t row kw (heap w)) as [h r']. simpl in Hro. subst h.
  intros [= <- _]. by destruct w.
Qed.

Lemma html_name_inj src_dir i j : html_name src_dir i = html_name src_dir j -> i = j.
Proof.
  unfold html_name. intros E.
  destruct (PathFacts.html_name_relative i) as (? & _ & _).
  destruct (PathFacts.html_name_relative j) as (? & _ & _).
  apply PathFacts.join_inj in E; [|done..].
  apply StrFacts.format_inj, (StrFacts.app_inv_tail _ _ ".html"), E.
Qed.

Lemma compile_split_Ok vfs tpl title_pattern lookups src_dir data :
  forall idx sources w w' out,
  TemplateCompiler.compile_split vfs tpl title_pattern lookups src_dir idx data sources w
    = (w', Ok out) ->
  exists copies,
    length copies = length data
    /\ out = sources ++ imap (fun i c => (html_name src_dir (idx + i), Some c)) copies
    /\ (forall i, i < length data -> is_file (fs w' !! html_name src_dir (idx + i)))
    /\ (readonly -> allocated (heap w) data ->
        copies = seq (length (heap w)) (length data)
        /\ exists objs, heap w' = heap w ++ objs
                        /\ Forall2 (fun row o => heap w !! row = Some o) data objs).
Proof.
  induction data as [|row data IH]; intros idx sources w w' out Hrun; simpl in Hrun.
  { apply ret_Ok in Hrun as [<- ->]. exists []. rewrite app_nil_r.
    repeat split; try done.
    - simpl. lia.
    - exists []. by rewrite app_nil_r. }
  run_inv Hrun.
  fold (html_name src_dir idx) in *.
  rename Hrun0 into Hcopy, Hrun1 into Htitle, Hrun2 into Hopen, Hrun3 into Hhdr,
    Hrun4 into Hbody, Hrun5 into Hwb, Hrun6 into Hft.
  apply dict_copy_Ok in Hcopy as (o & Ho & -> & ->).
  destruct (IH _ _ _ _ _ Hrun) as (copies & Hlen & -> & Hfiles & Hheap).
  exists (length (heap w) :: copies). split; [simpl; lia |]. split.
  { rewrite <- app_assoc. simpl. rewrite Nat.add_0_r. do 2 f_equal.
    apply imap_ext. intros i c _. simpl. do 2 f_equal. lia. }
  split.
  { intros [|i] Hi.
    - rewrite Nat.add_0_r.
      eapply (keeps_run (fun w => is_file (fs w !! html_name src_dir idx)));
        [| exact Hrun |].
      { apply (compile_split_keeps _ (fun _ => True)); auto using is_file_mkdir,
          is_file_open_w, is_file_write. }
      eapply (keeps_run _ _ _ _ _ _ (is_file_write _ _ _) Hft).
      eapply (keeps_run _ _ _ _ _ _ (is_file_write _ _ _) Hwb).
      rewrite (render_fs _ _ _ _ _ _ _ Hbody).
      eapply (keeps_run _ _ _ _ _ _ (is_file_write _ _ _) Hhdr).
      unfold Fs.open_w in Hopen. injection Hopen as <- _. simpl.
      exists "". apply lookup_insert_eq.
    - replace (idx + S i) with (S idx + i) by lia. apply Hfiles. simpl in Hi. lia. }
  intros Hro Halloc. apply Forall_cons in Halloc as [_ Halloc].
  apply (render_readonly _ _ _ _ _ _ _ Hro) in Htitle, Hbody. subst.
  unfold Fs.open_w, Fs.write in *. simplify_eq. simpl in *.
  destruct Hheap as (-> & objs & Hh & Hobjs); [done | |].
  { eapply Forall_impl; [exact Halloc |]. intros r [x Hx]. exists x.
    by apply lookup_app_l_Some. }
  rewrite length_app, Nat.add_1_r. split; [done |].
  exists (o :: objs). split; [by rewrite Hh, <- app_assoc |].
  apply Forall2_cons. split; [done |].
  clear -Hobjs Halloc. induction Hobjs as [|r x data objs Hr _ IH]; [done |].
  apply Forall_cons in Halloc as [[y Hy] Halloc]. constructor; [|by apply IH].
  rewrite (lookup_app_l_Some _ _ _ _ Hy) in Hr. congruence.
Qed.

Lemma compile_sources_Ok vfs sheets result_dir sources :
  forall results w w' out,
  HtmlCompiler.compile_sources vfs sheets result_dir sources results w = (w', Ok out) ->
  out = results ++ map (fun s => (pdf_name result_dir s.1, s.2)) sources
  /\ heap w' = heap w
  /\ (forall s, s ∈ sources -> is_file (fs w' !! pdf_name result_dir s.1)).
Proof.
  induction sources as [|[source row] sources IH]; intros results w w' out Hrun;
    simpl in Hrun.
  { apply ret_Ok in Hrun as [<- ->]. rewrite app_nil_r. repeat split; try done.
    intros s Hs. by apply elem_of_nil in Hs. }
  run_inv Hrun. fold (pdf_name result_dir source) in *.
  rename Hrun0 into Hread, Hrun1 into Hpdf, Hrun2 into Hopen, Hrun3 into Hwr.
  destruct (IH _ _ _ _ Hrun) as (-> & Hh & Hfiles).
  split; [by rewrite <- app_assoc |]. split.
  { rewrite Hh. unfold Fs.read in Hread. unfold lift, Fs.open_w, Fs.write in *.
    destruct (fs w !! source) as [[]|]; simplify_eq. done. }
  intros s [->|Hs]%elem_of_cons; [|by apply Hfiles]. simpl.
  eapply (keeps_run (fun w => is_file (fs w !! pdf_name result_dir source)));
    [| exact Hrun |].
  { apply (compile_sources_keeps _ (fun _ => True)); auto using is_file_mkdir,
      is_file_open_w, is_file_write. }
  eapply (keeps_run _ _ _ _ _ _ (is_file_write _ _ _) Hwr).
  unfold Fs.open_w in Hopen. injection Hopen as <- _. simpl.
  exists "". apply lookup_insert_eq.
Qed.

End runs.

(** ** The dictionaries of the caller *)

Section heap_frame.
Context `{Runtime}.
Hypothesis frame : render_frame.
Variable h0 : list DataRow.
Local Abbreviation K := (heap_kept h0).

Lemma kept_same_heap {A} (m : M A) :
  (forall w, heap (m w).1 = heap w) -> keeps K m any.
Proof. intros Hm w Hw. split; [|done]. unfold heap_kept. by rewrite Hm. Qed.

Lemma kept_mkdir p : keeps K (Fs.mkdir p) any.
Proof. apply kept_same_heap. intros w. unfold Fs.mkdir. by destruct (fs w !! p). Qed.

Lemma kept_open_w p : keeps K (Fs.open_w p) any.
Proof. by apply kept_same_heap. Qed.

Lemma kept_write p s : keeps K (Fs.write p s) any.
Proof. by apply kept_same_heap. Qed.

Lemma kept_read p : keeps K (Fs.read p) any.
Proof.
  apply kept_same_heap. intros w. unfold Fs.read. by destruct (fs w !! p) as [[]|].
Qed.

Lemma kept_open_rb p : keeps K (Fs.open_rb p) any.
Proof.
  apply kept_same_heap. intros w. unfold Fs.open_rb. by destruct (fs w !! p) as [[]|].
Qed.

Lemma kept_zip_create z : keeps K (Fs.zip_create z) any.
Proof. by apply kept_same_heap. Qed.

Lemma kept_zip_write z p a : keeps K (Fs.zip_write z p a) any.
Proof.
  apply kept_same_heap. intros w. unfold Fs.zip_write, bind, Fs.read, lift.
  destruct (fs w !! p) as [[]|]; try done. by destruct (Fs.zip_entry_name a).
Qed.

Lemma kept_rmtree d : keeps K (Fs.rmtree d) any.
Proof.
  apply kept_same_heap. intros w. unfold Fs.rmtree. by destruct (fs w !! d) as [[]|].
Qed.

Lemma kept_mkdtemp : keeps K mkdtemp any.
Proof.
  apply kept_same_heap. intros w. unfold mkdtemp. by destruct (fs w !! _).
Qed.

(** A copy is a new dictionary. *)
Lemma kept_dict_copy row : keeps K (dict_copy row) (fun c => length h0 <= c).
Proof.
  intros w [Hlen Hw]. unfold dict_copy. destruct (heap w !! row) as [o|]; simpl.
  - split; [split |]; simpl.
    + rewrite length_app. lia.
    + intros l o' Hl. by apply lookup_app_l_Some, Hw.
    + by intros c [= <-].
  - by split.
Qed.

(** Rendering on a new dictionary, or on none, keeps the old ones. *)
Lemma kept_render vfs t row kw :
  new_row h0 row -> keeps K (TemplateCompiler.render vfs t row kw) any.
Proof.
  intros Hrow w [Hlen Hw]. unfold TemplateCompiler.render.
  destruct (PyDict.get "row" kw); [by split |].
  destruct (PyDict.get "self" kw); [by split |].
  pose proof (frame (TemplateCompiler._do_lookup vfs) t row kw (heap w)) as Hf.
  destruct (jinja_render _ t row kw (heap w)) as [h r] eqn:E; simpl in *.
  destruct Hf as [Hgrow Hsame].
  split; [|done]. split; simpl; [lia |]. intros l o Hl.
  assert (l < length h0) as Hlt by (by eapply lookup_lt_Some).
  rewrite Hsame; [by apply Hw | | lia].
  intros ->. specialize (Hrow l eq_refl). lia.
Qed.

Ltac kept_step :=
  lazymatch goal with
  | |- keeps _ (ret _) any => apply keeps_ret; exact Logic.I
  | |- keeps _ (raise _) _ => apply keeps_raise
  | |- keeps _ (lift _) any => apply keeps_lift
  | |- keeps _ (bind (Fs.mkdir _) _) _ =>
      eapply keeps_bind; [apply kept_mkdir | intros ? _]
  | |- keeps _ (bind (Fs.open_w _) _) _ =>
      eapply keeps_bind; [apply kept_open_w | intros ? _]
  | |- keeps _ (bind (Fs.write _ _) _) _ =>
      eapply keeps_bind; [apply kept_write | intros ? _]
  | |- keeps _ (bind (Fs.read _) _) _ =>
      eapply keeps_bind; [apply kept_read | intros ? _]
  | |- keeps _ (bind (Fs.open_rb _) _) _ =>
      eapply keeps_bind; [apply kept_open_rb | intros ? _]
  | |- keeps _ (bind (Fs.zip_create _) _) _ =>
      eapply keeps_bind; [apply kept_zip_create | intros ? _]
  | |- keeps _ (bind (Fs.zip_write _ _ _) _) _ =>
      eapply keeps_bind; [apply kept_zip_write | intros ? _]
  | |- keeps _ (bind (lift _) _) _ =>
      eapply keeps_bind; [apply keeps_lift | intros ? _]
  | |- keeps _ (bind (dict_copy _) _) _ =>
      eapply keeps_bind; [apply kept_dict_copy | intros ? ?]
  | |- keeps _ (bind (TemplateCompiler.render _ _ _ _) _) _ =>
      eapply keeps_bind; [apply kept_render | intros ? _]
  end.

Lemma new_row_Some c : length h0 <= c -> new_row h0 (Some c).
Proof. by intros Hc c' [= <-]. Qed.

Lemma new_row_None : new_row h0 None.
Proof. by intros c. Qed.

Lemma kept_compile_split vfs tpl title_pattern lookups src_dir idx data sources :
  new_rows h0 sources ->
  keeps K (TemplateCompiler.compile_split vfs tpl title_pattern lookups src_dir idx
             data sources) (new_rows h0).
Proof.
  revert idx sources. induction data as [|row data IH]; intros idx sources Hsrc; simpl.
  { by apply keeps_ret. }
  kept_step. kept_step; [by apply new_row_Some |].
  do 2 kept_step. kept_step; [by apply new_row_Some |]. do 2 kept_step.
  apply IH. apply Forall_app. split; [done |]. apply Forall_singleton.
  by apply new_row_Some.
Qed.

Lemma kept_write_rows vfs tpl lookups src_name data :
  keeps K (TemplateCompiler.write_rows vfs tpl lookups src_name data) any.
Proof.
  induction data as [|row data IH]; simpl; [by apply keeps_ret |].
  kept_step. kept_step; [by apply new_row_Some |]. kept_step. apply IH.
Qed.

Lemma kept_template_compile vfs main_file_name src_dir data title_pattern split_output :
  keeps K (TemplateCompiler.compile vfs main_file_name src_dir data title_pattern
             split_output) (new_rows h0).
Proof.
  unfold TemplateCompiler.compile. do 3 kept_step.
  destruct split_output; [apply kept_compile_split, Forall_nil_2 |].
  eapply keeps_bind with (V := new_row h0).
  { destruct data as [|row [|]]; try (apply keeps_ret; apply new_row_None).
    kept_step. apply keeps_ret. by apply new_row_Some. }
  intros row_copy Hrow. eapply keeps_bind with (V := any).
  { destruct data; [by apply keeps_ret | by apply kept_render]. }
  intros title _. do 2 kept_step.
  eapply keeps_bind; [apply kept_write_rows | intros ? _].
  kept_step. apply keeps_ret. by apply Forall_singleton.
Qed.

Lemma kept_compile_sources vfs sheets result_dir sources results :
  new_rows h0 sources -> new_rows h0 results ->
  keeps K (HtmlCompiler.compile_sources vfs sheets result_dir sources results)
    (new_rows h0).
Proof.
  revert results. induction sources as [|[source row] sources IH];
    intros results Hsrc Hres; simpl.
  { by apply keeps_ret. }
  apply Forall_cons in Hsrc as [Hrow Hsrc]. do 4 kept_step.
  apply IH; [done |]. apply Forall_app. split; [done |]. by apply Forall_singleton.
Qed.

Lemma kept_html_compile vfs sources result_dir :
  new_rows h0 sources ->
  keeps K (HtmlCompiler.compile vfs sources result_dir) (new_rows h0).
Proof.
  intros Hsrc. unfold HtmlCompiler.compile. kept_step.
  apply kept_compile_sources; [done | apply Forall_nil_2].
Qed.

Lemma kept_NameFactory_make vfs name_tpl row fallback :
  new_row h0 row -> keeps K (NameFactory_make vfs name_tpl row fallback) any.
Proof.
  intros Hrow. unfold NameFactory_make. destruct name_tpl; [|by apply keeps_ret].
  kept_step; [done |]. by apply keeps_ret.
Qed.

Lemma kept_write_archive vfs name_tpl z_name results :
  new_rows h0 results -> keeps K (write_archive vfs name_tpl z_name results) any.
Proof.
  induction results as [|[pdf_name row] results IH]; intros Hres; simpl.
  { by apply keeps_ret. }
  apply Forall_cons in Hres as [Hrow Hres].
  eapply keeps_bind; [by apply kept_NameFactory_make | intros ? _].
  kept_step. by apply IH.
Qed.

Lemma kept_render_in vfs main filename_pattern title_pattern data return_archive tmpdir :
  keeps K (render_in vfs main filename_pattern title_pattern data return_archive tmpdir)
    any.
Proof.
  unfold render_in. eapply keeps_bind with (V := new_rows h0).
  { unfold compile_stages. do 2 kept_step.
    eapply keeps_bind; [apply kept_template_compile |].
    intros sources Hsrc. by apply kept_html_compile. }
  intros results Hres. kept_step. destruct return_archive.
  - unfold respond_archive. kept_step.
    eapply keeps_bind; [by apply kept_write_archive | intros ? _].
    kept_step. by apply keeps_ret.
  - unfold respond_single. case_decide; [by apply keeps_ret |].
    destruct results as [|[pdf_name row] ?]; [by apply keeps_ret |].
    apply Forall_cons in Hres as [Hrow _].
    eapply keeps_bind; [by apply kept_NameFactory_make | intros ? _].
    kept_step. by apply keeps_ret.
Qed.

Lemma kept_render_pdf files filename_pattern title_pattern data return_archive :
  keeps K (render_pdf files filename_pattern title_pattern data return_archive) any.
Proof.
  unfold render_pdf. destruct (find_main files) as [main|]; [|by apply keeps_ret].
  unfold make_temp_dir. eapply keeps_bind; [apply kept_mkdtemp | intros tmp _].
  apply keeps_try_finally; [apply kept_render_in | apply kept_rmtree].
Qed.

End heap_frame.

(** ** Split output: one numbered document per row *)

Lemma fst_imap_names {A B} (g : nat -> string) (h : A -> B) (l : list A) :
  (imap (fun i c => (g i, h c)) l).*1 = g <$> seq 0 (length l).
Proof.
  revert g. induction l as [|x l IH]; intros g; simpl; [done |].
  f_equal. rewrite <- fmap_S_seq, <- list_fmap_compose. apply (IH (g ∘ S)).
Qed.

Lemma elem_of_imap_names (g : nat -> string) (n : nat) (p : string) :
  p ∈ g <$> seq 0 n <-> exists i, i < n /\ p = g i.
Proof.
  rewrite list_elem_of_fmap. split.
  - intros (i & -> & Hi). apply elem_of_seq in Hi. exists i. split; [lia | done].
  - intros (i & Hi & ->). exists i. split; [done |]. apply elem_of_seq. lia.
Qed.


Section split_output.
Context `{Runtime}.

Lemma pdf_name_inj result_dir src_dir i j :
  pdf_name result_dir (html_name src_dir i) = pdf_name result_dir (html_name src_dir j) ->
  i = j.
Proof.
  unfold pdf_name, html_name. rewrite !PathFacts.pdf_of_html. intros E.
  assert (forall k, Str.startswith (Str.format_03d k +:+ ".pdf") "/" = false) as Hrel.
  { intros k. apply PathFacts.no_slash_relative. rewrite StrFacts.mem_app.
    rewrite (StrFacts.all_digits_mem Str.slash)
      by auto using StrFacts.slash_not_digit, StrFacts.all_digits_format.
    done. }
  apply PathFacts.join_inj in E; [|done..].
  apply StrFacts.format_inj, (StrFacts.app_inv_tail _ _ ".pdf"), E.
Qed.


End split_output.

(** ** Merged output: one document for all rows *)

Lemma heap_only_ret {A} (a : A) : heap_only (ret a).
Proof. done. Qed.

Lemma heap_only_bind {A B} (m : M A) (k : A -> M B) :
  heap_only m -> (forall a, heap_only (k a)) -> heap_only (x <- m ;; k x).
Proof.
  intros Hm Hk w f. unfold bind. rewrite (Hm w f).
  destruct (m w) as [w1 [a|e]]; simpl; [|done]. apply (Hk a w1 f).
Qed.

Lemma heap_only_dict_copy row : heap_only (dict_copy row).
Proof. intros w f. unfold dict_copy. simpl. by destruct (heap w !! row). Qed.

Lemma heap_only_fs {A} (m : M A) (w : world) : heap_only m -> fs (m w).1 = fs w.
Proof.
  intros Hm. specialize (Hm w (fs w)). destruct w as [f h]. simpl in *.
  by rewrite Hm.
Qed.

Section merged_output.
Context `{Runtime}.
Variable vfs : Vfs.

Lemma heap_only_render t row kw : heap_only (TemplateCompiler.render vfs t row kw).
Proof.
  intros w f. unfold TemplateCompiler.render.
  destruct (PyDict.get "row" kw); [done |]. destruct (PyDict.get "self" kw); [done |].
  simpl. by destruct (jinja_render _ t row kw (heap w)).
Qed.

Lemma heap_only_render_rows tpl lookups data :
  heap_only (render_rows vfs tpl lookups data).
Proof.
  induction data as [|row data IH]; simpl; [apply heap_only_ret |].
  apply heap_only_bind; [apply heap_only_dict_copy | intros c].
  apply heap_only_bind; [apply heap_only_render | intros body].
  apply heap_only_bind; [apply IH | intros bodies]. apply heap_only_ret.
Qed.

Lemma run_heap_only {A} (m : M A) (w w' : world) (r : result A) :
  heap_only m -> m w = (w', r) -> forall f, m (World f (heap w)) = (World f (heap w'), r).
Proof. intros Hm Hrun f. rewrite (Hm w f). by rewrite Hrun. Qed.

Lemma write_rows_Ok tpl lookups src_name data :
  forall w w' u,
  TemplateCompiler.write_rows vfs tpl lookups src_name data w = (w', Ok u) ->
  exists bodies,
    length bodies = length data
    /\ (forall f, render_rows vfs tpl lookups data (World f (heap w))
                  = (World f (heap w'), Ok bodies))
    /\ fs w' = alter (append_to (concat_all bodies)) src_name (fs w).
Proof.
  induction data as [|row data IH]; intros w w' u Hrun; simpl in Hrun.
  { apply ret_Ok in Hrun as [_ ->]. exists []. repeat split; try done.
    simpl. apply map_eq. intros q. destruct (decide (q = src_name)) as [->|Hne].
    - rewrite lookup_alter_eq. destruct (fs w !! src_name) as [[]|]; simpl; try done.
      by rewrite StrFacts.app_nil_r.
    - by rewrite lookup_alter_ne. }
  run_inv Hrun. rename Hrun0 into Hcopy, Hrun1 into Hbody, Hrun2 into Hwr.
  destruct (IH _ _ _ Hrun) as (bodies & Hlen & Hspec & Hfs).
  exists (a0 :: bodies). split; [simpl; lia |]. split.
  - intros f. simpl.
    rewrite (bind_step _ _ _ _ _ (run_heap_only _ _ _ _ (heap_only_dict_copy row) Hcopy f)).
    rewrite (bind_step _ _ _ _ _
               (run_heap_only _ _ _ _ (heap_only_render _ _ _) Hbody f)).
    assert (heap w2 = heap w1) as <- by (unfold Fs.write in Hwr; by simplify_eq).
    rewrite (bind_step _ _ _ _ _ (Hspec f)). done.
  - rewrite Hfs. unfold Fs.write in Hwr. simplify_eq. simpl.
    rewrite (render_fs _ _ _ _ _ _ _ Hbody).
    apply dict_copy_Ok in Hcopy as (o & _ & _ & ->). simpl.
    rewrite alter_alter_eq. apply alter_ext. intros [] _; simpl; try done.
    by rewrite StrFacts.app_assoc.
Qed.


End merged_output.

(** ** The two lookup functions *)

(** C4. The URL fetcher of the HTML compiler: a URL that is the prefix
    [file:///] followed by a path is looked up in the Virtual File Set under
    that path, which raises [KeyError] when the path is absent and returns the
    content of the [FileVersion] stored there otherwise; any other URL raises
    [ValueError]. The outcome is a function of the URL and the Virtual File
    Set. *)
Theorem fetcher_contract (vfs : Vfs) (url : string) :
  (forall path, url = LOCAL_FILE_URI_PREFIX +:+ path ->
     HtmlCompiler._do_lookup vfs url
     = match PyDict.get path vfs with
       | None => Raise KeyError
       | Some the_file => Ok (Fetched (FileVersion.data the_file) path)
       end)
  /\ ((forall path, url <> LOCAL_FILE_URI_PREFIX +:+ path) ->
      HtmlCompiler._do_lookup vfs url = Raise (ValueError "Invalid URL to look up for"))
  /\ (Str.startswith url LOCAL_FILE_URI_PREFIX = false <->
      forall path, url <> LOCAL_FILE_URI_PREFIX +:+ path).
Proof.
  unfold HtmlCompiler._do_lookup. split; [|split].
  - intros path ->. rewrite StrFacts.removeprefix_app.
    rewrite decide_False; [done |].
    pose proof (StrFacts.removeprefix_neq LOCAL_FILE_URI_PREFIX path) as Hne.
    rewrite StrFacts.removeprefix_app in Hne. by apply Hne.
  - intros Hno. unfold Str.removeprefix.
    destruct (Str.strip_prefix LOCAL_FILE_URI_PREFIX url) as [r|] eqn:E.
    + apply StrFacts.strip_prefix_Some in E. by destruct (Hno r).
    + by rewrite decide_True.
  - unfold Str.startswith. rewrite bool_decide_eq_false. split.
    + intros Hno path ->. apply Hno. rewrite StrFacts.strip_prefix_app. by eexists.
    + intros Hno [r Hr]. apply StrFacts.strip_prefix_Some in Hr. by destruct (Hno r).
Qed.

Lemma renderable_spec (ty : ProjectFile.Type_) :
  renderable ty = false <-> ty ∉ [ProjectFile.Main; ProjectFile.HTML; ProjectFile.CSS].
Proof.
  rewrite !not_elem_of_cons. destruct ty; simpl; split; try done;
    try (intros (? & ? & ? & _); done).
  - intros _. repeat split; try done. apply not_elem_of_nil.
  - intros _. repeat split; try done. apply not_elem_of_nil.
Qed.

Section template_lookup.
Context `{Runtime}.

Lemma do_lookup_spec (vfs : Vfs) (name : string) :
  TemplateCompiler._do_lookup vfs name
  = match PyDict.get name vfs with
    | Some the_file =>
        if renderable (ProjectFile.type (FileVersion.file the_file))
        then Some (FileVersion.data the_file, name)
        else None
    | None => None
    end.
Proof.
  unfold TemplateCompiler._do_lookup. destruct (PyDict.get name vfs) as [f|]; [|done].
  destruct (renderable _) eqn:E.
  - rewrite decide_False; [done |]. intros Hn%renderable_spec. congruence.
  - rewrite decide_True; [done |]. by apply renderable_spec.
Qed.

(** C5. The loader of the template compiler looks a name up in the
    Virtual File Set and nowhere else. A name stored with type Main, HTML or
    CSS resolves to the content stored there. A name that is absent, or
    stored with type CSV or any other type, does not resolve:
    [get_template] raises [TemplateNotFound], a compilation whose main
    template does not resolve raises without writing anything and without
    returning a source, and [render_pdf] then raises instead of returning a
    response. *)
Theorem template_lookup_contract (vfs : Vfs) (name : string) :
  match PyDict.get name vfs with
  | Some the_file =>
      if renderable (ProjectFile.type (FileVersion.file the_file))
      then TemplateCompiler._do_lookup vfs name = Some (FileVersion.data the_file, name)
           /\ TemplateCompiler.get_source vfs name = Ok (FileVersion.data the_file)
           /\ TemplateCompiler.get_template vfs name
              = jinja_compile (FileVersion.data the_file)
      else TemplateCompiler._do_lookup vfs name = None
  | None => TemplateCompiler._do_lookup vfs name = None
  end
  /\ (TemplateCompiler._do_lookup vfs name = None ->
      TemplateCompiler.get_template vfs name = Raise (TemplateNotFound name)
      /\ forall src_dir data title_pattern split_output w,
           exists e,
             TemplateCompiler.compile vfs name src_dir data title_pattern split_output w
             = (w, Raise e)
             /\ (forall lookups, find_lookup_tables (PyDict.values vfs) = Ok lookups ->
                 e = TemplateNotFound name))
  /\ (TemplateCompiler._do_lookup vfs name = None ->
      forall files main filename_pattern title_pattern data return_archive w,
        vfs = files_to_vfs files -> find_main files = Some main -> name_of main = name ->
        exists e,
          (render_pdf files filename_pattern title_pattern data return_archive w).2
          = Raise e).
Proof.
  assert (TemplateCompiler._do_lookup vfs name = None ->
          forall src_dir data title_pattern split_output w,
            exists e,
              TemplateCompiler.compile vfs name src_dir data title_pattern split_output w
              = (w, Raise e)
              /\ (forall lookups, find_lookup_tables (PyDict.values vfs) = Ok lookups ->
                  e = TemplateNotFound name)) as Hcompile.
  { intros Hnone src_dir data title_pattern split_output w.
    unfold TemplateCompiler.compile, bind, lift, TemplateCompiler.get_template,
      TemplateCompiler.get_source. rewrite Hnone. simpl.
    destruct (find_lookup_tables (PyDict.values vfs)) as [lookups|e].
    + exists (TemplateNotFound name). by split.
    + exists e. by split. }
  split; [|split].
  - rewrite do_lookup_spec. unfold TemplateCompiler.get_template, TemplateCompiler.get_source.
    rewrite do_lookup_spec.
    destruct (PyDict.get name vfs) as [f|]; [|done]. by destruct (renderable _).
  - intros Hnone.
    assert (TemplateCompiler.get_template vfs name = Raise (TemplateNotFound name)) as Hget.
    { unfold TemplateCompiler.get_template, TemplateCompiler.get_source. by rewrite Hnone. }
    split; [done | by apply Hcompile].
  - intros Hnone files main fp tp data ra w -> Hmain Hname.
    unfold render_pdf. rewrite Hmain. unfold make_temp_dir, bind, mkdtemp.
    destruct (fs w !! mkdtemp_name (fs w)); [by eexists |].
    unfold try_finally, render_in, compile_stages, bind.
    set (w0 := with_fs _ w).
    assert (exists w1 e, (let (w', r) := Fs.mkdir (os_path.join (mkdtemp_name (fs w)) "src") w0 in
                          match r with
                          | Ok _ =>
                              let (w'', r') :=
                                Fs.mkdir (os_path.join (mkdtemp_name (fs w)) "result") w' in
                              match r' with
                              | Ok _ =>
                                  TemplateCompiler.compile (files_to_vfs files)
                                    (ProjectFile.file_name (FileVersion.file main))
                                    (os_path.join (mkdtemp_name (fs w)) "src") data tp ra w''
                              | Raise e => (w'', Raise e)
                              end
                          | Raise e => (w', Raise e)
                          end) = (w1, @Raise (list FileWithData) e)) as (w1 & e & Hstage).
    { destruct (Fs.mkdir _ w0) as [w' [[]|e]]; [|by eexists _, _].
      destruct (Fs.mkdir _ w') as [w'' [[]|e]]; [|by eexists _, _].
      fold (name_of main). rewrite Hname.
      destruct (Hcompile Hnone (os_path.join (mkdtemp_name (fs w)) "src") data tp ra w'')
        as (e & -> & _). by eexists _, _. }
    unfold bind in Hstage.
    destruct (Fs.mkdir _ w0) as [w' [[]|e']]; simpl in *.
    + destruct (Fs.mkdir _ w') as [w'' [[]|e'']]; simpl in *.
      * rewrite Hstage. destruct (Fs.rmtree _ w1) as [w2 [[]|e2]]; by eexists.
      * destruct (Fs.rmtree _ w'') as [w2 [[]|e2]]; by eexists.
    + destruct (Fs.rmtree _ w') as [w2 [[]|e2]]; by eexists.
Qed.

(** The type CSV and the types the module does not name are not
    renderable. *)
Lemma not_renderable_types (tag : string) :
  renderable ProjectFile.CSV = false /\ renderable (ProjectFile.OtherType tag) = false.
Proof. done. Qed.

End template_lookup.

(** ** The responses of [render_pdf] *)

Section responses.
Context `{Runtime}.

Lemma try_finally_Ok {A} (m : M A) (fin : M unit) (w w' : world) (a : A) :
  try_finally m fin w = (w', Ok a) ->
  exists w1, m w = (w1, Ok a) /\ fin w1 = (w', Ok tt).
Proof.
  unfold try_finally. destruct (m w) as [w1 r].
  destruct (fin w1) as [w2 [[]|e]] eqn:E; [|done].
  intros [= <- ->]. by exists w1.
Qed.

(** A block that returns was run in a new directory. *)
Lemma make_temp_dir_Ok {A} (body : string -> M A) (w w' : world) (a : A) :
  make_temp_dir false body w = (w', Ok a) ->
  let tmp := mkdtemp_name (fs w) in
  fs w !! tmp = None
  /\ exists w1, body tmp (with_fs <[tmp := Dir]> w) = (w1, Ok a)
                /\ Fs.rmtree tmp w1 = (w', Ok tt).
Proof.
  intros Hrun tmp. unfold make_temp_dir in Hrun.
  apply bind_Ok in Hrun as (w0 & d & Hmk & Hrun).
  unfold mkdtemp in Hmk. fold tmp in Hmk.
  destruct (fs w !! tmp) eqn:E; [done |]. injection Hmk as <- <-.
  split; [done |]. by apply try_finally_Ok.
Qed.

(** [find_main] returns the first file of type Main, and none when no file
    has that type. *)
Lemma find_main_None (files : list FileVersion.t) :
  find_main files = None <-> Forall (fun fv => type_of fv <> ProjectFile.Main) files.
Proof.
  induction files as [|fv files IH]; simpl; [by split |].
  fold (type_of fv). rewrite Forall_cons. case_decide; [|by rewrite IH; intuition].
  split; [done | by intros []].
Qed.

Lemma find_main_Some (files : list FileVersion.t) (main : FileVersion.t) :
  find_main files = Some main ->
  exists before after,
    files = before ++ main :: after
    /\ type_of main = ProjectFile.Main
    /\ Forall (fun fv => type_of fv <> ProjectFile.Main) before.
Proof.
  induction files as [|fv files IH]; simpl; [done |].
  fold (type_of fv). case_decide as Hty.
  - intros [= <-]. by exists [], files.
  - intros (before & after & -> & Hmain & Hbefore)%IH.
    exists (fv :: before), after. by repeat constructor.
Qed.

Lemma respond_single_none vfs name_tpl w :
  respond_single vfs name_tpl [] w = (w, Ok (HttpResponse "" 201)).
Proof. done. Qed.

Lemma respond_single_many vfs name_tpl results w :
  1 < length results -> respond_single vfs name_tpl results w = (w, Ok (HttpResponse "" 401)).
Proof. intros Hlen. unfold respond_single. by rewrite decide_True. Qed.

Lemma respond_single_one vfs name_tpl pdf row w w1 file_name c :
  NameFactory_make vfs name_tpl row "result.pdf" w = (w1, Ok file_name) ->
  fs w1 !! pdf = Some (File c) ->
  respond_single vfs name_tpl [(pdf, row)] w
  = (w1, Ok (FileResponse (File c) "application/pdf" (Some file_name))).
Proof.
  intros Hname Hpdf. unfold respond_single. rewrite decide_False by (simpl; lia).
  rewrite (bind_step _ _ _ _ _ Hname). unfold bind, Fs.open_rb. by rewrite Hpdf.
Qed.

Lemma find_main_Exists (files : list FileVersion.t) :
  Exists (fun fv => type_of fv = ProjectFile.Main) files -> is_Some (find_main files).
Proof.
  intros Hex. destruct (find_main files) as [main|] eqn:E; [by eexists |].
  apply find_main_None in E. apply Exists_exists in Hex as (fv & Hin & Hty).
  rewrite Forall_forall in E. by destruct (E fv Hin).
Qed.

(** The merged compilation returns one source, and the HTML compiler one
    result per source. *)
Lemma template_compile_merged_single vfs main_file_name src_dir data title_pattern
    w w1 sources :
  TemplateCompiler.compile vfs main_file_name src_dir data title_pattern false w
    = (w1, Ok sources) ->
  exists row, sources = [(os_path.join src_dir "master.html", row)].
Proof.
  unfold TemplateCompiler.compile. intros Hrun.
  apply bind_Ok in Hrun as (? & lookups & _ & Hrun).
  apply bind_Ok in Hrun as (? & tpl & _ & Hrun).
  apply bind_Ok in Hrun as (? & pattern & _ & Hrun).
  apply bind_Ok in Hrun as (? & row_copy & _ & Hrun).
  apply bind_Ok in Hrun as (? & title & _ & Hrun).
  apply bind_Ok in Hrun as (? & ? & _ & Hrun).
  apply bind_Ok in Hrun as (? & ? & _ & Hrun).
  apply bind_Ok in Hrun as (? & ? & _ & Hrun).
  apply bind_Ok in Hrun as (? & ? & _ & Hrun).
  apply ret_Ok in Hrun as [<- _]. by exists row_copy.
Qed.

Lemma compile_stages_single vfs main tmpdir title_pattern data w w1 results :
  compile_stages vfs main tmpdir title_pattern data false w = (w1, Ok results) ->
  exists row, results = [(os_path.join (os_path.join tmpdir "result") "master.pdf", row)]
              /\ is_file (fs w1 !! os_path.join (os_path.join tmpdir "result") "master.pdf").
Proof.
  unfold compile_stages. intros Hrun.
  apply bind_Ok in Hrun as (wa & ? & _ & Hrun).
  apply bind_Ok in Hrun as (wb & ? & _ & Hrun).
  apply bind_Ok in Hrun as (wc & sources & Hsrc & Hres).
  apply template_compile_merged_single in Hsrc as [row ->].
  unfold HtmlCompiler.compile in Hres.
  apply bind_Ok in Hres as (? & sheets & [_ ->]%lift_Ok & Hres).
  apply compile_sources_Ok in Hres as (-> & _ & Hfile).
  assert (pdf_name (os_path.join tmpdir "result") (os_path.join (os_path.join tmpdir "src")
                                                     "master.html")
          = os_path.join (os_path.join tmpdir "result") "master.pdf") as Hname.
  { unfold pdf_name. by rewrite PathFacts.basename_join. }
  exists row. simpl. rewrite Hname. split; [done |].
  rewrite <- Hname. apply (Hfile (_, row)), list_elem_of_here.
Qed.

(** C9. With a Main file and [return_archive] unset, a call that returns
    a response went through exactly one compiled result: the response is the
    200 file response, and neither the 401 nor the 201 response can come out
    of [render_pdf]. The two compilation stages, run without
    [split_output], return exactly one result whenever they return. *)
Theorem non_archive_single_result (files : list FileVersion.t)
    (filename_pattern : option string) (title_pattern : string) (data : DataSet)
    (w w' : world) (resp : HttpResponseBase) :
  is_Some (find_main files) ->
  render_pdf files filename_pattern title_pattern data false w = (w', Ok resp) ->
  (exists main w1 results,
      find_main files = Some main
      /\ compile_stages (files_to_vfs files) main (mkdtemp_name (fs w)) title_pattern
           data false (with_fs <[mkdtemp_name (fs w) := Dir]> w) = (w1, Ok results)
      /\ length results = 1)
  /\ (exists c file_name,
         resp = FileResponse (File c) "application/pdf" (Some file_name))
  /\ status_code resp = 200
  /\ status_code resp <> 401 /\ status_code resp <> 201
  /\ (forall vfs main tmpdir title_pattern' data' w0 w1 results,
        compile_stages vfs main tmpdir title_pattern' data' false w0 = (w1, Ok results) ->
        length results = 1).
Proof.
  intros [main Hmain] Hrun. unfold render_pdf in Hrun. rewrite Hmain in Hrun.
  apply make_temp_dir_Ok in Hrun as (Hfresh & w3 & Hbody & _).
  unfold render_in in Hbody.
  apply bind_Ok in Hbody as (w1 & results & Hstages & Hbody).
  apply bind_Ok in Hbody as (? & name_tpl & [_ ->]%lift_Ok & Hresp).
  destruct (compile_stages_single _ _ _ _ _ _ _ _ Hstages) as (row & -> & Hfile).
  split; [by exists main, w1; eexists |].
  unfold respond_single in Hresp. rewrite decide_False in Hresp by (simpl; lia).
  apply bind_Ok in Hresp as (w2 & file_name & Hname & Hresp).
  apply bind_Ok in Hresp as (? & stream & Hopen & Hresp).
  apply ret_Ok in Hresp as [<- _].
  assert (is_file (fs w2 !! os_path.join (os_path.join (mkdtemp_name (fs w)) "result")
                              "master.pdf")) as [c Hc].
  { set (pdf := os_path.join _ "master.pdf") in *.
    assert (keeps (fun w0 => is_file (fs w0 !! pdf))
              (NameFactory_make (files_to_vfs files) name_tpl row "result.pdf") any) as Hk
      by (by apply NameFactory_make_keeps).
    apply (keeps_run _ _ _ _ _ _ Hk Hname Hfile). }
  unfold Fs.open_rb in Hopen. rewrite Hc in Hopen. injection Hopen as _ <-.
  split; [by exists c, file_name |]. do 3 (split; [done |]).
  intros vfs main' tmpdir tp' data' w0 w1' results Hst.
  by destruct (compile_stages_single _ _ _ _ _ _ _ _ Hst) as (? & -> & _).
Qed.

End responses.

(** ** The archive *)

Section archive.
Context `{Runtime}.
Variable vfs : Vfs.

Lemma heap_only_NameFactory_make name_tpl row fallback :
  heap_only (NameFactory_make vfs name_tpl row fallback).
Proof.
  unfold NameFactory_make. destruct name_tpl; [|apply heap_only_ret].
  apply heap_only_bind; [apply heap_only_render | intros; apply heap_only_ret].
Qed.

Lemma heap_only_archive_names name_tpl results :
  heap_only (archive_names vfs name_tpl results).
Proof.
  induction results as [|[pdf row] results IH]; simpl; [apply heap_only_ret |].
  apply heap_only_bind; [apply heap_only_NameFactory_make | intros n].
  apply heap_only_bind; [apply IH | intros ns]. apply heap_only_ret.
Qed.

Lemma write_archive_Ok name_tpl z_name results :
  forall w w' u es,
  fs w !! z_name = Some (ZipArchive es) ->
  write_archive vfs name_tpl z_name results w = (w', Ok u) ->
  exists names entry_names contents,
    length names = length results
    /\ (forall f, archive_names vfs name_tpl results (World f (heap w))
                  = (World f (heap w'), Ok names))
    /\ Forall2 (fun name entry => Fs.zip_entry_name name = Ok entry) names entry_names
    /\ Forall2 (fun r c => fs w !! r.1 = Some (File c)) results contents
    /\ fs w' = <[z_name := ZipArchive (es ++ zip entry_names contents)]> (fs w).
Proof.
  induction results as [|[pdf row] results IH]; intros w w' u es Hz Hrun; simpl in Hrun.
  { apply ret_Ok in Hrun as [_ ->]. exists [], [], []. repeat split; try done.
    rewrite app_nil_r. by rewrite insert_id. }
  apply bind_Ok in Hrun as (w1 & name & Hname & Hrun).
  apply bind_Ok in Hrun as (w2 & ? & Hzw & Hrun).
  pose proof (heap_only_fs _ w (heap_only_NameFactory_make name_tpl row
                                  (os_path.basename pdf))) as Hfs1.
  rewrite Hname in Hfs1. simpl in Hfs1.
  unfold Fs.zip_write in Hzw.
  apply bind_Ok in Hzw as (? & c0 & Hread & Hzw).
  unfold Fs.read in Hread.
  destruct (fs w1 !! pdf) as [[|c|]|] eqn:Hpdf; try done.
  injection Hread as <- <-.
  apply bind_Ok in Hzw as (? & entry & [Hentry ->]%lift_Ok & Hzw).
  assert (fs w2 = alter (fun n => match n with
                                  | ZipArchive es => ZipArchive (es ++ [(entry, c)])
                                  | _ => n
                                  end) z_name (fs w1)
          /\ heap w2 = heap w1) as [Hfs2 Hh2] by (by injection Hzw as <-).
  clear Hzw.
  assert (pdf <> z_name) as Hne by (intros ->; rewrite Hfs1 in Hpdf; congruence).
  assert (fs w2 !! z_name = Some (ZipArchive (es ++ [(entry, c)]))) as Hz2
    by (by rewrite Hfs2, lookup_alter_eq, Hfs1, Hz).
  destruct (IH _ _ _ _ Hz2 Hrun)
    as (names & entry_names & contents & Hlen & Hspec & Hentries & Hall & Hfs).
  exists (name :: names), (entry :: entry_names), (c :: contents).
  split; [simpl; lia |]. split.
  { intros f. simpl.
    rewrite (bind_step _ _ _ _ _
               (run_heap_only _ _ _ _ (heap_only_NameFactory_make _ _ _) Hname f)).
    rewrite <- Hh2. rewrite (bind_step _ _ _ _ _ (Hspec f)). done. }
  split; [by constructor |]. split.
  { constructor; [simpl; by rewrite <- Hfs1 |].
    eapply Forall2_impl; [exact Hall |]. intros [p r] c0 Hp. simpl in *.
    rewrite Hfs2 in Hp. destruct (decide (p = z_name)) as [->|Hpz].
    - rewrite lookup_alter_eq, Hfs1, Hz in Hp. done.
    - by rewrite lookup_alter_ne, Hfs1 in Hp. }
  rewrite Hfs, Hfs2. simpl. rewrite <- app_assoc. simpl.
  apply map_eq. intros q. destruct (decide (q = z_name)) as [->|Hq].
  - by rewrite !lookup_insert_eq.
  - by rewrite !lookup_insert_ne, lookup_alter_ne, Hfs1.
Qed.

Lemma respond_archive_Ok name_tpl tmpdir results w w' resp :
  respond_archive vfs name_tpl tmpdir results w = (w', Ok resp) ->
  exists names entry_names contents wn,
    length names = length results
    /\ archive_names vfs name_tpl results w = (wn, Ok names)
    /\ Forall2 (fun name entry => Fs.zip_entry_name name = Ok entry) names entry_names
    /\ Forall2 (fun r c => fs w !! r.1 = Some (File c)) results contents
    /\ resp = FileResponse (ZipArchive (zip entry_names contents)) "application/zip" None.
Proof.
  unfold respond_archive. intros Hrun. set (z := os_path.join tmpdir "result.zip") in *.
  apply bind_Ok in Hrun as (w1 & ? & Hcreate & Hrun).
  apply bind_Ok in Hrun as (w2 & ? & Hwrite & Hrun).
  apply bind_Ok in Hrun as (? & stream & Hopen & Hrun).
  apply ret_Ok in Hrun as [<- _].
  unfold Fs.zip_create in Hcreate. injection Hcreate as <-.
  assert (fs (with_fs <[z := ZipArchive []]> w) !! z = Some (ZipArchive [])) as Hz
    by apply lookup_insert_eq.
  destruct (write_archive_Ok _ _ _ _ _ _ _ Hz Hwrite)
    as (names & entry_names & contents & Hlen & Hspec & Hentries & Hall & Hfs).
  simpl in *. specialize (Hspec (fs w)).
  exists names, entry_names, contents, (World (fs w) (heap w2)). split; [done |]. split.
  { by destruct w. }
  split; [done |]. split.
  { eapply Forall2_impl; [exact Hall |]. intros [p r] c Hp. simpl in *.
    destruct (decide (p = z)) as [->|Hpz].
    - by rewrite lookup_insert_eq in Hp.
    - by rewrite lookup_insert_ne in Hp. }
  unfold Fs.open_rb in Hopen. rewrite Hfs, lookup_insert_eq in Hopen.
  by injection Hopen as _ <-.
Qed.

(** What the name factory returns (its definition follows the spec). *)
Lemma NameFactory_make_absent row fallback w :
  NameFactory_make vfs None row fallback w = (w, Ok fallback).
Proof. done. Qed.

Lemma NameFactory_make_template tpl row fallback w w' name :
  NameFactory_make vfs (Some tpl) row fallback w = (w', Ok name) ->
  exists rendered,
    TemplateCompiler.render vfs tpl row [] w = (w', Ok rendered)
    /\ name = if usable_name rendered then rendered else fallback.
Proof.
  unfold NameFactory_make. intros Hrun.
  apply bind_Ok in Hrun as (w1 & rendered & Hr & Hrun).
  apply ret_Ok in Hrun as [<- ->]. by exists rendered.
Qed.

End archive.

Section archive_response.
Context `{Runtime}.

(** C8, amended. With a Main-typed file among the files and
    [return_archive] set, a call that returns a response returns the 200
    file response of a zip archive, of content type [application/zip], with
    one entry per compiled result, in the order of the results: entry i
    holds the content of the PDF of result i, and its name is the entry name
    [zipfile] makes of the name the name factory gives for the row of result
    i, with the base name of that PDF as fallback. Without a naming template
    (none, or an empty one) the factory's name is the fallback; with one it
    is what the template renders for [row], or the fallback when that is no
    usable name. The entry name of a name is its normalised path without
    leading separators: it never starts with a separator, and it is the name
    itself for a name without separator or null byte other than the empty
    name and the two dot names. *)
Theorem archive_one_entry_per_result (files : list FileVersion.t)
    (filename_pattern : option string) (title_pattern : string) (data : DataSet)
    (w w' : world) (resp : HttpResponseBase) :
  Exists (fun fv => type_of fv = ProjectFile.Main) files ->
  render_pdf files filename_pattern title_pattern data true w = (w', Ok resp) ->
  let vfs := files_to_vfs files in
  let tmp := mkdtemp_name (fs w) in
  exists main w1 results name_tpl names entry_names contents wn,
    find_main files = Some main
    /\ type_of main = ProjectFile.Main
    /\ compile_stages vfs main tmp title_pattern data true (with_fs <[tmp := Dir]> w)
       = (w1, Ok results)
    /\ name_template vfs filename_pattern = Ok name_tpl
    /\ archive_names vfs name_tpl results w1 = (wn, Ok names)
    /\ length names = length results
    /\ Forall2 (fun name entry => Fs.zip_entry_name name = Ok entry) names entry_names
    /\ Forall2 (fun r c => fs w1 !! r.1 = Some (File c)) results contents
    /\ resp = FileResponse (ZipArchive (zip entry_names contents)) "application/zip" None
    /\ status_code resp = 200
    /\ content_type_of resp = "application/zip"
    /\ length (zip entry_names contents) = length results
    /\ (forall i pdf row, results !! i = Some (pdf, row) ->
          exists name entry c,
            zip entry_names contents !! i = Some (entry, c)
            /\ names !! i = Some name
            /\ Fs.zip_entry_name name = Ok entry
            /\ fs w1 !! pdf = Some (File c))
    /\ (filename_pattern = None \/ filename_pattern = Some "" -> name_tpl = None)
    /\ (forall row fallback w0,
           NameFactory_make vfs None row fallback w0 = (w0, Ok fallback))
    /\ (forall tpl row fallback w0 w0' name,
           NameFactory_make vfs (Some tpl) row fallback w0 = (w0', Ok name) ->
           exists rendered,
             TemplateCompiler.render vfs tpl row [] w0 = (w0', Ok rendered)
             /\ name = if usable_name rendered then rendered else fallback)
    /\ (forall name entry,
           Fs.zip_entry_name name = Ok entry -> Str.startswith entry "/" = false)
    /\ (forall name,
           Str.mem Str.slash name = false -> Str.mem (ascii_of_nat 0) name = false ->
           name <> "" -> name <> "." -> name <> ".." ->
           Fs.zip_entry_name name = Ok name).
Proof.
  intros [main Hmain]%find_main_Exists Hrun vfs tmp. unfold render_pdf in Hrun.
  rewrite Hmain in Hrun.
  apply make_temp_dir_Ok in Hrun as (Hfresh & w3 & Hbody & _).
  unfold render_in in Hbody.
  apply bind_Ok in Hbody as (w1 & results & Hstages & Hbody).
  apply bind_Ok in Hbody as (? & name_tpl & [Htpl ->]%lift_Ok & Hresp).
  apply respond_archive_Ok in Hresp
    as (names & entry_names & contents & wn & Hlen & Hnames & Hentries & Hall & ->).
  exists main, w1, results, name_tpl, names, entry_names, contents, wn.
  split; [done |].
  split; [by destruct (find_main_Some _ _ Hmain) as (? & ? & _ & ? & _) |].
  do 9 (split; [done |]).
  pose proof (Forall2_length _ _ _ Hall) as Hlen2.
  pose proof (Forall2_length _ _ _ Hentries) as Hlen3.
  split; [rewrite length_zip; lia |]. split.
  { intros i pdf row Hi.
    destruct (Forall2_lookup_l _ _ _ _ _ Hall Hi) as (c & Hc & Hfile).
    destruct (lookup_lt_is_Some_2 names i) as [name Hname].
    { rewrite Hlen. by eapply lookup_lt_Some. }
    destruct (Forall2_lookup_l _ _ _ _ _ Hentries Hname) as (entry & He & Hentry).
    exists name, entry, c. split; [|by repeat split].
    apply lookup_zip_with_Some. by exists entry, c. }
  split.
  { intros [-> | ->]; simpl in Htpl; congruence. }
  split; [done |]. split; [apply NameFactory_make_template |].
  split; [apply zip_entry_name_relative | apply zip_entry_name_plain].
Qed.

End archive_response.

(** ** The response contract *)

Section response_contract.
Context `{Runtime}.

(** What the block of [render_pdf] returns is never the 404 response. *)
Lemma render_in_status vfs main filename_pattern title_pattern data return_archive tmpdir
    w w' resp :
  render_in vfs main filename_pattern title_pattern data return_archive tmpdir w
    = (w', Ok resp) ->
  status_code resp = 200 \/ status_code resp = 201 \/ status_code resp = 401.
Proof.
  unfold render_in. intros Hrun.
  apply bind_Ok in Hrun as (w1 & results & _ & Hrun).
  apply bind_Ok in Hrun as (? & name_tpl & _ & Hrun).
  destruct return_archive.
  - apply respond_archive_Ok in Hrun as (? & ? & ? & ? & _ & _ & _ & _ & ->). by left.
  - unfold respond_single in Hrun. case_decide.
    + apply ret_Ok in Hrun as [<- _]. by right; right.
    + destruct results as [|[pdf row] results].
      * apply ret_Ok in Hrun as [<- _]. by right; left.
      * apply bind_Ok in Hrun as (? & file_name & _ & Hrun).
        apply bind_Ok in Hrun as (? & stream & _ & Hrun).
        apply ret_Ok in Hrun as [<- _]. by left.
Qed.

(** C1, amended. Without a Main-typed file [render_pdf] answers 404 with
    the body [Main file not found], under the default content type of
    [HttpResponse], which is [text/html] and not plain text, and leaves the
    world as it found it: no directory is made. A call that returns answers
    404 only then. With a Main-typed file, [return_archive] unset and a free
    name for the temporary directory, the Main file is the first of its type
    and the call answers as the last part of [render_pdf] does on the
    compiled results: these are one result, whose PDF is streamed as a 200
    file response of content type [application/pdf] under the name the name
    factory computes. That last part answers by the number of results: none
    gives 201 with an empty body, one gives the 200 file response, several
    give 401. *)
Theorem render_pdf_responses :
  (forall files filename_pattern title_pattern data return_archive w,
      Forall (fun fv => type_of fv <> ProjectFile.Main) files ->
      render_pdf files filename_pattern title_pattern data return_archive w
      = (w, Ok (HttpResponse "Main file not found" 404))
      /\ status_code (HttpResponse "Main file not found" 404) = 404
      /\ content_type_of (HttpResponse "Main file not found" 404)
         = "text/html; charset=utf-8")
  /\ (forall files filename_pattern title_pattern data return_archive w w' resp,
        render_pdf files filename_pattern title_pattern data return_archive w
        = (w', Ok resp) ->
        (status_code resp = 404 <->
         Forall (fun fv => type_of fv <> ProjectFile.Main) files))
  /\ (forall files filename_pattern title_pattern data w,
        Exists (fun fv => type_of fv = ProjectFile.Main) files ->
        fs w !! mkdtemp_name (fs w) = None ->
        let vfs := files_to_vfs files in
        let tmp := mkdtemp_name (fs w) in
        let call := render_pdf files filename_pattern title_pattern data false w in
        exists main before after,
          files = before ++ main :: after
          /\ type_of main = ProjectFile.Main
          /\ Forall (fun fv => type_of fv <> ProjectFile.Main) before
          /\ forall w1 results name_tpl,
               compile_stages vfs main tmp title_pattern data false
                 (with_fs <[tmp := Dir]> w) = (w1, Ok results) ->
               name_template vfs filename_pattern = Ok name_tpl ->
               call.2 = (respond_single vfs name_tpl results w1).2
               /\ exists pdf row c,
                    results = [(pdf, row)]
                    /\ fs w1 !! pdf = Some (File c)
                    /\ forall w2 file_name,
                         NameFactory_make vfs name_tpl row "result.pdf" w1
                         = (w2, Ok file_name) ->
                         call.2 = Ok (FileResponse (File c) "application/pdf"
                                        (Some file_name)))
  /\ (forall vfs name_tpl w,
         respond_single vfs name_tpl [] w = (w, Ok (HttpResponse "" 201))
         /\ status_code (HttpResponse "" 201) = 201)
  /\ (forall vfs name_tpl pdf row w w1 file_name c,
         NameFactory_make vfs name_tpl row "result.pdf" w = (w1, Ok file_name) ->
         fs w1 !! pdf = Some (File c) ->
         respond_single vfs name_tpl [(pdf, row)] w
         = (w1, Ok (FileResponse (File c) "application/pdf" (Some file_name)))
         /\ status_code (FileResponse (File c) "application/pdf" (Some file_name)) = 200
         /\ content_type_of (FileResponse (File c) "application/pdf" (Some file_name))
            = "application/pdf")
  /\ (forall vfs name_tpl results w,
         1 < length results ->
         respond_single vfs name_tpl results w = (w, Ok (HttpResponse "" 401))
         /\ status_code (HttpResponse "" 401) = 401).
Proof.
  split; [|split; [|split; [|split; [|split]]]].
  - intros files fp tp data ra w Hmain%find_main_None. unfold render_pdf.
    by rewrite Hmain.
  - intros files fp tp data ra w w' resp Hrun. unfold render_pdf in Hrun.
    rewrite <- find_main_None.
    destruct (find_main files) as [main|] eqn:Hmain.
    + apply make_temp_dir_Ok in Hrun as (_ & w1 & Hbody & _).
      apply render_in_status in Hbody. split; [|done]. intros E. rewrite E in Hbody.
      by destruct Hbody as [? | [? | ?]].
    + apply ret_Ok in Hrun as [<- _]. done.
  - intros files fp tp data w [main Hmain]%find_main_Exists Hfree vfs tmp call.
    destruct (find_main_Some _ _ Hmain) as (before & after & Hfiles & Hty & Hbefore).
    exists main, before, after. do 3 (split; [done |]).
    intros w1 results name_tpl Hst Hname.
    assert (call.2 = (respond_single vfs name_tpl results w1).2) as Hcall.
    { unfold call, render_pdf. rewrite Hmain.
      destruct (make_temp_dir_cleans
                  (render_in vfs main fp tp data false) w) as (Hout & _).
      { intros f0. apply render_in_outside. }
      { done. }
      fold vfs. rewrite Hout. fold tmp. unfold render_in.
      rewrite (bind_step _ _ _ _ _ Hst). unfold bind at 1, lift. by rewrite Hname. }
    split; [done |].
    destruct (compile_stages_single _ _ _ _ _ _ _ _ Hst) as (row & -> & [c Hc]).
    eexists _, row, c. split; [done |]. split; [done |].
    intros w2 file_name Hmake. rewrite Hcall.
    pose proof (heap_only_fs _ w1 (heap_only_NameFactory_make vfs name_tpl row
                                     "result.pdf")) as Hfs2.
    rewrite Hmake in Hfs2. simpl in Hfs2. rewrite <- Hfs2 in Hc.
    by rewrite (respond_single_one _ _ _ _ _ _ _ _ Hmake Hc).
  - intros. by split.
  - intros. split; [by apply respond_single_one | done].
  - intros. split; [by apply respond_single_many | done].
Qed.

End response_contract.

(** ** The dictionaries of the caller, after the call *)

Section caller_rows.
Context `{Runtime}.

(** C10. [render_pdf] does not change a dictionary of the caller: the
    template compiler renders copies, the pairs and the name factory hold
    copies, and the templates, which write only to the dictionary they are
    given, never see a row of the caller. Every dictionary that was in the
    heap before the call, so every row of the dataset, has the same entries
    after it, whether the call returns or raises. The list of rows is a
    value that no operation of the renderer changes. *)
Theorem caller_rows_unchanged (files : list FileVersion.t)
    (filename_pattern : option string) (title_pattern : string) (data : DataSet)
    (return_archive : bool) (w : world) :
  render_frame ->
  let w' := (render_pdf files filename_pattern title_pattern data return_archive w).1 in
  (forall l o, heap w !! l = Some o -> heap w' !! l = Some o)
  /\ Forall (fun row => heap w' !! row = heap w !! row)
            (filter (fun row => is_Some (heap w !! row)) data).
Proof.
  intros Hframe w'.
  assert (forall l o, heap w !! l = Some o -> heap w' !! l = Some o) as Hkept.
  { destruct (kept_render_pdf Hframe (heap w) files filename_pattern title_pattern data
                return_archive w) as [[_ Hk] _]; [by split |]. exact Hk. }
  split; [done |]. apply Forall_forall. intros row [[o Ho] _]%list_elem_of_filter.
  simpl. rewrite Ho. by apply Hkept.
Qed.

End caller_rows.

(** * Further properties of the renderer *)

(** ** Which files a render uses *)

Section dict_order.
Context {V : Type}.
Implicit Types d : list (string * V).

Lemma elem_of_get d k v :
  NoDup (PyDict.keys d) -> (k, v) ∈ d <-> PyDict.get k d = Some v.
Proof.
  unfold PyDict.keys. induction d as [|[k' v'] d IH]; simpl; intros Hnd.
  - split; [by intros ?%not_elem_of_nil | done].
  - apply NoDup_cons in Hnd as [Hk' Hnd]. rewrite elem_of_cons. case_decide as Hk.
    + subst k'. split; [|intros [= ->]; by left].
      intros [[= ->] | Hin]; [done |]. destruct Hk'.
      apply list_elem_of_fmap. by exists (k, v).
    + rewrite <- (IH Hnd). split; [|by right]. intros [[= ? ?] | Hin]; [done | done].
Qed.

Lemma omap_ext_in {A B} (f g : A -> option B) (l : list A) :
  (forall x, x ∈ l -> f x = g x) -> omap f l = omap g l.
Proof.
  induction l as [|x l IH]; intros Hfg; csimpl; [done |].
  rewrite (Hfg x), IH by set_solver. done.
Qed.

Lemma values_by_key d :
  NoDup (PyDict.keys d) ->
  PyDict.values d = omap (fun k => PyDict.get k d) (PyDict.keys d).
Proof.
  unfold PyDict.keys, PyDict.values.
  induction d as [|[k v] d IH]; csimpl; intros Hnd; [done |].
  apply NoDup_cons in Hnd as [Hk Hnd]. rewrite decide_True by done. csimpl. f_equal.
  rewrite (IH Hnd). apply omap_ext_in.
  intros k' Hk'. rewrite decide_False; [done |]. by intros ->.
Qed.

Lemma filter_not_in_snoc (ks : list string) (k : string) (l : list string) :
  filter (fun x => x ∉ ks ++ [k]) l = filter (fun x => x ∉ ks) (filter (fun x => x <> k) l).
Proof.
  rewrite list_filter_filter. apply list_filter_iff. intros x.
  rewrite elem_of_app, list_elem_of_singleton. tauto.
Qed.

Lemma keys_store_all d (items : list (string * V)) :
  PyDict.keys (foldl (fun d kv => PyDict.set kv.1 kv.2 d) d items)
  = PyDict.keys d ++ filter (fun k => k ∉ PyDict.keys d) (first_occurrences items.*1).
Proof.
  revert d. induction items as [|[k v] items IH]; intros d; simpl.
  - by rewrite app_nil_r.
  - rewrite IH, PyDictFacts.keys_set. case_decide as Hk.
    + rewrite filter_cons_False by (intros Hn; by apply Hn). f_equal.
      rewrite list_filter_filter. apply list_filter_iff. intros x. split; [|tauto].
      intros Hx. split; [done |]. by intros ->.
    + rewrite filter_cons_True by done. rewrite <- app_assoc. simpl. do 2 f_equal.
      apply filter_not_in_snoc.
Qed.

Lemma keys_of_items (items : list (string * V)) :
  PyDict.keys (PyDict.of_items items) = first_occurrences items.*1.
Proof.
  unfold PyDict.of_items. rewrite keys_store_all. simpl.
  induction (first_occurrences items.*1) as [|x l IH]; [done |].
  rewrite filter_cons_True by apply not_elem_of_nil. by rewrite IH.
Qed.
End dict_order.

Section choosing_files.
Context `{Runtime}.

(** X1. [find_main] is a first-match search: it returns a file exactly when that
    file is a Main file with no Main file before it, whatever follows, and it
    returns nothing exactly when no file is a Main file. *)
Theorem find_main_first (files : list FileVersion.t) :
  (find_main files = None <->
   Forall (fun fv => type_of fv <> ProjectFile.Main) files)
  /\ (forall main,
        find_main files = Some main <->
        exists before after,
          files = before ++ main :: after
          /\ type_of main = ProjectFile.Main
          /\ Forall (fun fv => type_of fv <> ProjectFile.Main) before).
Proof.
  assert (forall main before after,
            type_of main = ProjectFile.Main ->
            Forall (fun fv => type_of fv <> ProjectFile.Main) before ->
            find_main (before ++ main :: after) = Some main) as Hfirst.
  { intros main before after Hmain Hbefore.
    induction Hbefore as [|fv before Hfv _ IH]; simpl.
    - by rewrite decide_True.
    - by rewrite decide_False. }
  split; [apply find_main_None |].
  intros main. split; [apply find_main_Some |].
  intros (before & after & -> & Hmain & Hbefore). by apply Hfirst.
Qed.

(** X2. The Main file is found by type, its template by name. The template
    [render_pdf] compiles is the entry of the Virtual File Set under the
    name of the Main file found, that is the last file of that name: its
    content when its type is one a template may have, [TemplateNotFound]
    otherwise. It is the Main file found when no later file has its name. *)
Theorem main_template_is_last_of_its_name (files : list FileVersion.t)
    (main : FileVersion.t) :
  find_main files = Some main ->
  exists fv,
    last (filter (fun fv => name_of fv = name_of main) files) = Some fv
    /\ PyDict.get (name_of main) (files_to_vfs files) = Some fv
    /\ TemplateCompiler.get_template (files_to_vfs files) (name_of main)
       = (if renderable (type_of fv) then jinja_compile (FileVersion.data fv)
          else Raise (TemplateNotFound (name_of main)))
    /\ (forall before after,
          files = before ++ main :: after ->
          Forall (fun fv' => name_of fv' <> name_of main) after ->
          fv = main).
Proof.
  intros Hmain.
  destruct (find_main_Some _ _ Hmain) as (before & after & Hfiles & Hty & _).
  assert (is_Some (last (filter (fun fv => name_of fv = name_of main) files)))
    as [fv Hlast].
  { apply last_is_Some. intros Hnil.
    assert (main ∈ filter (fun fv => name_of fv = name_of main) files) as Hin.
    { apply list_elem_of_filter. split; [done |]. rewrite Hfiles. set_solver. }
    rewrite Hnil in Hin. by apply not_elem_of_nil in Hin. }
  exists fv. split; [done |].
  assert (PyDict.get (name_of main) (files_to_vfs files) = Some fv) as Hget
    by (by rewrite files_to_vfs_get).
  split; [done |]. split.
  - unfold TemplateCompiler.get_template, TemplateCompiler.get_source.
    rewrite do_lookup_spec, Hget. fold (type_of fv).
    by destruct (renderable (type_of fv)).
  - intros before' after' Hfiles' Hafter. rewrite Hfiles' in Hlast.
    rewrite filter_app, filter_cons_True in Hlast by done.
    assert (filter (fun fv0 => name_of fv0 = name_of main) after' = []) as Hnil.
    { clear -Hafter. induction Hafter as [|x l Hx _ IH]; [done |].
      by rewrite filter_cons_False. }
    rewrite Hnil, last_snoc in Hlast. congruence.
Qed.


Lemma last_named_name (files : list FileVersion.t) (k : string) (fv : FileVersion.t) :
  last (filter (fun fv => name_of fv = k) files) = Some fv -> name_of fv = k.
Proof.
  intros Hlast. apply last_Some_elem_of in Hlast.
  by apply list_elem_of_filter in Hlast as [? _].
Qed.

Lemma elem_of_vfs_values (files : list FileVersion.t) (fv : FileVersion.t) :
  fv ∈ PyDict.values (files_to_vfs files) <->
  last (filter (fun fv' => name_of fv' = name_of fv) files) = Some fv.
Proof.
  unfold PyDict.values. rewrite list_elem_of_fmap. split.
  - intros ([k fv'] & -> & Hkv). simpl.
    apply elem_of_get in Hkv; [|apply PyDictFacts.keys_of_items_NoDup].
    rewrite files_to_vfs_get in Hkv. by rewrite (last_named_name _ _ _ Hkv).
  - intros Hlast. exists (name_of fv, fv). split; [done |].
    apply elem_of_get; [apply PyDictFacts.keys_of_items_NoDup |].
    by rewrite files_to_vfs_get.
Qed.


Lemma fetcher_file_url (vfs : Vfs) (path : string) :
  HtmlCompiler._do_lookup vfs (LOCAL_FILE_URI_PREFIX +:+ path)
  = match PyDict.get path vfs with
    | None => Raise KeyError
    | Some the_file => Ok (Fetched (FileVersion.data the_file) path)
    end.
Proof.
  unfold HtmlCompiler._do_lookup. rewrite StrFacts.removeprefix_app.
  rewrite decide_False; [done |].
  pose proof (StrFacts.removeprefix_neq LOCAL_FILE_URI_PREFIX path) as Hne.
  rewrite StrFacts.removeprefix_app in Hne. by apply Hne.
Qed.

(** X7. What the template loader resolves, the URL fetcher serves: a name with
    a template source is fetched under [file:///name] with that source as
    content and the name as redirected URL. The fetcher serves every entry of
    the Virtual File Set, whatever its type, so the converse holds only for
    the types a template may have; a name the fetcher does not know is not a
    template either. *)
Theorem loader_names_are_fetchable (vfs : Vfs) (name : string) :
  (forall src n,
      TemplateCompiler._do_lookup vfs name = Some (src, n) ->
      n = name
      /\ HtmlCompiler._do_lookup vfs (LOCAL_FILE_URI_PREFIX +:+ name)
         = Ok (Fetched src name))
  /\ (forall the_file,
        PyDict.get name vfs = Some the_file ->
        HtmlCompiler._do_lookup vfs (LOCAL_FILE_URI_PREFIX +:+ name)
        = Ok (Fetched (FileVersion.data the_file) name)
        /\ (TemplateCompiler._do_lookup vfs name = None <->
            renderable (type_of the_file) = false))
  /\ (HtmlCompiler._do_lookup vfs (LOCAL_FILE_URI_PREFIX +:+ name) = Raise KeyError ->
      TemplateCompiler._do_lookup vfs name = None).
Proof.
  rewrite fetcher_file_url, do_lookup_spec.
  destruct (PyDict.get name vfs) as [the_file|].
  - fold (type_of the_file). split; [|split].
    + destruct (renderable (type_of the_file)); [|done]. by intros src n [= <- <-].
    + intros ? [= <-]. split; [done |]. by destruct (renderable (type_of the_file)).
    + done.
  - by repeat split.
Qed.

(** X8. The order and the versions of the Virtual File Set, and the stylesheets
    taken from it. The set holds the file names in the order of their first
    occurrence, each with the last file of that name. The stylesheets are
    the CSS entries of the set in that order: a file is a stylesheet exactly
    when it is a CSS file and the last file of its name, so no two
    stylesheets share a name. *)
Theorem stylesheets_of_vfs (files : list FileVersion.t) :
  let vfs := files_to_vfs files in
  let last_named k := last (filter (fun fv => name_of fv = k) files) in
  let sheets := HtmlCompiler.find_stylesheets (PyDict.values vfs) in
  PyDict.keys vfs = first_occurrences (name_of <$> files)
  /\ PyDict.values vfs = omap last_named (first_occurrences (name_of <$> files))
  /\ sheets = filter (fun fv => type_of fv = ProjectFile.CSS)
                (omap last_named (first_occurrences (name_of <$> files)))
  /\ (forall fv, fv ∈ sheets <->
                 type_of fv = ProjectFile.CSS /\ last_named (name_of fv) = Some fv)
  /\ NoDup (name_of <$> sheets).
Proof.
  intros vfs last_named sheets.
  assert (PyDict.keys vfs = first_occurrences (name_of <$> files)) as Hkeys.
  { unfold vfs, files_to_vfs. rewrite keys_of_items. f_equal.
    rewrite <- list_fmap_compose. done. }
  assert (PyDict.values vfs = omap last_named (first_occurrences (name_of <$> files)))
    as Hvalues.
  { rewrite <- Hkeys, values_by_key by apply PyDictFacts.keys_of_items_NoDup.
    apply omap_ext_in. intros k _. apply files_to_vfs_get. }
  split; [done |]. split; [done |]. split; [by unfold sheets; rewrite Hvalues |]. split.
  - intros fv. unfold sheets, HtmlCompiler.find_stylesheets, vfs.
    by rewrite list_elem_of_filter, elem_of_vfs_values.
  - apply (sublist_NoDup _ (name_of <$> PyDict.values vfs)).
    + assert (name_of <$> PyDict.values vfs = PyDict.keys vfs) as ->.
      { unfold PyDict.values, PyDict.keys. rewrite <- list_fmap_compose.
        apply list_fmap_ext. intros i [k fv] Hi. simpl.
        apply list_elem_of_lookup_2 in Hi.
        apply elem_of_get in Hi; [|apply PyDictFacts.keys_of_items_NoDup].
        unfold vfs in Hi. rewrite files_to_vfs_get in Hi.
        by apply last_named_name in Hi. }
      apply PyDictFacts.keys_of_items_NoDup.
    + apply fmap_sublist, sublist_filter.
Qed.

(** X9. The lookup tables of a render are built from the Virtual File Set, not
    from the files as given: every table comes from a CSV file that is the
    last file of its name, and only such a file can make the building fail.
    A CSV file replaced by a later file of the same name, of whatever type,
    is never parsed. *)
Theorem lookup_tables_come_from_vfs (files : list FileVersion.t) :
  let last_named k := last (filter (fun fv => name_of fv = k) files) in
  match find_lookup_tables (PyDict.values (files_to_vfs files)) with
  | Ok luts =>
      (forall k lut,
          PyDict.get k luts = Some lut ->
          exists fv,
            type_of fv = ProjectFile.CSV
            /\ last_named (name_of fv) = Some fv
            /\ make_name (name_of fv) = k
            /\ make_lut (FileVersion.data fv) = Ok lut)
      /\ (forall fv,
            type_of fv = ProjectFile.CSV ->
            last_named (name_of fv) = Some fv ->
            is_Some (PyDict.get (make_name (name_of fv)) luts)
            /\ exists lut, make_lut (FileVersion.data fv) = Ok lut)
  | Raise e =>
      exists fv,
        type_of fv = ProjectFile.CSV
        /\ last_named (name_of fv) = Some fv
        /\ make_lut (FileVersion.data fv) = Raise e
  end.
Proof.
  intros last_named. unfold find_lookup_tables.
  destruct (lookup_table_items (PyDict.values (files_to_vfs files))) as [items|e] eqn:E;
    simpl.
  - split.
    + intros k lut Hget. rewrite PyDictFacts.get_of_items in Hget.
      rewrite (lookup_table_items_Ok _ _ k E) in Hget.
      destruct (last _) as [fv|] eqn:Hlast; [|done]. simpl in Hget.
      apply last_Some_elem_of, list_elem_of_filter in Hlast as [[Hty Hname] Hin].
      apply elem_of_vfs_values in Hin. exists fv. do 3 (split; [done |]).
      unfold lut_of in Hget. destruct (make_lut (FileVersion.data fv)); congruence.
    + intros fv Hty Hlast. apply elem_of_vfs_values in Hlast.
      destruct (lookup_table_items_parsed _ _ E fv Hlast Hty) as [lut Hlut].
      split.
      * rewrite PyDictFacts.get_of_items, (lookup_table_items_Ok _ _ _ E).
        assert (is_Some (last (filter (fun fv' => type_of fv' = ProjectFile.CSV
                                   /\ make_name (name_of fv') = make_name (name_of fv))
                                 (PyDict.values (files_to_vfs files))))) as [fv' Hfv'].
        { apply last_is_Some. intros Hnil.
          assert (fv ∈ filter (fun fv' => type_of fv' = ProjectFile.CSV
                                 /\ make_name (name_of fv') = make_name (name_of fv))
                         (PyDict.values (files_to_vfs files))) as Hin
            by (by apply list_elem_of_filter).
          rewrite Hnil in Hin. by apply not_elem_of_nil in Hin. }
        rewrite Hfv'. simpl.
        apply last_Some_elem_of, list_elem_of_filter in Hfv' as [[Hty' _] Hin'].
        apply (lookup_table_items_parsed _ _ E fv' Hin' Hty').
      * unfold lut_of in Hlut. destruct (make_lut (FileVersion.data fv)) as [l|]; [|done].
        by exists l.
  - apply lookup_table_items_Raise in E. apply Exists_exists in E as (fv & Hin & Hty & He).
    apply elem_of_vfs_values in Hin. by exists fv.
Qed.

End choosing_files.

(** ** The temporary directory and the order of a render *)

Section fresh_dir.
Context `{Runtime}.

(** X3. The context manager [make_temp_dir] around any block. When [mkdtemp]
    fails the block is not run. Otherwise the block runs on the new
    directory; with [keep] set its outcome and its world are those of the
    block; with [keep] unset and the directory still there at the end, the
    outcome is that of the block, raised or returned, and the world is that
    of the block without the directory and the paths inside it; with [keep]
    unset and the directory gone, [rmtree] raises and its exception replaces
    the outcome of the block. *)
Theorem make_temp_dir_contract {A} (keep : bool) (body : string -> M A) (w : world) :
  (forall w0 e, mkdtemp w = (w0, Raise e) -> make_temp_dir keep body w = (w0, Raise e))
  /\ (forall w0 tmp,
        mkdtemp w = (w0, Ok tmp) ->
        let out := body tmp w0 in
        (keep = true -> make_temp_dir keep body w = out)
        /\ (keep = false -> fs out.1 !! tmp = Some Dir ->
            (make_temp_dir keep body w).2 = out.2
            /\ heap (make_temp_dir keep body w).1 = heap out.1
            /\ forall p, fs (make_temp_dir keep body w).1 !! p
                         = if decide (p = tmp \/ Fs.inside tmp p = true) then None
                           else fs out.1 !! p)
        /\ (keep = false -> fs out.1 !! tmp = None ->
            make_temp_dir keep body w = (out.1, Raise (FileNotFoundError tmp)))).
Proof.
  split.
  - intros w0 e Hmk. unfold make_temp_dir. by rewrite (bind_raise _ _ _ _ _ Hmk).
  - intros w0 tmp Hmk out. unfold make_temp_dir. rewrite (bind_step _ _ _ _ _ Hmk).
    unfold try_finally. fold out. destruct out as [w1 r] eqn:Hout. simpl.
    split; [by intros -> |]. split.
    + intros -> Hdir. unfold Fs.rmtree. rewrite Hdir. simpl.
      split; [done |]. split; [done |]. intros p.
      case_decide as Hp.
      * apply map_lookup_filter_None. right. intros n _ [Hne Hin]. simpl in *.
        destruct Hp as [-> | Hp]; [done | congruence].
      * destruct (fs w1 !! p) as [n|] eqn:Hn.
        -- apply map_lookup_filter_Some. split; [done |]. simpl. split.
           ++ intros ->. apply Hp. by left.
           ++ destruct (Fs.inside tmp p) eqn:E; [|done]. destruct Hp. by right.
        -- apply map_lookup_filter_None. by left.
    + intros -> Hgone. unfold Fs.rmtree. by rewrite Hgone.
Qed.


(** [render_pdf] on a free name with nothing below it: the outcome and the
    heap are those of the [with] block, the file system is as before. *)
Lemma render_pdf_on_fresh_dir (files : list FileVersion.t) (main : FileVersion.t)
    (filename_pattern : option string) (title_pattern : string) (data : DataSet)
    (return_archive : bool) (w : world) :
  find_main files = Some main ->
  let tmp := mkdtemp_name (fs w) in
  fs w !! tmp = None ->
  let block :=
    render_in (files_to_vfs files) main filename_pattern title_pattern data
      return_archive tmp (with_fs <[tmp := Dir]> w) in
  let call := render_pdf files filename_pattern title_pattern data return_archive w in
  call.2 = block.2
  /\ heap call.1 = heap block.1
  /\ ((forall p, Fs.inside tmp p = true -> fs w !! p = None) -> fs call.1 = fs w).
Proof.
  intros Hmain tmp Hfree block call. unfold call, render_pdf. rewrite Hmain.
  destruct (make_temp_dir_cleans
              (render_in (files_to_vfs files) main filename_pattern title_pattern data
                 return_archive) w) as (Hout & Hheap & Htmp & Hin & Hother).
  { intros f0. apply render_in_outside. }
  { done. }
  fold tmp in Hout, Hheap, Htmp, Hin, Hother. fold block in Hout, Hheap.
  split; [done |]. split; [done |]. intros Hfresh.
  apply map_eq. intros p.
  destruct (decide (p = tmp)) as [-> | Hp]; [by rewrite Htmp |].
  destruct (Fs.inside tmp p) eqn:E.
  - by rewrite Hin, Hfresh.
  - by apply Hother.
Qed.

(** X4. In [render_pdf] the cleanup never fails and never changes the outcome:
    with a Main file and a free name for the temporary directory, the call
    returns the response, or raises the exception, of its [with] block, and
    leaves the heap the block leaves. When nothing lies below the free name
    either, the file system after the call is the one before it. *)
Theorem render_pdf_outcome_is_block_outcome (files : list FileVersion.t)
    (main : FileVersion.t) (filename_pattern : option string) (title_pattern : string)
    (data : DataSet) (return_archive : bool) (w : world) :
  find_main files = Some main ->
  fs w !! mkdtemp_name (fs w) = None ->
  let tmp := mkdtemp_name (fs w) in
  let block :=
    render_in (files_to_vfs files) main filename_pattern title_pattern data
      return_archive tmp (with_fs <[tmp := Dir]> w) in
  let call := render_pdf files filename_pattern title_pattern data return_archive w in
  call.2 = block.2
  /\ heap call.1 = heap block.1
  /\ (forall e, call.2 = Raise e <-> block.2 = Raise e)
  /\ (forall resp, call.2 = Ok resp <-> block.2 = Ok resp)
  /\ ((forall p, Fs.inside tmp p = true -> fs w !! p = None) -> fs call.1 = fs w).
Proof.
  intros Hmain Hfree tmp block call.
  destruct (render_pdf_on_fresh_dir files main filename_pattern title_pattern data
              return_archive w Hmain Hfree) as (Hout & Hheap & Hfs).
  fold tmp in Hfs. fold block in Hout, Hheap. fold call in Hout, Hheap, Hfs.
  split; [done |]. split; [done |]. rewrite Hout. done.
Qed.

Lemma world_eq (w w' : world) : fs w = fs w' -> heap w = heap w' -> w = w'.
Proof. destruct w, w'. simpl. by intros -> ->. Qed.

Lemma compile_validation_fails vfs main_file_name src_dir data title_pattern split_output
    w e :
  result_bind (find_lookup_tables (PyDict.values vfs)) (fun _ =>
  result_bind (TemplateCompiler.get_template vfs main_file_name) (fun _ =>
  result_bind (jinja_compile title_pattern) (fun _ => Ok tt))) = Raise e ->
  TemplateCompiler.compile vfs main_file_name src_dir data title_pattern split_output w
  = (w, Raise e).
Proof.
  unfold TemplateCompiler.compile, bind, lift.
  destruct (find_lookup_tables (PyDict.values vfs)); simpl; [|congruence].
  destruct (TemplateCompiler.get_template vfs main_file_name); simpl; [|congruence].
  destruct (jinja_compile title_pattern); simpl; [done | congruence].
Qed.

(** The two directories of a render are made without fail in a fresh
    temporary directory. *)
Lemma mkdirs_on_fresh_dir (tmp : string) (w : world) {A} (k : M A) :
  fs w !! tmp = None ->
  (forall p, Fs.inside tmp p = true -> fs w !! p = None) ->
  (Fs.mkdir (os_path.join tmp "src") ;; Fs.mkdir (os_path.join tmp "result") ;; k)
    (with_fs <[tmp := Dir]> w)
  = k (with_fs (fun f => <[os_path.join tmp "result" := Dir]>
                           (<[os_path.join tmp "src" := Dir]> (<[tmp := Dir]> f))) w).
Proof.
  intros Hfree Hfresh.
  assert (Str.startswith "src" "/" = false /\ Str.startswith "result" "/" = false)
    as [Hs Hr] by done.
  assert (Fs.inside tmp (os_path.join tmp "src") = true) as Hsrc_in
    by (by apply PathFacts.inside_join).
  assert (Fs.inside tmp (os_path.join tmp "result") = true) as Hres_in
    by (by apply PathFacts.inside_join).
  assert (os_path.join tmp "src" <> tmp) as Hsrc_ne by (by apply PathFacts.join_neq).
  assert (os_path.join tmp "result" <> tmp) as Hres_ne by (by apply PathFacts.join_neq).
  assert (os_path.join tmp "result" <> os_path.join tmp "src") as Hne.
  { intros E. by apply PathFacts.join_inj in E. }
  unfold bind at 1. unfold Fs.mkdir at 1. simpl.
  rewrite lookup_insert_ne, (Hfresh _ Hsrc_in) by done.
  unfold bind at 1. unfold Fs.mkdir at 1. simpl.
  by rewrite !lookup_insert_ne, (Hfresh _ Hres_in) by done.
Qed.

(** X5. Validation comes first and leaves no trace. [render_pdf] builds the
    lookup tables, loads the Main template and compiles the title pattern, in
    this order, before it copies a row, renders anything or writes a source.
    When one of the three fails, the call raises the exception of the first
    that fails and the world is as before the call: the heap untouched, the
    temporary directory gone. *)
Theorem failed_validation_leaves_no_trace (files : list FileVersion.t)
    (main : FileVersion.t) (filename_pattern : option string) (title_pattern : string)
    (data : DataSet) (return_archive : bool) (w : world) (e : exn) :
  find_main files = Some main ->
  fs w !! mkdtemp_name (fs w) = None ->
  (forall p, Fs.inside (mkdtemp_name (fs w)) p = true -> fs w !! p = None) ->
  result_bind (find_lookup_tables (PyDict.values (files_to_vfs files))) (fun _ =>
  result_bind (TemplateCompiler.get_template (files_to_vfs files) (name_of main)) (fun _ =>
  result_bind (jinja_compile title_pattern) (fun _ => Ok tt))) = Raise e ->
  render_pdf files filename_pattern title_pattern data return_archive w = (w, Raise e).
Proof.
  intros Hmain Hfree Hfresh Hval.
  destruct (render_pdf_on_fresh_dir files main filename_pattern title_pattern data
              return_archive w Hmain Hfree) as (Hout & Hheap & Hfs).
  specialize (Hfs Hfresh). revert Hout Hheap.
  set (tmp := mkdtemp_name (fs w)) in *.
  assert (exists w1, compile_stages (files_to_vfs files) main tmp title_pattern data
                       return_archive (with_fs <[tmp := Dir]> w) = (w1, Raise e)
                     /\ heap w1 = heap w) as (w1 & Hst & Hheap1).
  { eexists. split.
    - unfold compile_stages. rewrite mkdirs_on_fresh_dir by done.
      apply bind_raise. apply compile_validation_fails, Hval.
    - done. }
  unfold render_in. rewrite (bind_raise _ _ _ _ _ Hst). simpl.
  destruct (render_pdf files filename_pattern title_pattern data return_archive w)
    as [w' r].
  simpl in *. intros -> Hheap. f_equal. apply world_eq; congruence.
Qed.

(** X14. An empty dataset in archive mode gives an empty archive, not an error:
    when the lookup tables, the Main template, the title pattern, the
    stylesheets and the naming pattern are in order, the call returns the
    200 response of a zip archive without entries and leaves the world as
    it was. *)
Theorem empty_dataset_gives_empty_archive (files : list FileVersion.t)
    (main : FileVersion.t) (filename_pattern : option string) (title_pattern : string)
    (w : world) (lookups : dict Lut) (tpl pattern : Template) (sheets : list Css)
    (name_tpl : option Template) :
  find_main files = Some main ->
  fs w !! mkdtemp_name (fs w) = None ->
  (forall p, Fs.inside (mkdtemp_name (fs w)) p = true -> fs w !! p = None) ->
  let vfs := files_to_vfs files in
  find_lookup_tables (PyDict.values vfs) = Ok lookups ->
  TemplateCompiler.get_template vfs (name_of main) = Ok tpl ->
  jinja_compile title_pattern = Ok pattern ->
  HtmlCompiler.parse_sheets vfs (HtmlCompiler.find_stylesheets (PyDict.values vfs))
  = Ok sheets ->
  name_template vfs filename_pattern = Ok name_tpl ->
  render_pdf files filename_pattern title_pattern [] true w
  = (w, Ok (FileResponse (ZipArchive []) "application/zip" None))
  /\ status_code (FileResponse (ZipArchive []) "application/zip" None) = 200.
Proof.
  intros Hmain Hfree Hfresh vfs Hlut Htpl Hpat Hsheets Hname.
  destruct (render_pdf_on_fresh_dir files main filename_pattern title_pattern []
              true w Hmain Hfree) as (Hout & Hheap & Hfs).
  specialize (Hfs Hfresh). revert Hout Hheap.
  set (tmp := mkdtemp_name (fs w)) in *. fold vfs.
  assert (forall {A} (r : result A) (a : A) {B} (k : A -> M B) w0,
            r = Ok a -> (x <- lift r ;; k x) w0 = k a w0) as Hlift.
  { intros A r a B k w0 ->. done. }
  set (dirs := fun f : gmap string node =>
                 <[os_path.join tmp "result" := Dir]>
                   (<[os_path.join tmp "src" := Dir]> (<[tmp := Dir]> f))).
  assert (compile_stages vfs main tmp title_pattern [] true (with_fs <[tmp := Dir]> w)
          = (with_fs dirs w, Ok [])) as Hst.
  { unfold compile_stages. rewrite mkdirs_on_fresh_dir by done. fold dirs.
    assert (TemplateCompiler.compile vfs (name_of main) (os_path.join tmp "src") []
              title_pattern true (with_fs dirs w) = (with_fs dirs w, Ok [])) as Hsrc.
    { unfold TemplateCompiler.compile.
      by rewrite (Hlift _ _ _ _ _ _ Hlut), (Hlift _ _ _ _ _ _ Htpl),
        (Hlift _ _ _ _ _ _ Hpat). }
    unfold name_of in Hsrc. rewrite (bind_step _ _ _ _ _ Hsrc).
    unfold HtmlCompiler.compile. by rewrite (Hlift _ _ _ _ _ _ Hsheets). }
  unfold render_in. rewrite (bind_step _ _ _ _ _ Hst), (Hlift _ _ _ _ _ _ Hname).
  unfold respond_archive, bind, Fs.zip_create, Fs.open_rb. simpl.
  rewrite lookup_insert_eq. simpl.
  destruct (render_pdf files filename_pattern title_pattern [] true w) as [w' r].
  simpl in *. intros -> Hheap. split; [|done]. f_equal. apply world_eq; congruence.
Qed.

End fresh_dir.

(** ** Lookup tables as template variables *)

Section keyword_clash.
Context `{Runtime}.

Lemma bind_cases {A B} (m : M A) (k : A -> M B) (w : world) :
  (exists w1 a, m w = (w1, Ok a) /\ (x <- m ;; k x) w = k a w1)
  \/ (exists w1 e, m w = (w1, Raise e) /\ (x <- m ;; k x) w = (w1, Raise e)).
Proof.
  unfold bind. destruct (m w) as [w1 [a|e]]; [left | right]; eauto.
Qed.

Ltac step_or_raise :=
  match goal with
  | |- exists w' e, bind ?m ?k ?w = (w', Raise e) =>
      let w1 := fresh "w" in let a := fresh "a" in let e := fresh "e" in
      let Hm := fresh "Hm" in let Hb := fresh "Hb" in
      destruct (bind_cases m k w) as [(w1 & a & Hm & Hb) | (w1 & e & Hm & Hb)];
      rewrite Hb; clear Hb; [| by eauto]
  end.

(** X6. A lookup table named [row] clashes with the [row] keyword of
    [tpl.render(row=.., **lookups)]: every such call raises [TypeError]
    without rendering, so a compilation over at least one row of data never
    returns, in the split and in the merged mode. *)
Theorem lookup_table_named_row (vfs : Vfs) (lookups : dict Lut) (l : Lut) :
  find_lookup_tables (PyDict.values vfs) = Ok lookups ->
  PyDict.get "row" lookups = Some l ->
  (forall tpl row w,
      exists msg,
        TemplateCompiler.render vfs tpl row lookups w = (w, Raise (TypeError msg)))
  /\ (forall main_file_name src_dir data title_pattern split_output w,
        data <> [] ->
        exists w' e,
          TemplateCompiler.compile vfs main_file_name src_dir data title_pattern
            split_output w = (w', Raise e)).
Proof.
  intros Hlut Hrow.
  assert (forall tpl row w,
            TemplateCompiler.render vfs tpl row lookups w
            = (w, Raise (TypeError "got multiple values for keyword argument 'row'")))
    as Hrender.
  { intros tpl row w. unfold TemplateCompiler.render. by rewrite Hrow. }
  split; [intros tpl row w; eexists; apply Hrender |].
  intros main_file_name src_dir data title_pattern split_output w Hdata.
  destruct data as [|row data]; [done |].
  unfold TemplateCompiler.compile.
  step_or_raise. apply lift_Ok in Hm as [Hm ->]. rewrite Hlut in Hm. injection Hm as <-.
  step_or_raise. step_or_raise.
  destruct split_output.
  - simpl.
    repeat first [ rewrite (bind_raise _ _ _ _ _ (Hrender _ _ _)); by eauto
                 | step_or_raise ].
  - do 4 step_or_raise.
    match goal with
    | |- exists _ _, bind (TemplateCompiler.write_rows _ ?t _ ?p ?d) _ ?w0 = _ =>
        assert (exists w' e,
                  TemplateCompiler.write_rows vfs t lookups p d w0 = (w', Raise e))
          as (w' & e & Hrows)
    end.
    { simpl. step_or_raise.
      rewrite (bind_raise _ _ _ _ _ (Hrender _ _ _)). eauto. }
    rewrite (bind_raise _ _ _ _ _ Hrows). eauto.
Qed.

End keyword_clash.

(** ** What the documents and the responses hold *)

Section contents.
Context `{Runtime}.

Lemma read_Ok (p : string) (w w' : world) (c : string) :
  Fs.read p w = (w', Ok c) -> fs w !! p = Some (File c) /\ w' = w.
Proof.
  unfold Fs.read. destruct (fs w !! p) as [[| |]|]; intros [= ]; by subst.
Qed.

Lemma write_new_file (p s : string) (w : world) :
  (Fs.open_w p ;; Fs.write p s) w = (with_fs <[p := File s]> w, Ok tt).
Proof.
  unfold bind, Fs.open_w, Fs.write, with_fs. simpl. do 2 f_equal.
  apply map_eq. intros q. destruct (decide (q = p)) as [-> | Hq].
  - by rewrite lookup_alter_eq, !lookup_insert_eq.
  - by rewrite lookup_alter_ne, !lookup_insert_ne.
Qed.

Lemma compile_sources_contents vfs sheets result_dir sources :
  forall results w w' out,
  HtmlCompiler.compile_sources vfs sheets result_dir sources results w = (w', Ok out) ->
  NoDup (pdf_name result_dir <$> sources.*1) ->
  (forall s, s ∈ sources.*1 -> s ∉ pdf_name result_dir <$> sources.*1) ->
  Forall (fun s => exists html pdf,
            fs w !! s.1 = Some (File html)
            /\ weasyprint_write_pdf html sheets (HtmlCompiler._do_lookup vfs) = Ok pdf
            /\ fs w' !! pdf_name result_dir s.1 = Some (File pdf)) sources
  /\ (forall p, p ∉ pdf_name result_dir <$> sources.*1 -> fs w' !! p = fs w !! p).
Proof.
  induction sources as [|[source row] sources IH]; intros results w w' out Hrun Hnd Hsep.
  - apply ret_Ok in Hrun as [_ ->]. by split.
  - simpl in Hrun. fold (pdf_name result_dir source) in Hrun.
    apply bind_Ok in Hrun as (? & html & [Hhtml ->]%read_Ok & Hrun).
    apply bind_Ok in Hrun as (? & pdf & [Hpdf ->]%lift_Ok & Hrun).
    apply bind_Ok in Hrun as (w1 & ? & Hopen & Hrun).
    apply bind_Ok in Hrun as (w2 & ? & Hwrite & Hrun).
    assert (w2 = with_fs <[pdf_name result_dir source := File pdf]> w) as ->.
    { pose proof (write_new_file (pdf_name result_dir source) pdf w) as Hw.
      rewrite (bind_step _ _ _ _ _ Hopen), Hwrite in Hw. congruence. }
    csimpl in Hnd. apply NoDup_cons in Hnd as [Hdst Hnd].
    destruct (IH _ _ _ _ Hrun Hnd) as [Hall Hframe].
    { intros s Hs Hin. apply (Hsep s); csimpl; by right. }
    split.
    + constructor.
      * exists html, pdf. simpl. split; [done |]. split; [done |].
        rewrite (Hframe _ Hdst). simpl. by rewrite lookup_insert_eq.
      * rewrite Forall_forall in Hall |- *. intros s Hin.
        destruct (Hall s Hin) as (html' & pdf' & Hs & Hp & Hres). exists html', pdf'.
        split; [|done]. simpl in Hs. rewrite lookup_insert_ne in Hs; [done |].
        intros E. apply (Hsep s.1).
        -- csimpl. right. apply list_elem_of_fmap. by exists s.
        -- csimpl. rewrite E. left.
    + intros p Hp. csimpl in Hp. apply not_elem_of_cons in Hp as [Hne Hp].
      rewrite (Hframe _ Hp). simpl. by rewrite lookup_insert_ne.
Qed.


Lemma heap_only_split_pages vfs tpl pattern lookups data :
  heap_only (split_pages vfs tpl pattern lookups data).
Proof.
  induction data as [|row data IH]; simpl; [apply heap_only_ret |].
  apply heap_only_bind; [apply heap_only_dict_copy | intros c].
  apply heap_only_bind; [apply heap_only_render | intros title].
  apply heap_only_bind; [apply heap_only_render | intros body].
  apply heap_only_bind; [apply IH | intros pages]. apply heap_only_ret.
Qed.

Lemma compile_split_pages vfs tpl pattern lookups src_dir data :
  forall idx sources w w' out,
  TemplateCompiler.compile_split vfs tpl pattern lookups src_dir idx data sources w
    = (w', Ok out) ->
  exists pages,
    length pages = length data
    /\ (forall f, split_pages vfs tpl pattern lookups data (World f (heap w))
                  = (World f (heap w'), Ok pages))
    /\ (forall i title body,
          pages !! i = Some (title, body) ->
          fs w' !! html_name src_dir (idx + i)
          = Some (File (html_header title "fi" +:+ body +:+ html_footer)))
    /\ (forall p, (forall i, i < length data -> p <> html_name src_dir (idx + i)) ->
                  fs w' !! p = fs w !! p).
Proof.
  induction data as [|row data IH]; intros idx sources w w' out Hrun.
  - apply ret_Ok in Hrun as [_ ->]. exists []. repeat split; try done.
  - simpl in Hrun. fold (html_name src_dir idx) in Hrun.
    apply bind_Ok in Hrun as (w1 & c & Hc & Hrun).
    apply bind_Ok in Hrun as (w2 & title & Htitle & Hrun).
    apply bind_Ok in Hrun as (w3 & ? & Hopen & Hrun).
    apply bind_Ok in Hrun as (w4 & ? & Hhdr & Hrun).
    apply bind_Ok in Hrun as (w5 & body & Hbody & Hrun).
    apply bind_Ok in Hrun as (w6 & ? & Hwb & Hrun).
    apply bind_Ok in Hrun as (w7 & ? & Hwf & Hrun).
    destruct (IH _ _ _ _ _ Hrun) as (pages & Hlen & Hpages & Hfiles & Hframe).
    assert (fs w1 = fs w) as Hfs1.
    { pose proof Hc as Hc'. by apply dict_copy_Ok in Hc' as (o & _ & _ & ->). }
    pose proof (render_fs _ _ _ _ _ _ _ Htitle) as Hfs2.
    pose proof (render_fs _ _ _ _ _ _ _ Hbody) as Hfs5.
    unfold Fs.open_w, Fs.write in Hopen, Hhdr, Hwb, Hwf.
    simplify_eq. simpl in *.
    exists ((title, body) :: pages). split; [simpl; lia |]. split; [|split].
    + intros f. simpl.
      rewrite (bind_step _ _ _ _ _ (run_heap_only _ _ _ _
                 (heap_only_dict_copy row) Hc f)).
      rewrite (bind_step _ _ _ _ _ (run_heap_only _ _ _ _
                 (heap_only_render vfs pattern (Some c) []) Htitle f)).
      pose proof (run_heap_only _ _ _ _
                    (heap_only_render vfs tpl (Some c) lookups) Hbody f) as Hb.
      simpl in Hb. rewrite (bind_step _ _ _ _ _ Hb).
      specialize (Hpages f). simpl in Hpages. by rewrite (bind_step _ _ _ _ _ Hpages).
    + intros [|i] title' body' Hi.
      * injection Hi as <- <-. rewrite Nat.add_0_r, Hframe.
        -- simpl. rewrite !lookup_alter_eq, Hfs5. simpl.
           rewrite !lookup_alter_eq, lookup_insert_eq. simpl.
           by rewrite StrFacts.app_nil_l, StrFacts.app_assoc.
        -- intros i _ E%html_name_inj. lia.
      * replace (idx + S i) with (S (idx + i)) by lia. by apply Hfiles.
    + intros p Hp. rewrite Hframe.
      * assert (p <> html_name src_dir idx) as Hne.
        { specialize (Hp 0). rewrite Nat.add_0_r in Hp. apply Hp. simpl. lia. }
        simpl. rewrite !lookup_alter_ne, Hfs5 by done. simpl.
        rewrite lookup_alter_ne, lookup_insert_ne by done.
        by rewrite Hfs2, Hfs1.
      * intros i Hi. replace (S (idx + i)) with (idx + S i) by lia. apply Hp. simpl. lia.
Qed.

(** X10. The pages of the split mode. A split compilation that returns has built
    the lookup tables, loaded the Main template and compiled the title
    pattern, and source number i+1 is a complete document: the header with
    the title rendered on the copy of row i, the Main template rendered on
    the same copy with the lookup tables, and the footer. *)
Theorem split_page_contents (vfs : Vfs) (main_file_name src_dir : string)
    (data : DataSet) (title_pattern : string) (w w1 : world)
    (sources : list FileWithData) :
  TemplateCompiler.compile vfs main_file_name src_dir data title_pattern true w
    = (w1, Ok sources) ->
  exists lookups tpl pattern pages,
    find_lookup_tables (PyDict.values vfs) = Ok lookups
    /\ TemplateCompiler.get_template vfs main_file_name = Ok tpl
    /\ jinja_compile title_pattern = Ok pattern
    /\ split_pages vfs tpl pattern lookups data w = (World (fs w) (heap w1), Ok pages)
    /\ length pages = length data
    /\ (forall i title body,
          pages !! i = Some (title, body) ->
          fs w1 !! os_path.join src_dir (Str.format_03d (1 + i) +:+ ".html")
          = Some (File (html_header title "fi" +:+ body +:+ html_footer))).
Proof.
  intros Hrun. unfold TemplateCompiler.compile in Hrun.
  apply bind_Ok in Hrun as (? & lookups & [Hlut ->]%lift_Ok & Hrun).
  apply bind_Ok in Hrun as (? & tpl & [Htpl ->]%lift_Ok & Hrun).
  apply bind_Ok in Hrun as (? & pattern & [Hpat ->]%lift_Ok & Hrun).
  apply compile_split_pages in Hrun as (pages & Hlen & Hpages & Hfiles & _).
  exists lookups, tpl, pattern, pages. do 3 (split; [done |]).
  split; [specialize (Hpages (fs w)); by destruct w |]. split; [done |].
  intros i title body Hi. by apply Hfiles.
Qed.

(** X11. What [_HtmlCompiler.compile] makes of any list of sources. The
    stylesheets are parsed first; the results are the sources in order, each
    under [result_dir] with its base name and the extension [.pdf], with the
    row of its source; the heap is not touched. When the result names are
    distinct and none of them is a source, each result file holds the PDF
    weasyprint writes for the text of its source with the parsed
    stylesheets, and no other path changes. *)
Theorem html_compile_renders_each_source (vfs : Vfs) (sources : list FileWithData)
    (result_dir : string) (w w' : world) (results : list FileWithData) :
  HtmlCompiler.compile vfs sources result_dir w = (w', Ok results) ->
  let dst source :=
    os_path.join result_dir
      ((os_path.splitext (os_path.basename source)).1 +:+ ".pdf") in
  exists sheets,
    HtmlCompiler.parse_sheets vfs (HtmlCompiler.find_stylesheets (PyDict.values vfs))
    = Ok sheets
    /\ results = map (fun s => (dst s.1, s.2)) sources
    /\ heap w' = heap w
    /\ (NoDup (dst <$> sources.*1) ->
        (forall s, s ∈ sources.*1 -> s ∉ dst <$> sources.*1) ->
        Forall (fun s => exists html pdf,
                  fs w !! s.1 = Some (File html)
                  /\ weasyprint_write_pdf html sheets (HtmlCompiler._do_lookup vfs) = Ok pdf
                  /\ fs w' !! dst s.1 = Some (File pdf)) sources
        /\ (forall p, p ∉ results.*1 -> fs w' !! p = fs w !! p)).
Proof.
  intros Hrun dst. unfold HtmlCompiler.compile in Hrun.
  apply bind_Ok in Hrun as (? & sheets & [Hsheets ->]%lift_Ok & Hrun).
  exists sheets. split; [done |].
  destruct (compile_sources_Ok _ _ _ _ _ _ _ _ Hrun) as (Hres & Hheap & _).
  simpl in Hres. split; [done |]. split; [done |].
  intros Hnd Hsep.
  destruct (compile_sources_contents _ _ _ _ _ _ _ _ Hrun Hnd Hsep) as [Hall Hframe].
  split; [done |]. intros p Hp. apply Hframe. intros Hin. apply Hp.
  rewrite Hres. rewrite <- list_fmap_compose.
  by rewrite <- list_fmap_compose in Hin.
Qed.


Lemma world_eta (w : world) : World (fs w) (heap w) = w.
Proof. by destruct w. Qed.

Lemma mkdir_Ok (p : string) (w w' : world) (u : unit) :
  Fs.mkdir p w = (w', Ok u) -> heap w' = heap w.
Proof. unfold Fs.mkdir. destruct (fs w !! p); intros [= ]; by subst. Qed.

Lemma heap_only_merged_title vfs pattern data : heap_only (merged_title vfs pattern data).
Proof.
  unfold merged_title. destruct data as [|row [|row' data]].
  - apply heap_only_ret.
  - apply heap_only_bind; [apply heap_only_dict_copy | intros c].
    apply heap_only_bind; [apply heap_only_render | intros title]. apply heap_only_ret.
  - apply heap_only_bind; [apply heap_only_render | intros title]. apply heap_only_ret.
Qed.

(** The merged source: what the merged branch of [_TemplateCompiler.compile]
    leaves in [master.html]. *)
Lemma template_compile_merged_content vfs main_file_name src_dir data title_pattern
    w w1 sources :
  TemplateCompiler.compile vfs main_file_name src_dir data title_pattern false w
    = (w1, Ok sources) ->
  let master := os_path.join src_dir "master.html" in
  exists lookups tpl pattern row_copy title bodies wt,
    find_lookup_tables (PyDict.values vfs) = Ok lookups
    /\ TemplateCompiler.get_template vfs main_file_name = Ok tpl
    /\ jinja_compile title_pattern = Ok pattern
    /\ (forall f, merged_title vfs pattern data (World f (heap w))
                  = (World f (heap wt), Ok (row_copy, title)))
    /\ (forall f, render_rows vfs tpl lookups data (World f (heap wt))
                  = (World f (heap w1), Ok bodies))
    /\ length bodies = length data
    /\ sources = [(master, row_copy)]
    /\ fs w1 !! master
       = Some (File (html_header title "fi" +:+ concat_all bodies +:+ html_footer))
    /\ (forall p, p <> master -> fs w1 !! p = fs w !! p).
Proof.
  intros Hsrc master.
  unfold TemplateCompiler.compile in Hsrc. fold master in Hsrc.
  apply bind_Ok in Hsrc as (? & lookups & [Hlut ->]%lift_Ok & Hsrc).
  apply bind_Ok in Hsrc as (? & tpl & [Htpl ->]%lift_Ok & Hsrc).
  apply bind_Ok in Hsrc as (? & pattern & [Hpat ->]%lift_Ok & Hsrc).
  apply bind_Ok in Hsrc as (wc & row_copy & Hcopy & Hsrc).
  apply bind_Ok in Hsrc as (wt & title & Htitle & Hsrc).
  apply bind_Ok in Hsrc as (wo & ? & Hopen & Hsrc).
  apply bind_Ok in Hsrc as (wh & ? & Hhdr & Hsrc).
  apply bind_Ok in Hsrc as (wr & ? & Hrows & Hsrc).
  apply bind_Ok in Hsrc as (wf & ? & Hft & Hsrc).
  apply ret_Ok in Hsrc as [<- ->].
  destruct (write_rows_Ok _ _ _ _ _ _ _ _ Hrows) as (bodies & Hlen & Hspec & Hfs).
  unfold Fs.open_w, Fs.write in Hopen, Hhdr, Hft. simplify_eq. simpl in *.
  fold (append_to (html_header title "fi")) in *.
  fold (append_to html_footer) in *.
  assert (merged_title vfs pattern data w = (wt, Ok (row_copy, title))) as Hmt.
  { unfold merged_title. destruct data as [|row [|row' data]].
    - apply ret_Ok in Hcopy as [<- ->], Htitle as [<- ->]. done.
    - apply bind_Ok in Hcopy as (wc' & c & Hc & Hcopy).
      apply ret_Ok in Hcopy as [<- ->].
      by rewrite (bind_step _ _ _ _ _ Hc), (bind_step _ _ _ _ _ Htitle).
    - apply ret_Ok in Hcopy as [<- ->]. by rewrite (bind_step _ _ _ _ _ Htitle). }
  pose proof (heap_only_fs _ w (heap_only_merged_title vfs pattern data)) as Hfst.
  rewrite Hmt in Hfst. simpl in Hfst.
  exists lookups, tpl, pattern, row_copy, title, bodies, wt.
  do 3 (split; [done |]). split.
  { intros f. apply (run_heap_only _ _ _ _ (heap_only_merged_title _ _ _) Hmt). }
  split; [done |]. split; [done |]. split; [done |]. split.
  - rewrite lookup_alter_eq, Hfs, lookup_alter_eq, lookup_alter_eq, lookup_insert_eq.
    simpl. by rewrite StrFacts.app_assoc.
  - intros p Hp. rewrite lookup_alter_ne, Hfs, !lookup_alter_ne, lookup_insert_ne by done.
    by rewrite Hfst.
Qed.

Lemma master_names_differ (tmpdir : string) :
  os_path.join (os_path.join tmpdir "src") "master.html"
  <> pdf_name (os_path.join tmpdir "result")
       (os_path.join (os_path.join tmpdir "src") "master.html").
Proof.
  assert (pdf_name (os_path.join tmpdir "result")
            (os_path.join (os_path.join tmpdir "src") "master.html")
          = os_path.join (os_path.join tmpdir "result") "master.pdf") as ->.
  { unfold pdf_name. by rewrite PathFacts.basename_join. }
  intros E. apply (f_equal os_path.basename) in E.
  by rewrite !PathFacts.basename_join in E.
Qed.


(** X12. The non-archive response from end to end. With a Main file, a call that
    returns a response without [return_archive] streams one PDF: what
    weasyprint writes, with the parsed stylesheets of the Virtual File Set,
    for the document made of the header with the title, the Main template
    rendered on a copy of every row in order, and the footer. Its file name
    is what the name factory gives for the title's row with the fallback
    [result.pdf], which is the name when there is no naming pattern. Titles,
    bodies and name are rendered in this order on the heap of the call. *)
Theorem single_response_is_pdf_of_master (files : list FileVersion.t)
    (main : FileVersion.t) (filename_pattern : option string) (title_pattern : string)
    (data : DataSet) (w w' : world) (resp : HttpResponseBase) :
  find_main files = Some main ->
  render_pdf files filename_pattern title_pattern data false w = (w', Ok resp) ->
  let vfs := files_to_vfs files in
  exists lookups tpl pattern sheets name_tpl row_copy title bodies pdf file_name wt wr wn,
    find_lookup_tables (PyDict.values vfs) = Ok lookups
    /\ TemplateCompiler.get_template vfs (name_of main) = Ok tpl
    /\ jinja_compile title_pattern = Ok pattern
    /\ HtmlCompiler.parse_sheets vfs (HtmlCompiler.find_stylesheets (PyDict.values vfs))
       = Ok sheets
    /\ name_template vfs filename_pattern = Ok name_tpl
    /\ merged_title vfs pattern data w = (wt, Ok (row_copy, title))
    /\ render_rows vfs tpl lookups data wt = (wr, Ok bodies)
    /\ length bodies = length data
    /\ weasyprint_write_pdf
         (html_header title "fi" +:+ concat_all bodies +:+ html_footer) sheets
         (HtmlCompiler._do_lookup vfs) = Ok pdf
    /\ NameFactory_make vfs name_tpl row_copy "result.pdf" wr = (wn, Ok file_name)
    /\ resp = FileResponse (File pdf) "application/pdf" (Some file_name)
    /\ heap w' = heap wn
    /\ (filename_pattern = None \/ filename_pattern = Some "" ->
        file_name = "result.pdf").
Proof.
  intros Hmain Hrun vfs. unfold render_pdf in Hrun. rewrite Hmain in Hrun. fold vfs in Hrun.
  apply make_temp_dir_Ok in Hrun as (Hfresh & w3 & Hbody & Hrm).
  set (tmp := mkdtemp_name (fs w)) in *.
  unfold render_in in Hbody.
  apply bind_Ok in Hbody as (w2 & results & Hstages & Hbody).
  apply bind_Ok in Hbody as (? & name_tpl & [Hname ->]%lift_Ok & Hresp).
  unfold compile_stages in Hstages.
  apply bind_Ok in Hstages as (wa & ? & Hmk1 & Hstages).
  apply bind_Ok in Hstages as (wb & ? & Hmk2 & Hstages).
  apply bind_Ok in Hstages as (w1 & sources & Hsrc & Hpdf).
  apply mkdir_Ok in Hmk1, Hmk2. simpl in Hmk1.
  destruct (template_compile_merged_content _ _ _ _ _ _ _ _ Hsrc)
    as (lookups & tpl & pattern & row_copy & title & bodies & wt
        & Hlut & Htpl & Hpat & Htitle & Hrows & Hlen & -> & Hmaster & _).
  unfold HtmlCompiler.compile in Hpdf.
  apply bind_Ok in Hpdf as (? & sheets & [Hsheets ->]%lift_Ok & Hpdf).
  destruct (compile_sources_Ok _ _ _ _ _ _ _ _ Hpdf) as (-> & Hheap2 & _).
  destruct (compile_sources_contents _ _ _ _ _ _ _ _ Hpdf) as [Hall _].
  { csimpl. apply NoDup_singleton. }
  { csimpl. intros s ->%list_elem_of_singleton Hin%list_elem_of_singleton.
    by apply master_names_differ in Hin. }
  apply Forall_singleton in Hall as (html & pdf & Hhtml & Hwrite & Hfile).
  simpl in Hhtml, Hfile, Hresp. rewrite Hmaster in Hhtml. injection Hhtml as <-.
  unfold respond_single in Hresp. rewrite decide_False in Hresp by (simpl; lia).
  apply bind_Ok in Hresp as (w4 & file_name & Hmake & Hresp).
  apply bind_Ok in Hresp as (? & stream & Hopen & Hresp).
  apply ret_Ok in Hresp as [<- ->].
  pose proof (heap_only_fs _ w2 (heap_only_NameFactory_make vfs name_tpl row_copy
                                   "result.pdf")) as Hfs4.
  rewrite Hmake in Hfs4. simpl in Hfs4.
  unfold Fs.open_rb in Hopen. rewrite Hfs4, Hfile in Hopen. injection Hopen as <- <-.
  pose proof (run_heap_only _ _ _ _ (heap_only_NameFactory_make vfs name_tpl row_copy
                                       "result.pdf") Hmake (fs w)) as Hmake'.
  exists lookups, tpl, pattern, sheets, name_tpl, row_copy, title, bodies, pdf, file_name,
    (World (fs w) (heap wt)), (World (fs w) (heap w1)), (World (fs w) (heap w4)).
  do 5 (split; [done |]). split.
  { rewrite <- (world_eta w) at 1. rewrite <- Hmk1, <- Hmk2. apply Htitle. }
  split; [apply Hrows |]. split; [done |]. split; [done |]. split.
  { by rewrite <- Hheap2. }
  split; [done |]. split.
  { unfold Fs.rmtree in Hrm. by destruct (fs w4 !! tmp) as [[| |]|]; simplify_eq. }
  intros Hnone.
  assert (name_tpl = None) as ->.
  { destruct Hnone as [-> | ->]; simpl in Hname; congruence. }
  rewrite NameFactory_make_absent in Hmake. by injection Hmake as _ <-.
Qed.


Lemma numbered_no_slash (idx : nat) (ext : string) :
  Str.mem Str.slash ext = false ->
  Str.mem Str.slash (Str.format_03d idx +:+ ext) = false.
Proof.
  intros Hext. rewrite StrFacts.mem_app, Hext.
  rewrite (StrFacts.all_digits_mem Str.slash)
    by auto using StrFacts.slash_not_digit, StrFacts.all_digits_format.
  done.
Qed.

Lemma numbered_splitext (idx : nat) (ext : string) :
  Str.mem Str.dot ext = false -> Str.mem Str.slash ext = false ->
  os_path.splitext (Str.format_03d idx +:+ String Str.dot ext)
  = (Str.format_03d idx, String Str.dot ext).
Proof.
  intros Hd Hs.
  apply PathFacts.splitext_plain; [apply StrFacts.format_nonempty | | | done | done].
  - apply StrFacts.all_digits_mem; auto using StrFacts.dot_not_digit, StrFacts.all_digits_format.
  - apply StrFacts.all_digits_mem; auto using StrFacts.slash_not_digit, StrFacts.all_digits_format.
Qed.

Lemma pdf_name_numbered result_dir src_dir idx :
  pdf_name result_dir (html_name src_dir idx)
  = os_path.join result_dir (Str.format_03d idx +:+ ".pdf").
Proof. unfold pdf_name, html_name. by rewrite PathFacts.pdf_of_html. Qed.

Lemma numbered_names_differ src_dir result_dir i j :
  html_name src_dir i <> pdf_name result_dir (html_name src_dir j).
Proof.
  rewrite pdf_name_numbered. unfold html_name. intros E.
  apply (f_equal os_path.basename) in E.
  rewrite !PathFacts.basename_join in E by (by apply numbered_no_slash).
  apply (f_equal os_path.splitext) in E.
  change ".html" with (String Str.dot "html") in E.
  change ".pdf" with (String Str.dot "pdf") in E.
  rewrite !numbered_splitext in E by done. discriminate.
Qed.

Lemma archive_names_absent vfs results w :
  archive_names vfs None results w = (w, Ok (map (fun r => os_path.basename r.1) results)).
Proof.
  induction results as [|[pdf row] results IH]; simpl; [done |].
  unfold bind at 1. simpl. unfold bind at 1. by rewrite IH.
Qed.

Lemma zip_numbered {A} (g : nat -> string) (l : list A) :
  zip (g <$> seq 0 (length l)) l = imap (fun i c => (g i, c)) l.
Proof.
  revert g. induction l as [|x l IH]; intros g; simpl; [done |].
  f_equal. rewrite <- fmap_S_seq, <- list_fmap_compose. apply (IH (g ∘ S)).
Qed.

(** X13. The archive response from end to end. With a Main file, a call that
    returns a response with [return_archive] set streams a zip archive with
    one entry per row, in row order: entry i holds what weasyprint writes,
    with the parsed stylesheets of the Virtual File Set, for the document
    made of the header with the title of row i, the Main template rendered
    on the copy of row i, and the footer. Without a naming pattern (none, or
    an empty one) entry i is named by its number: i+1 padded to three digits
    and [.pdf]. *)
Theorem archive_response_is_zip_of_pages (files : list FileVersion.t)
    (main : FileVersion.t) (filename_pattern : option string) (title_pattern : string)
    (data : DataSet) (w w' : world) (resp : HttpResponseBase) :
  find_main files = Some main ->
  render_pdf files filename_pattern title_pattern data true w = (w', Ok resp) ->
  let vfs := files_to_vfs files in
  exists lookups tpl pattern sheets name_tpl pages pdfs names wr,
    find_lookup_tables (PyDict.values vfs) = Ok lookups
    /\ TemplateCompiler.get_template vfs (name_of main) = Ok tpl
    /\ jinja_compile title_pattern = Ok pattern
    /\ HtmlCompiler.parse_sheets vfs (HtmlCompiler.find_stylesheets (PyDict.values vfs))
       = Ok sheets
    /\ name_template vfs filename_pattern = Ok name_tpl
    /\ split_pages vfs tpl pattern lookups data w = (wr, Ok pages)
    /\ length pages = length data
    /\ Forall2 (fun page pdf =>
                  weasyprint_write_pdf
                    (html_header page.1 "fi" +:+ page.2 +:+ html_footer) sheets
                    (HtmlCompiler._do_lookup vfs) = Ok pdf) pages pdfs
    /\ length names = length data
    /\ resp = FileResponse (ZipArchive (zip names pdfs)) "application/zip" None
    /\ (filename_pattern = None \/ filename_pattern = Some "" ->
        resp = FileResponse
                 (ZipArchive (imap (fun i pdf => (Str.format_03d (1 + i) +:+ ".pdf", pdf))
                                pdfs))
                 "application/zip" None).
Proof.
  intros Hmain Hrun vfs. unfold render_pdf in Hrun. rewrite Hmain in Hrun. fold vfs in Hrun.
  apply make_temp_dir_Ok in Hrun as (Hfresh & w3 & Hbody & Hrm).
  set (tmp := mkdtemp_name (fs w)) in *.
  unfold render_in in Hbody.
  apply bind_Ok in Hbody as (w2 & results & Hstages & Hbody).
  apply bind_Ok in Hbody as (? & name_tpl & [Hname ->]%lift_Ok & Hresp).
  unfold compile_stages in Hstages.
  set (src_dir := os_path.join tmp "src") in *.
  set (result_dir := os_path.join tmp "result") in *.
  apply bind_Ok in Hstages as (wa & ? & Hmk1 & Hstages).
  apply bind_Ok in Hstages as (wb & ? & Hmk2 & Hstages).
  apply bind_Ok in Hstages as (w1 & sources & Hsrc & Hpdf).
  apply mkdir_Ok in Hmk1, Hmk2. simpl in Hmk1.
  unfold TemplateCompiler.compile in Hsrc.
  apply bind_Ok in Hsrc as (? & lookups & [Hlut ->]%lift_Ok & Hsrc).
  apply bind_Ok in Hsrc as (? & tpl & [Htpl ->]%lift_Ok & Hsrc).
  apply bind_Ok in Hsrc as (? & pattern & [Hpat ->]%lift_Ok & Hsrc).
  destruct (compile_split_Ok _ _ _ _ _ _ _ _ _ _ _ Hsrc)
    as (copies & Hcopies & Hout & _).
  destruct (compile_split_pages _ _ _ _ _ _ _ _ _ _ _ Hsrc)
    as (pages & Hlen & Hpages & Hfiles & _).
  simpl in Hout.
  assert (sources.*1 = (fun i => html_name src_dir (1 + i)) <$> seq 0 (length data))
    as Hnames.
  { rewrite Hout, <- Hcopies.
    apply (fst_imap_names (fun i => html_name src_dir (1 + i)) Some). }
  unfold HtmlCompiler.compile in Hpdf.
  apply bind_Ok in Hpdf as (? & sheets & [Hsheets ->]%lift_Ok & Hpdf).
  destruct (compile_sources_Ok _ _ _ _ _ _ _ _ Hpdf) as (Hres & Hheap2 & _).
  simpl in Hres.
  destruct (compile_sources_contents _ _ _ _ _ _ _ _ Hpdf) as [Hall _].
  { rewrite Hnames, <- list_fmap_compose. apply NoDup_fmap_2; [|apply NoDup_seq].
    intros i j E. apply pdf_name_inj in E. lia. }
  { intros s Hs Hin. rewrite Hnames in Hs, Hin.
    apply elem_of_imap_names in Hs as (i & _ & ->).
    rewrite <- list_fmap_compose in Hin.
    apply list_elem_of_fmap in Hin as (j & E & _). by apply numbered_names_differ in E. }
  apply respond_archive_Ok in Hresp
    as (made & names & pdfs & wn & Hlen_n & Hnames_run & Hentries & Hzip & ->).
  pose proof (Forall2_length _ _ _ Hentries) as Hlen_e.
  assert (length results = length data) as Hlen_r.
  { by rewrite Hres, length_map, Hout, length_imap. }
  assert (forall i, i < length data ->
            results !! i = Some (pdf_name result_dir (html_name src_dir (1 + i)),
                                 copies !! i)
            /\ exists c, copies !! i = Some c
                         /\ sources !! i = Some (html_name src_dir (1 + i), Some c))
    as Hith.
  { intros i Hi. destruct (lookup_lt_is_Some_2 copies i) as [c Hc]; [lia |].
    assert (sources !! i = Some (html_name src_dir (1 + i), Some c)) as Hs.
    { rewrite Hout. by rewrite list_lookup_imap, Hc. }
    split; [|by exists c]. rewrite Hres, list_lookup_fmap, Hs, Hc. done. }
  exists lookups, tpl, pattern, sheets, name_tpl, pages, pdfs, names,
    (World (fs w) (heap w1)).
  do 5 (split; [done |]). split.
  { rewrite <- (world_eta w) at 1. rewrite <- Hmk1, <- Hmk2. apply Hpages. }
  split; [done |]. split.
  { apply Forall2_same_length_lookup_2.
    { rewrite Hlen, <- Hlen_r. by apply Forall2_length in Hzip. }
    intros i [title body] pdf Hpage Hpdf_i. simpl.
    assert (i < length data) as Hi by (rewrite <- Hlen; by eapply lookup_lt_Some).
    destruct (Hith i Hi) as (Hr & c & Hc & Hs).
    rewrite Forall_forall in Hall.
    destruct (Hall _ (list_elem_of_lookup_2 _ _ _ Hs))
      as (html & pdf' & Hhtml & Hwrite & Hfile).
    simpl in Hhtml, Hfile.
    assert (fs w1 !! html_name src_dir (1 + i)
            = Some (File (html_header title "fi" +:+ body +:+ html_footer))) as Hpage_i
      by (by apply Hfiles).
    destruct (Forall2_lookup_l _ _ _ _ _ Hzip Hr) as (pdf'' & Hp'' & Hfile'').
    simpl in Hfile''. change (1 + i) with (S i) in Hpage_i. congruence. }
  split; [congruence |]. split; [done |].
  intros Hnone.
  assert (name_tpl = None) as ->.
  { destruct Hnone as [-> | ->]; simpl in Hname; congruence. }
  rewrite archive_names_absent in Hnames_run. injection Hnames_run as _ <-.
  do 2 f_equal.
  assert (map (fun r : FileWithData => os_path.basename r.1) results
          = (fun i => Str.format_03d (1 + i) +:+ ".pdf") <$> seq 0 (length pdfs))
    as Hmade.
  { apply Forall2_length in Hzip. rewrite <- Hzip, Hlen_r.
    apply list_eq. intros i. change (map ?f ?l) with (f <$> l).
    rewrite !list_lookup_fmap.
    destruct (decide (i < length data)) as [Hi | Hi].
    - destruct (Hith i Hi) as (-> & _). rewrite lookup_seq_lt by done. simpl.
      rewrite pdf_name_numbered, PathFacts.basename_join; [done |].
      by apply numbered_no_slash.
    - rewrite lookup_seq_ge by lia. rewrite lookup_ge_None_2 by lia. done. }
  rewrite Hmade in Hentries.
  assert (names = (fun i => Str.format_03d (1 + i) +:+ ".pdf") <$> seq 0 (length pdfs))
    as ->.
  { clear -Hentries. revert names Hentries.
    induction (seq 0 (length pdfs)) as [|i l IH]; intros names Hentries.
    - by apply Forall2_nil_inv_l in Hentries.
    - apply Forall2_cons_inv_l in Hentries as (entry & names' & He & Hrest & ->).
      csimpl. rewrite zip_entry_name_numbered in He. injection He as <-.
      by rewrite (IH _ Hrest). }
  apply zip_numbered.
Qed.


End contents.

(** ** The renderer at work

    The runs below are on the small runtime of [Demo]: two rows, four files
    of which two share the name [codes.csv]. *)

Example demo_vfs_last_wins :
  PyDict.get "codes.csv" Demo.vfs = Some Demo.codes_csv'
  /\ PyDict.keys Demo.vfs = ["style.css"; "codes.csv"; "main.html"]
  /\ find_lookup_tables (H := Demo.runtime) Demo.files = Ok [("codes", "c,d")].
Proof. repeat split; reflexivity. Qed.

Example demo_fetcher :
  HtmlCompiler._do_lookup Demo.vfs "file:///style.css" = Ok (Fetched "p{}" "style.css")
  /\ HtmlCompiler._do_lookup Demo.vfs "file:///logo.png" = Raise KeyError
  /\ HtmlCompiler._do_lookup Demo.vfs "https://example.org/logo.png"
     = Raise (ValueError "Invalid URL to look up for").
Proof. repeat split; reflexivity. Qed.

Example demo_loader :
  TemplateCompiler._do_lookup Demo.vfs "main.html" = Some ("Hello ", "main.html")
  /\ TemplateCompiler._do_lookup Demo.vfs "codes.csv" = None
  /\ TemplateCompiler._do_lookup Demo.vfs "missing.html" = None.
Proof. repeat split; reflexivity. Qed.

(** A syntax error in the title aborts the call; nothing is left of the
    temporary directory either. *)
Example demo_exception_cleans :
  render_pdf (H := Demo.runtime) Demo.files None "{%" [0; 1] false Demo.w0
  = (Demo.w0, Raise (LibraryError "TemplateSyntaxError")).
Proof. vm_compute. reflexivity. Qed.

Example demo_responses :
  status_code Demo.archive_response = 200
  /\ Demo.single_response
     = FileResponse
         (File ("%PDF " +:+ html_header "T" "fi" +:+ "Hello AnnHello Bob" +:+ html_footer))
         "application/pdf" (Some "result.pdf")
  /\ fs Demo.archive_call.1 = fs Demo.w0.
Proof. repeat split; vm_compute; reflexivity. Qed.

Lemma demo_render_frame : @render_frame Demo.runtime.
Proof.
  intros load t row kw h. simpl. unfold Demo.render.
  case_decide; [by split |]. destruct row as [l|]; [|by split].
  destruct (h !! l) eqn:E; simpl; [|by split].
  split; [by rewrite length_insert |].
  intros l' Hne _. apply list_lookup_insert_ne. congruence.
Qed.




(** C8 on the two rows, named by the template [x]: a zip of two entries. *)
Lemma archive_one_entry_per_result_witness :
  Exists (fun fv => type_of fv = ProjectFile.Main) Demo.files
  /\ render_pdf (H := Demo.runtime) Demo.files (Some "x") "T" [0; 1] true Demo.w0
     = (Demo.archive_call.1, Ok Demo.archive_response)
  /\ exists names entry_names contents,
       Demo.archive_response
       = FileResponse (ZipArchive (zip entry_names contents)) "application/zip" None
       /\ Forall2 (fun name entry => Fs.zip_entry_name name = Ok entry) names entry_names
       /\ length entry_names = length contents.
Proof.
  assert (Exists (fun fv => type_of fv = ProjectFile.Main) Demo.files) as H0.
  { apply Exists_exists. exists Demo.main_html. split; [|reflexivity].
    apply list_elem_of_In. simpl. tauto. }
  assert (render_pdf (H := Demo.runtime) Demo.files (Some "x") "T" [0; 1] true Demo.w0
          = (Demo.archive_call.1, Ok Demo.archive_response)) as H1
    by (vm_compute; reflexivity).
  split; [exact H0 |]. split; [exact H1 |].
  destruct (archive_one_entry_per_result Demo.files (Some "x") "T" [0; 1] Demo.w0
              Demo.archive_call.1 Demo.archive_response H0 H1)
    as (main & w1 & results & name_tpl & names & entry_names & contents & wn & _ & _ & _
        & _ & _ & Hlen & Hentries & Hall & Hresp & _).
  exists names, entry_names, contents. split; [exact Hresp |]. split; [exact Hentries |].
  rewrite <- (Forall2_length _ _ _ Hentries), Hlen. exact (Forall2_length _ _ _ Hall).
Defined.

(** The name of an entry is not always the name the factory made: under the
    naming template [/x] the factory gives [/xAnn], the entry is [xAnn]. *)
Example demo_entry_name_normalised :
  (NameFactory_make (H := Demo.runtime) Demo.vfs (Some "/x") (Some 0) "001.pdf" Demo.w0).2
  = Ok "/xAnn"
  /\ exists c,
       (render_pdf (H := Demo.runtime) Demo.files (Some "/x") "T" [0] true Demo.w0).2
       = Ok (FileResponse (ZipArchive [("xAnn", c)]) "application/zip" None).
Proof. split; [reflexivity |]. eexists. vm_compute. reflexivity. Qed.

(** C9 on the two rows: the merged PDF as a 200 file response. *)
Lemma non_archive_single_result_witness :
  is_Some (find_main Demo.files)
  /\ render_pdf (H := Demo.runtime) Demo.files None "T" [0; 1] false Demo.w0
     = (Demo.single_call.1, Ok Demo.single_response)
  /\ status_code Demo.single_response = 200.
Proof.
  assert (is_Some (find_main Demo.files)) as H0 by (by eexists).
  assert (render_pdf (H := Demo.runtime) Demo.files None "T" [0; 1] false Demo.w0
          = (Demo.single_call.1, Ok Demo.single_response)) as H1
    by (vm_compute; reflexivity).
  split; [exact H0 |]. split; [exact H1 |].
  exact (proj1 (proj2 (proj2 (non_archive_single_result Demo.files None "T" [0; 1] Demo.w0
                                Demo.single_call.1 Demo.single_response H0 H1)))).
Defined.

(** C10 on the two rows, with templates that write to their row: the rows of
    the caller are as they were, the copies carry the mark. *)
Lemma caller_rows_unchanged_witness :
  @render_frame Demo.runtime
  /\ heap Demo.archive_call.1 !! 0 = Some Demo.ann
  /\ heap Demo.archive_call.1 !! 1 = Some Demo.bob
  /\ heap Demo.archive_call.1 !! 2 = Some (PyDict.set "seen" (VStr "yes") Demo.ann).
Proof.
  split; [exact demo_render_frame |].
  pose proof (proj1 (caller_rows_unchanged (H := Demo.runtime) Demo.files (Some "x") "T"
                       [0; 1] true Demo.w0 demo_render_frame)) as Hkept.
  split; [exact (Hkept 0 Demo.ann eq_refl) |].
  split; [exact (Hkept 1 Demo.bob eq_refl) |].
  vm_compute. reflexivity.
Defined.

(** C8 as first stated fails without a Main file: the call is an archive
    call and its response is the 404 one, not a zip archive. *)
Lemma archive_call_without_main :
  exists resp,
    render_pdf (H := Demo.runtime) [Demo.style_css; Demo.codes_csv] (Some "x") "T" [0; 1]
      true Demo.w0 = (Demo.w0, Ok resp)
    /\ status_code resp = 404
    /\ forall entries, resp <> FileResponse (ZipArchive entries) "application/zip" None.
Proof.
  exists (HttpResponse "Main file not found" 404). split; [reflexivity |].
  split; [reflexivity |]. intros entries. discriminate.
Qed.

(** C1 as first stated fails on the content type: the 404 response is an
    [HttpResponse] built without one, so it is [text/html], not plain
    text. *)
Lemma not_found_response_is_html :
  exists resp,
    render_pdf (H := Demo.runtime) [Demo.style_css] None "T" [0; 1] false Demo.w0
    = (Demo.w0, Ok resp)
    /\ status_code resp = 404
    /\ content_type_of resp = "text/html; charset=utf-8"
    /\ Str.startswith (content_type_of resp) "text/plain" = false.
Proof.
  exists (HttpResponse "Main file not found" 404). repeat split; reflexivity.
Qed.

(** C1 on the runs of the small runtime: the 404 response without a Main
    file, the 200 file response of a call with one, and the three answers of
    the non-archive branch. *)
Lemma render_pdf_responses_witness :
  render_pdf (H := Demo.runtime) [Demo.style_css] None "T" [0; 1] false Demo.w0
  = (Demo.w0, Ok (HttpResponse "Main file not found" 404))
  /\ Exists (fun fv => type_of fv = ProjectFile.Main) Demo.files
  /\ (exists c,
        (render_pdf (H := Demo.runtime) Demo.files None "T" [0; 1] false Demo.w0).2
        = Ok (FileResponse (File c) "application/pdf" (Some "result.pdf")))
  /\ status_code Demo.single_response <> 404
  /\ respond_single (H := Demo.runtime) Demo.vfs None [] Demo.w0
     = (Demo.w0, Ok (HttpResponse "" 201))
  /\ respond_single (H := Demo.runtime) Demo.vfs None [("/etc/motd", None)] Demo.w0
     = (Demo.w0, Ok (FileResponse (File "hi") "application/pdf" (Some "result.pdf")))
  /\ respond_single (H := Demo.runtime) Demo.vfs None
       [("/etc/motd", None); ("/etc/motd", None)] Demo.w0
     = (Demo.w0, Ok (HttpResponse "" 401)).
Proof.
  destruct (render_pdf_responses (H := Demo.runtime))
    as (H404 & Honly & Hmain & H201 & H200 & H401).
  assert (Exists (fun fv => type_of fv = ProjectFile.Main) Demo.files) as Hex.
  { apply Exists_exists. exists Demo.main_html. split; [|reflexivity].
    apply list_elem_of_In. simpl. tauto. }
  split; [apply H404; repeat constructor; discriminate |].
  split; [exact Hex |]. split.
  { destruct (Hmain Demo.files None "T" [0; 1] Demo.w0 Hex eq_refl)
      as (main & before & after & Hfiles & Hty & Hbefore & Hcall).
    assert (main = Demo.main_html) as ->.
    { unfold Demo.files in Hfiles.
      destruct before as [|f0 before]; [injection Hfiles as <- _; discriminate Hty |].
      injection Hfiles as <- Hfiles.
      destruct before as [|f1 before]; [injection Hfiles as <- _; discriminate Hty |].
      injection Hfiles as <- Hfiles.
      destruct before as [|f2 before]; [by injection Hfiles as <- _ |].
      injection Hfiles as <- Hfiles.
      apply Forall_cons in Hbefore as [_ Hbefore].
      apply Forall_cons in Hbefore as [_ Hbefore].
      apply Forall_cons in Hbefore as [Hm _]. by destruct Hm. }
    set (stages := compile_stages (H := Demo.runtime) (files_to_vfs Demo.files)
                     Demo.main_html "/tmp/tmpq" "T" [0; 1] false
                     (with_fs <["/tmp/tmpq" := Dir]> Demo.w0)).
    assert (stages = (stages.1, Ok [("/tmp/tmpq/result/master.pdf", None)])) as Hst
      by (vm_compute; reflexivity).
    destruct (Hcall stages.1 _ None Hst eq_refl)
      as (_ & pdf & row & c & Hres & _ & Hresp).
    exists c. injection Hres as <- <-.
    exact (Hresp stages.1 "result.pdf" eq_refl). }
  split.
  { intros E.
    assert (render_pdf (H := Demo.runtime) Demo.files None "T" [0; 1] false Demo.w0
            = (Demo.single_call.1, Ok Demo.single_response)) as Hrun
      by (vm_compute; reflexivity).
    apply (Honly _ _ _ _ _ _ _ _ Hrun) in E.
    apply Exists_exists in Hex as (fv & Hin & Hty).
    rewrite Forall_forall in E. exact (E fv Hin Hty). }
  split; [apply H201 |]. split.
  - by apply (H200 Demo.vfs None "/etc/motd" None Demo.w0 Demo.w0 "result.pdf" "hi").
  - apply H401. simpl. lia.
Defined.

(** ** The further properties at work *)

Lemma demo_fresh_dir (p : string) :
  Fs.inside "/tmp/tmpq" p = true -> fs Demo.w0 !! p = None.
Proof.
  intros Hp. destruct (decide (p = "/etc/motd")) as [-> | Hne]; [done |].
  simpl. by apply lookup_singleton_ne.
Qed.

(** The first Main file of the four files, and none among the others. *)
Lemma find_main_first_witness :
  find_main Demo.files = Some Demo.main_html
  /\ find_main [Demo.style_css; Demo.codes_csv] = None.
Proof.
  split.
  - apply (proj2 (find_main_first Demo.files)).
    exists [Demo.style_css; Demo.codes_csv], [Demo.codes_csv'].
    split; [reflexivity |]. split; [reflexivity |]. repeat constructor; discriminate.
  - apply (proj1 (find_main_first [Demo.style_css; Demo.codes_csv])).
    repeat constructor; discriminate.
Defined.

(** An HTML file uploaded later under the name of the Main file: the Main
    file is still the one found, the later content is what is compiled. *)
Lemma main_template_is_last_of_its_name_witness :
  find_main Uploads.shadowed = Some Demo.main_html
  /\ TemplateCompiler.get_template (H := Demo.runtime) (files_to_vfs Uploads.shadowed)
       "main.html" = Ok "Bye ".
Proof.
  assert (find_main Uploads.shadowed = Some Demo.main_html) as Hmain by reflexivity.
  split; [exact Hmain |].
  destruct (main_template_is_last_of_its_name (H := Demo.runtime) Uploads.shadowed
              Demo.main_html Hmain) as (fv & Hlast & _ & Htpl & _).
  vm_compute in Hlast. injection Hlast as <-. exact Htpl.
Defined.

(** A block that writes one file: kept with [keep], removed without. *)
Lemma make_temp_dir_contract_witness :
  make_temp_dir (H := Demo.runtime) true Uploads.touch Demo.w0
  = Uploads.touch "/tmp/tmpq" (with_fs <["/tmp/tmpq" := Dir]> Demo.w0)
  /\ (make_temp_dir (H := Demo.runtime) false Uploads.touch Demo.w0).2 = Ok tt
  /\ fs (make_temp_dir (H := Demo.runtime) false Uploads.touch Demo.w0).1 !! "/tmp/tmpq/f"
     = None.
Proof.
  assert (mkdtemp (H := Demo.runtime) Demo.w0
          = (with_fs <["/tmp/tmpq" := Dir]> Demo.w0, Ok "/tmp/tmpq")) as Hmk
    by reflexivity.
  split.
  - exact (proj1 (proj2 (make_temp_dir_contract (H := Demo.runtime) true Uploads.touch
                           Demo.w0) _ _ Hmk) eq_refl).
  - destruct (proj1 (proj2 (proj2 (make_temp_dir_contract (H := Demo.runtime) false
                                     Uploads.touch Demo.w0) _ _ Hmk)) eq_refl)
      as (Hout & _ & Hfs).
    { reflexivity. }
    split; [exact Hout |]. rewrite Hfs. reflexivity.
Defined.

(** The call on the two rows returns what its block returns. *)
Lemma render_pdf_outcome_is_block_outcome_witness :
  find_main Demo.files = Some Demo.main_html
  /\ (render_pdf (H := Demo.runtime) Demo.files None "T" [0; 1] false Demo.w0).2
     = (render_in (H := Demo.runtime) Demo.vfs Demo.main_html None "T" [0; 1] false
          "/tmp/tmpq" (with_fs <["/tmp/tmpq" := Dir]> Demo.w0)).2
  /\ fs (render_pdf (H := Demo.runtime) Demo.files None "T" [0; 1] false Demo.w0).1
     = fs Demo.w0.
Proof.
  assert (find_main Demo.files = Some Demo.main_html) as Hmain by reflexivity.
  split; [exact Hmain |].
  destruct (render_pdf_outcome_is_block_outcome (H := Demo.runtime) Demo.files
              Demo.main_html None "T" [0; 1] false Demo.w0 Hmain eq_refl)
    as (Hout & _ & _ & _ & Hfs).
  split; [exact Hout |]. exact (Hfs demo_fresh_dir).
Defined.

(** A title pattern that does not compile: the call raises, nothing has
    changed. *)
Lemma failed_validation_leaves_no_trace_witness :
  find_main Demo.files = Some Demo.main_html
  /\ render_pdf (H := Demo.runtime) Demo.files None "{%" [0; 1] true Demo.w0
     = (Demo.w0, Raise (LibraryError "TemplateSyntaxError")).
Proof.
  assert (find_main Demo.files = Some Demo.main_html) as Hmain by reflexivity.
  split; [exact Hmain |].
  apply (failed_validation_leaves_no_trace (H := Demo.runtime) Demo.files Demo.main_html
           None "{%" [0; 1] true Demo.w0 _ Hmain eq_refl demo_fresh_dir).
  reflexivity.
Defined.

(** With [row.csv] among the files, no row can be rendered. *)
Lemma lookup_table_named_row_witness :
  find_lookup_tables (H := Demo.runtime) (PyDict.values (files_to_vfs Uploads.clashing))
  = Ok [("codes", "c,d"); ("row", "x")]
  /\ exists w' e,
       TemplateCompiler.compile (H := Demo.runtime) (files_to_vfs Uploads.clashing)
         "main.html" "/t/src" [0] "T" true Demo.w0 = (w', Raise e).
Proof.
  assert (find_lookup_tables (H := Demo.runtime)
            (PyDict.values (files_to_vfs Uploads.clashing))
          = Ok [("codes", "c,d"); ("row", "x")]) as Hlut by reflexivity.
  split; [exact Hlut |].
  apply (proj2 (lookup_table_named_row (H := Demo.runtime) _ _ "x" Hlut eq_refl)).
  discriminate.
Defined.

(** The Main template is fetched under its [file:///] URL. *)
Lemma loader_names_are_fetchable_witness :
  TemplateCompiler._do_lookup Demo.vfs "main.html" = Some ("Hello ", "main.html")
  /\ HtmlCompiler._do_lookup Demo.vfs "file:///main.html"
     = Ok (Fetched "Hello " "main.html").
Proof.
  assert (TemplateCompiler._do_lookup Demo.vfs "main.html" = Some ("Hello ", "main.html"))
    as Hload by reflexivity.
  split; [exact Hload |].
  exact (proj2 (proj1 (loader_names_are_fetchable Demo.vfs "main.html")
                  _ _ Hload)).
Defined.

(** The one stylesheet of the four files. *)
Lemma stylesheets_of_vfs_witness :
  PyDict.keys Demo.vfs = ["style.css"; "codes.csv"; "main.html"]
  /\ Demo.style_css ∈ HtmlCompiler.find_stylesheets (PyDict.values Demo.vfs).
Proof.
  destruct (stylesheets_of_vfs Demo.files)
    as (Hkeys & _ & _ & Hin & _).
  split; [exact Hkeys |]. apply Hin. split; reflexivity.
Defined.

(** The tables of the four files come from the second [codes.csv]. *)
Lemma lookup_tables_come_from_vfs_witness :
  exists fv,
    type_of fv = ProjectFile.CSV
    /\ make_name (Runtime := Demo.runtime) (name_of fv) = "codes"
    /\ make_lut (Runtime := Demo.runtime) (FileVersion.data fv) = Ok "c,d".
Proof.
  pose proof (lookup_tables_come_from_vfs (H := Demo.runtime) Demo.files) as Hluts.
  change (find_lookup_tables (PyDict.values (files_to_vfs Demo.files)))
    with (Ok (A := dict string) [("codes", "c,d")]) in Hluts.
  destruct Hluts as [Hfrom _].
  destruct (Hfrom "codes" "c,d" eq_refl) as (fv & Hty & Hlast & Hname & Hlut).
  exists fv. split; [exact Hty |]. split; [exact Hname | exact Hlut].
Defined.

(** The two pages of the split run, as they are written. *)
Lemma split_page_contents_witness :
  TemplateCompiler.compile (H := Demo.quiet) Demo.vfs "main.html" "/t/src" [0; 1] "T" true
    Demo.w0 = (Demo.split_world, Ok Demo.split_sources)
  /\ exists pages,
       length pages = 2
       /\ forall i title body,
            pages !! i = Some (title, body) ->
            fs Demo.split_world !! os_path.join "/t/src" (Str.format_03d (1 + i) +:+ ".html")
            = Some (File (html_header title "fi" +:+ body +:+ html_footer)).
Proof.
  assert (TemplateCompiler.compile (H := Demo.quiet) Demo.vfs "main.html" "/t/src" [0; 1]
            "T" true Demo.w0 = (Demo.split_world, Ok Demo.split_sources)) as H1
    by (vm_compute; reflexivity).
  split; [exact H1 |].
  destruct (split_page_contents (H := Demo.quiet) Demo.vfs "main.html" "/t/src" [0; 1] "T"
              Demo.w0 Demo.split_world Demo.split_sources H1)
    as (lookups & tpl & pattern & pages & _ & _ & _ & _ & Hlen & Hfiles).
  exists pages. split; [exact Hlen | exact Hfiles].
Defined.

(** The two PDFs of the split run. *)
Lemma html_compile_renders_each_source_witness :
  HtmlCompiler.compile (H := Demo.quiet) Demo.vfs Demo.split_sources "/t/result"
    Demo.split_world = (Demo.split_world_pdf, Ok Demo.split_results)
  /\ exists sheets,
       Forall (fun s : FileWithData => exists html pdf,
                 fs Demo.split_world !! s.1 = Some (File html)
                 /\ weasyprint_write_pdf (Runtime := Demo.quiet) html sheets
                      (HtmlCompiler._do_lookup Demo.vfs) = Ok pdf
                 /\ fs Demo.split_world_pdf
                      !! os_path.join "/t/result"
                           ((os_path.splitext (os_path.basename s.1)).1 +:+ ".pdf")
                    = Some (File pdf)) Demo.split_sources.
Proof.
  assert (HtmlCompiler.compile (H := Demo.quiet) Demo.vfs Demo.split_sources "/t/result"
            Demo.split_world = (Demo.split_world_pdf, Ok Demo.split_results)) as H2
    by (vm_compute; reflexivity).
  split; [exact H2 |].
  destruct (html_compile_renders_each_source (H := Demo.quiet) Demo.vfs Demo.split_sources
              "/t/result" Demo.split_world Demo.split_world_pdf Demo.split_results H2)
    as (sheets & _ & _ & _ & Hfiles).
  exists sheets. apply Hfiles.
  - apply (bool_decide_unpack _). vm_compute. exact I.
  - intros s Hs. apply (bool_decide_unpack _).
    repeat (apply elem_of_cons in Hs as [-> | Hs]; [vm_compute; exact I |]).
    by apply not_elem_of_nil in Hs.
Defined.

(** The merged PDF of the two rows under its default name. *)
Lemma single_response_is_pdf_of_master_witness :
  find_main Demo.files = Some Demo.main_html
  /\ render_pdf (H := Demo.runtime) Demo.files None "T" [0; 1] false Demo.w0
     = (Demo.single_call.1, Ok Demo.single_response)
  /\ exists title bodies pdf,
       length bodies = 2
       /\ weasyprint_write_pdf (Runtime := Demo.runtime)
            (html_header title "fi" +:+ concat_all bodies +:+ html_footer) ["p{}"]
            (HtmlCompiler._do_lookup Demo.vfs) = Ok pdf
       /\ Demo.single_response
          = FileResponse (File pdf) "application/pdf" (Some "result.pdf").
Proof.
  assert (find_main Demo.files = Some Demo.main_html) as Hmain by reflexivity.
  assert (render_pdf (H := Demo.runtime) Demo.files None "T" [0; 1] false Demo.w0
          = (Demo.single_call.1, Ok Demo.single_response)) as Hrun
    by (vm_compute; reflexivity).
  split; [exact Hmain |]. split; [exact Hrun |].
  destruct (single_response_is_pdf_of_master (H := Demo.runtime) Demo.files Demo.main_html
              None "T" [0; 1] Demo.w0 Demo.single_call.1 Demo.single_response Hmain Hrun)
    as (lookups & tpl & pattern & sheets & name_tpl & row_copy & title & bodies & pdf
        & file_name & wt & wr & wn & _ & _ & _ & Hsheets & _ & _ & _ & Hlen & Hpdf & _
        & Hresp & _ & Hname).
  exists title, bodies, pdf. split; [exact Hlen |].
  injection Hsheets as <-. split; [exact Hpdf |].
  rewrite Hresp, (Hname (or_introl eq_refl)). reflexivity.
Defined.

(** The archive of the two rows without a naming pattern: [001.pdf] and
    [002.pdf]. *)
Lemma archive_response_is_zip_of_pages_witness :
  find_main Demo.files = Some Demo.main_html
  /\ render_pdf (H := Demo.runtime) Demo.files None "T" [0; 1] true Demo.w0
     = (Uploads.plain_archive_call.1, Ok Uploads.plain_archive_response)
  /\ exists pdfs,
       Uploads.plain_archive_response
       = FileResponse
           (ZipArchive (imap (fun i pdf => (Str.format_03d (1 + i) +:+ ".pdf", pdf)) pdfs))
           "application/zip" None
       /\ length pdfs = 2.
Proof.
  assert (find_main Demo.files = Some Demo.main_html) as Hmain by reflexivity.
  assert (render_pdf (H := Demo.runtime) Demo.files None "T" [0; 1] true Demo.w0
          = (Uploads.plain_archive_call.1, Ok Uploads.plain_archive_response)) as Hrun
    by (vm_compute; reflexivity).
  split; [exact Hmain |]. split; [exact Hrun |].
  destruct (archive_response_is_zip_of_pages (H := Demo.runtime) Demo.files Demo.main_html
              None "T" [0; 1] Demo.w0 Uploads.plain_archive_call.1
              Uploads.plain_archive_response Hmain Hrun)
    as (lookups & tpl & pattern & sheets & name_tpl & pages & pdfs & names & wr
        & _ & _ & _ & _ & _ & _ & Hlen & Hall & _ & _ & Hnames).
  exists pdfs. split; [exact (Hnames (or_introl eq_refl)) |].
  rewrite <- (Forall2_length _ _ _ Hall). exact Hlen.
Defined.

(** No rows, archive mode: an empty archive, the world as it was. *)
Lemma empty_dataset_gives_empty_archive_witness :
  find_main Demo.files = Some Demo.main_html
  /\ render_pdf (H := Demo.runtime) Demo.files (Some "x") "T" [] true Demo.w0
     = (Demo.w0, Ok (FileResponse (ZipArchive []) "application/zip" None)).
Proof.
  assert (find_main Demo.files = Some Demo.main_html) as Hmain by reflexivity.
  split; [exact Hmain |].
  refine (proj1 (empty_dataset_gives_empty_archive (H := Demo.runtime) Demo.files
                   Demo.main_html (Some "x") "T" Demo.w0 [("codes", "c,d")] "Hello " "T"
                   ["p{}"] (Some "x") Hmain eq_refl demo_fresh_dir _ _ _ _ _));
    reflexivity.
Defined.

(** A lookup table named [self] clashes as well: the call fails before the
    template is rendered. *)
Example demo_self_clash :
  TemplateCompiler.render (H := Demo.runtime) Demo.vfs "T" None [("self", "x")] Demo.w0
  = (Demo.w0, Raise (TypeError "got multiple values for argument 'self'")).
Proof. reflexivity. Qed.
